(** * real-kb: the knowledge-base aggregator, embedded and verified

    A shallow embedding of the TypeScript sources
    [src/youtrack-kb.ts], [src/support-site.ts], [src/github-search.ts]
    and of the tool registry ([tools.ts]), with the properties the
    specification states about them.

    Conventions of the embedding.
    - A JavaScript string is a [string].  The characters the sources
      look at (slashes, digits, white space, newlines, the characters
      of their literals) are code units below 256 and stand for
      themselves.  The library functions whose result depends on the
      other code units of a string ([encodeURIComponent], [new URL],
      [cheerio.load]) are parameters of the embedding, and each is taken
      with the failure it has: [encodeURIComponent] throws on a string
      with a lone surrogate, [new URL] on a string that is not a URL.
    - A JavaScript number used as a page size is a [Z].
    - An optional argument ([limit?: number], [limit: number = 10]) is an
      [option]; [None] is [undefined].
    - An [async] function is a computation in the monad [Async]: it reads
      the upstream services, appends to a trace of observable events
      (requests made, lines written by [console.error]) and either
      resolves to a value or rejects with an error message. *)

From Stdlib Require Import String Ascii List ZArith Bool Lia DecimalString.
Import ListNotations.
Open Scope string_scope.

(** ** JavaScript string primitives used by the sources *)

Module JS.

Definition number := Z.

(** [String(n)] for an integer [n]: plain decimal digits, with a
    leading minus sign when negative.  JavaScript prints exactly this
    for every integer of magnitude below 10^21. *)
Definition String_of_number (n : number) : string :=
  NilZero.string_of_int (Z.to_int n).

(** [Number.isSafeInteger] *)
Definition isSafeInteger (n : number) : Prop :=
  (- (2 ^ 53 - 1) <= n <= 2 ^ 53 - 1)%Z.

(** [Array.prototype.join] *)
Definition join (sep : string) (parts : list string) : string :=
  String.concat sep parts.

(** [s.endsWith(suffix)] *)
Fixpoint endsWith (s suffix : string) : bool :=
  if String.eqb s suffix then true
  else match s with
       | EmptyString => false
       | String _ s' => endsWith s' suffix
       end.

(** [s.startsWith(p)] *)
Fixpoint startsWith (s p : string) {struct p} : bool :=
  match p, s with
  | EmptyString, _ => true
  | String a p', String b s' => Ascii.eqb a b && startsWith s' p'
  | String _ _, EmptyString => false
  end.

(** Truthiness of a string: only [''] is falsy. *)
Definition truthy (s : string) : bool :=
  match s with EmptyString => false | _ => true end.

(** [a || b] on strings. *)
Definition or_else (a b : string) : string := if truthy a then a else b.

(** [a || b] where [a] may be [undefined]. *)
Definition opt_or_else (a : option string) (b : string) : string :=
  match a with Some s => or_else s b | None => b end.

(** [parts.push(x)], as a function of the array. *)
Definition push {A : Type} (parts : list A) (x : A) : list A :=
  (parts ++ [x])%list.

(** [a || []] where [a] may be [undefined]: an array is truthy. *)
Definition or_empty {A : Type} (a : option (list A)) : list A :=
  match a with Some l => l | None => [] end.

(** [a ?? b] *)
Definition nullish {A : Type} (a : option A) (b : A) : A :=
  match a with Some x => x | None => b end.

Definition newline : ascii := "010"%char.
Definition nl : string := String newline EmptyString.

(** White space in the sense of [String.prototype.trim], among the code
    units below 256: TAB, LF, VT, FF, CR, SPACE and NBSP. *)
Definition isWhiteSpace (c : ascii) : bool :=
  let n := nat_of_ascii c in
  ((9 <=? n)%nat && (n <=? 13)%nat) || (n =? 32)%nat || (n =? 160)%nat.

Fixpoint trimStart (s : string) : string :=
  match s with
  | EmptyString => EmptyString
  | String c s' => if isWhiteSpace c then trimStart s' else s
  end.

(** [trimEnd] keeps a character when it is not white space or when
    something remains after it. *)
Fixpoint trimEnd (s : string) : string :=
  match s with
  | EmptyString => EmptyString
  | String c s' =>
      match trimEnd s' with
      | EmptyString => if isWhiteSpace c then EmptyString
                       else String c EmptyString
      | r => String c r
      end
  end.

Definition trim (s : string) : string := trimEnd (trimStart s).

(** The last character of a string, if any. *)
Fixpoint lastChar (s : string) : option ascii :=
  match s with
  | EmptyString => None
  | String c EmptyString => Some c
  | String _ s' => lastChar s'
  end.

(** [s.includes(needle)] *)
Fixpoint includes (s needle : string) : bool :=
  startsWith s needle
  || match s with
     | EmptyString => false
     | String _ s' => includes s' needle
     end.

(** The string begins, or ends, with a white space character. *)
Definition startsWithWhiteSpace (s : string) : bool :=
  match s with
  | EmptyString => false
  | String c _ => isWhiteSpace c
  end.

Definition endsWithWhiteSpace (s : string) : bool :=
  match lastChar s with
  | Some c => isWhiteSpace c
  | None => false
  end.

Fixpoint allWhiteSpace (s : string) : bool :=
  match s with
  | EmptyString => true
  | String c s' => isWhiteSpace c && allWhiteSpace s'
  end.

Definition isDigit (c : ascii) : bool :=
  let n := nat_of_ascii c in (48 <=? n)%nat && (n <=? 57)%nat.

End JS.

(** ** Asynchronous computations over the upstream services

    The three upstream services are read-only: the answer to a request
    depends on the request alone.  Under that assumption the results of
    tasks that are outstanding together do not depend on how their
    requests interleave.

    What the trace records, and what it does not.
    - Within one task the events are in the order of the program.
    - Across the tasks of one [Promise.all] the trace lists the events
      task by task, in the order in which the tasks were started.  For
      tasks that make one request each this is the order of the
      program, which issues the request of a task when it starts it.
      When a task goes on after its first request (the knowledge-base
      adapter fetches each hit), the program interleaves its later
      events with those of the other tasks as the answers arrive.  That
      interleaving is not represented: a trace after such a
      [Promise.all] is to be read as the events that happened, task by
      task, and not as the order in which they happened across tasks.
    - A request is recorded with the URL as the program writes it (the
      string it gives to [new URL] or to [fetch]) and with the search
      parameters it sets.  The URL parser then serialises that URL
      (dot segments are removed, the host is put in lower case) and the
      serialisation is what is sent.  The serialisation is not
      represented: [req_url] says what the program asks for, not where
      a request ends up. *)

Module Net.

(** [process.env] *)
Definition Env := string -> option string.

(** A request as the program states it: the URL it writes, the search
    parameters it sets on it, and the headers. *)
Record Request := {
  req_url : string;
  req_params : list (string * string);
  req_headers : list (string * string) }.

(** What [fetch] resolves to: the status line, the body as
    [response.text()] gives it, and the body as [response.json()] gives
    it, read at the type the caller declares for it ([inl message] when
    [response.json()] rejects). *)
Record Response (A : Type) := {
  status : JS.number;
  text : string;
  json : string + A }.

Arguments status {A} _.
Arguments text {A} _.
Arguments json {A} _.

(** [response.ok] *)
Definition ok {A : Type} (r : Response A) : bool :=
  (200 <=? status r)%Z && (status r <=? 299)%Z.

(** The answer of a service to a request: the transport fails and
    [fetch] rejects, or a response arrives. *)
Inductive Answer (A : Type) :=
| Unreachable (message : string)
| Responds (r : Response A).

Arguments Unreachable {A} _.
Arguments Responds {A} _.

(** An endpoint of a service, seen at the type its caller reads. *)
Definition Endpoint (A : Type) := Request -> Answer A.

(** The upstream call fails: a transport error or a non-2xx response. *)
Definition fails {A : Type} (a : Answer A) : bool :=
  match a with
  | Unreachable _ => true
  | Responds r => negb (ok r)
  end.

Inductive Event :=
| Fetch (r : Request)
| ConsoleError (label detail : string).

Definition Trace := list Event.

Inductive Outcome (A : Type) :=
| Resolved (a : A)
| Rejected (message : string).

Arguments Resolved {A} _.
Arguments Rejected {A} _.

Definition Async (A : Type) := Trace -> Outcome A * Trace.

Definition ret {A : Type} (a : A) : Async A := fun t => (Resolved a, t).

(** [throw new Error(message)] *)
Definition throw {A : Type} (message : string) : Async A :=
  fun t => (Rejected message, t).

(** [const x = await c; k x] *)
Definition bind {A B : Type} (c : Async A) (k : A -> Async B) : Async B :=
  fun t =>
    match c t with
    | (Resolved a, t') => k a t'
    | (Rejected e, t') => (Rejected e, t')
    end.

(** [try { body } catch (error) { handler error }] *)
Definition try_catch {A : Type} (body : Async A) (handler : string -> Async A)
  : Async A :=
  fun t =>
    match body t with
    | (Resolved a, t') => (Resolved a, t')
    | (Rejected e, t') => handler e t'
    end.

(** [fetch(request)]: the request is made, then the promise settles
    with the answer of the service. *)
Definition fetch {A : Type} (endpoint : Endpoint A) (r : Request)
  : Async (Response A) :=
  fun t =>
    match endpoint r with
    | Unreachable e => (Rejected e, JS.push t (Fetch r))
    | Responds resp => (Resolved resp, JS.push t (Fetch r))
    end.

(** [response.json()] *)
Definition readJson {A : Type} (r : Response A) : Async A :=
  match json r with
  | inl e => throw e
  | inr data => ret data
  end.

(** [console.error(label, error)] *)
Definition console_error (label detail : string) : Async unit :=
  fun t => (Resolved tt, JS.push t (ConsoleError label detail)).

(** [Promise.all] of two tasks.  Both have been started, so both run
    to completion; the result rejects when one of them does.  The
    events of the first task are listed before those of the second,
    which fixes the result and the events that happen but not the order
    in which the program interleaves them. *)
Definition Promise_all2 {A B : Type} (a : Async A) (b : Async B)
  : Async (A * B) :=
  fun t =>
    let (ra, t1) := a t in
    let (rb, t2) := b t1 in
    match ra, rb with
    | Resolved x, Resolved y => (Resolved (x, y), t2)
    | Rejected e, _ => (Rejected e, t2)
    | _, Rejected e => (Rejected e, t2)
    end.

(** [Promise.all] of an array of tasks of one type. *)
Fixpoint Promise_all {A : Type} (tasks : list (Async A)) : Async (list A) :=
  match tasks with
  | [] => ret []
  | task :: rest =>
      fun t =>
        match Promise_all2 task (Promise_all rest) t with
        | (Resolved (x, xs), t') => (Resolved (x :: xs), t')
        | (Rejected e, t') => (Rejected e, t')
        end
  end.

(** A computation that settles with a value, whatever the trace so
    far: it never rejects. *)
Definition resolves {A : Type} (c : Async A) : Prop :=
  forall t, exists a t', c t = (Resolved a, t').

(** The requests of a trace, in order. *)
Fixpoint requests (t : Trace) : list Request :=
  match t with
  | [] => []
  | Fetch r :: t' => r :: requests t'
  | ConsoleError _ _ :: t' => requests t'
  end.

(** A computation that makes no request. *)
Definition quiet {A : Type} (c : Async A) : Prop :=
  forall t, requests (snd (c t)) = requests t.

(** The lines written by [console.error] in a trace, in order. *)
Fixpoint consoleErrors (t : Trace) : list (string * string) :=
  match t with
  | [] => []
  | Fetch _ :: t' => consoleErrors t'
  | ConsoleError label detail :: t' => (label, detail) :: consoleErrors t'
  end.

(** [url.searchParams.get(key)] *)
Fixpoint param (key : string) (ps : list (string * string)) : option string :=
  match ps with
  | [] => None
  | (k, v) :: ps' => if String.eqb k key then Some v else param key ps'
  end.

End Net.

Declare Scope async_scope.
Delimit Scope async_scope with async.
Notation "x <- c ;; k" := (Net.bind c (fun x => k))
  (at level 61, c at next level, right associativity) : async_scope.
Notation "c ;;; k" := (Net.bind c (fun _ => k))
  (at level 61, right associativity) : async_scope.

(** ** [src/youtrack-kb.ts] *)

Module YoutrackKb.
Import Net.
Local Open Scope async_scope.

Record Project := {
  project_id : string;
  name : string;
  shortName : string }.

(** [{ id; idReadable; summary }], the shape of [parentArticle] and of
    the entries of [childArticles]. *)
Record ArticleRef := {
  ref_id : string;
  ref_idReadable : string;
  ref_summary : string }.

Record YouTrackArticle := {
  id : string;
  idReadable : string;
  summary : string;
  content : option string;
  created : option JS.number;
  updated : option JS.number;
  project : option Project;
  parentArticle : option ArticleRef;
  childArticles : option (list ArticleRef) }.

(** The knowledge base as the adapter reads it.  [GET /articles]
    answers with an array of articles ([None]: a JSON value that is not
    an array); [GET /articles/{id}] answers with an article ([None]: a
    falsy JSON value such as [null]). *)
Record Server := {
  articles : Endpoint (option (list YouTrackArticle));
  article : Endpoint (option YouTrackArticle) }.

Definition slash : ascii := "/"%char.

(** [url.replace(/\/+$/, '')]: the run of slashes that reaches the end
    of the string is removed. *)
Fixpoint stripTrailingSlashes (s : string) : string :=
  match s with
  | EmptyString => EmptyString
  | String c s' =>
      match stripTrailingSlashes s' with
      | EmptyString => if Ascii.eqb c slash then EmptyString
                       else String c EmptyString
      | r => String c r
      end
  end.

(** A string made of slashes only. *)
Fixpoint allSlashes (s : string) : bool :=
  match s with
  | EmptyString => true
  | String c s' => Ascii.eqb c slash && allSlashes s'
  end.

Section Adapter.

Variable env : Env.

(** [URL.canParse]: whether [new URL(s)] succeeds; it throws a
    [TypeError] otherwise. *)
Variable URL_canParse : string -> bool.

Variable server : Server.

Definition YOUTRACK_BASE_URL : string :=
  JS.opt_or_else (env "YOUTRACK_BASE_URL") "".
Definition YOUTRACK_TOKEN : string :=
  JS.opt_or_else (env "YOUTRACK_TOKEN") "".
Definition YOUTRACK_DEFAULT_PROJECT : string :=
  JS.opt_or_else (env "YOUTRACK_DEFAULT_PROJECT") "".

Definition getBaseUrl : string :=
  let url := stripTrailingSlashes YOUTRACK_BASE_URL in
  if negb (JS.endsWith url "/api") then url ++ "/api" else url.

(** [new URL(base + path)] throws when the string does not parse.
    The request is recorded with the string that was parsed; what
    [url.toString()] makes of it is not represented. *)
Definition youtrackFetch {A : Type} (endpoint : Endpoint A) (path : string)
  (params : list (string * string)) : Async A :=
  let base := getBaseUrl in
  if negb (URL_canParse (base ++ path)) then throw "Invalid URL" else
  let request :=
    {| req_url := base ++ path;
       req_params := params;
       req_headers := [ ("Authorization", "Bearer " ++ YOUTRACK_TOKEN);
                    ("Accept", "application/json");
                    ("Content-Type", "application/json") ] |} in
  response <- fetch endpoint request ;;
  if negb (ok response) then
    throw ("YouTrack API error " ++ JS.String_of_number (status response)
           ++ ": " ++ text response)
  else readJson response.

Definition searchFields : string :=
  "id,idReadable,summary,content,created,updated,project(id,name,shortName),parentArticle(id,idReadable,summary)".

Definition searchKBArticles (query : string) (limit : option JS.number)
  : Async (list YouTrackArticle) :=
  let limit := JS.nullish limit 10%Z in
  let fields := searchFields in
  try_catch
    (articles <- youtrackFetch (articles server) "/articles"
                   [ ("query", query);
                     ("fields", fields);
                     ("$top", JS.String_of_number limit) ] ;;
     ret (match articles with Some l => l | None => [] end))
    (fun error =>
       console_error "Error searching KB articles:" error ;;;
       ret []).

Definition getKBArticle (articleId : string) : Async (option YouTrackArticle) :=
  let fields :=
    "id,idReadable,summary,content,created,updated,project(id,name,shortName),parentArticle(id,idReadable,summary),childArticles(id,idReadable,summary)" in
  try_catch
    (article <- youtrackFetch (article server) ("/articles/" ++ articleId)
                  [ ("fields", fields) ] ;;
     ret article)
    (fun error =>
       console_error ("Error fetching KB article " ++ articleId ++ ":") error ;;;
       ret None).

(** [depth] is accepted and not used. *)
Definition getArticleTree (projectShortName : option string)
  (depth : option JS.number) : Async (list YouTrackArticle) :=
  let depth := JS.nullish depth 3%Z in
  let project := JS.opt_or_else projectShortName YOUTRACK_DEFAULT_PROJECT in
  let query := if JS.truthy project then "project: " ++ project else "" in
  let fields :=
    "id,idReadable,summary,project(id,name,shortName),parentArticle(id,idReadable,summary),childArticles(id,idReadable,summary)" in
  try_catch
    (articles <- youtrackFetch (articles server) "/articles"
                   [ ("query", query);
                     ("fields", fields);
                     ("$top", "100") ] ;;
     ret (match articles with Some l => l | None => [] end))
    (fun error =>
       console_error "Error fetching article tree:" error ;;;
       ret []).

Definition formatRef (c : ArticleRef) : string :=
  ref_summary c ++ " (" ++ ref_idReadable c ++ ")".

Definition formatArticle (article : YouTrackArticle) : string :=
  let parts := [ "## " ++ summary article; "**ID:** " ++ idReadable article ] in
  let parts :=
    match project article with
    | Some p =>
        JS.push parts ("**Project:** " ++ name p ++ " (" ++ shortName p ++ ")")
    | None => parts
    end in
  let parts :=
    match parentArticle article with
    | Some p =>
        JS.push parts ("**Parent:** " ++ ref_summary p ++ " (" ++ ref_idReadable p ++ ")")
    | None => parts
    end in
  let parts :=
    match childArticles article with
    | Some (c :: cs) =>
        JS.push parts ("**Sub-articles:** " ++ JS.join ", " (map formatRef (c :: cs)))
    | _ => parts
    end in
  let parts :=
    match content article with
    | Some body => if JS.truthy body then JS.push (JS.push parts "") body else parts
    | None => parts
    end in
  JS.join JS.nl parts.

(** The loop [for (const article of articles) { ... }] of
    [searchAndFetchArticles], with [results] as its accumulator: one
    full fetch after the other. *)
Fixpoint fetchEach (articles : list YouTrackArticle) (results : list string)
  : Async (list string) :=
  match articles with
  | [] => ret results
  | article :: rest =>
      fullArticle <- getKBArticle (JS.or_else (idReadable article) (id article)) ;;
      match fullArticle with
      | Some full => fetchEach rest (JS.push results (formatArticle full))
      | None => fetchEach rest results
      end
  end.

(** What the full fetch of one search hit contributes to the output:
    its block, or nothing when the fetch comes back absent. *)
Definition fetchedBlocks (hit : YouTrackArticle) : list string :=
  match fst (getKBArticle (JS.or_else (idReadable hit) (id hit)) []) with
  | Resolved (Some full) => [ formatArticle full ]
  | _ => []
  end.

Definition noArticlesFound : string :=
  "No YouTrack knowledge base articles found for this query.".

Definition separator : string :=
  JS.nl ++ JS.nl ++ "---" ++ JS.nl ++ JS.nl.

Definition searchAndFetchArticles (query : string) (maxArticles : option JS.number)
  : Async string :=
  let maxArticles := JS.nullish maxArticles 5%Z in
  articles <- searchKBArticles query (Some maxArticles) ;;
  match articles with
  | [] => ret noArticlesFound
  | _ =>
      results <- fetchEach articles [] ;;
      ret (JS.join separator results)
  end.

End Adapter.

End YoutrackKb.

(** ** [src/support-site.ts] *)

Module SupportSite.
Import Net.
Local Open Scope async_scope.

Definition ZENDESK_API_BASE : string :=
  "https://support.therealbrokerage.com/api/v2/help_center".

Record SupportArticle := {
  title : string;
  url : string;
  snippet : option string }.

Record ZendeskArticle := {
  z_id : JS.number;
  z_title : string;
  html_url : string;
  body : string;
  z_snippet : option string;
  section_id : JS.number;
  label_names : option (list string);
  created_at : string;
  updated_at : string }.

(** The body of [GET .../articles/search.json]; [results] may be
    missing. *)
Record SearchData := { results : option (list ZendeskArticle) }.

(** The body of [GET .../articles/{id}.json]; [article] may be missing. *)
Record ArticleData := { article : option ZendeskArticle }.

Record Server := {
  search : Endpoint SearchData;
  articleById : Endpoint ArticleData }.

(** *** The document tree that [cheerio.load] builds *)

#[local] Unset Elimination Schemes.

Inductive Node :=
| Text (data : string)
| Comment (data : string)
| Element (tagName : string) (children : list Node).

#[local] Set Elimination Schemes.

Definition isOneOf (names : list string) (tag : string) : bool :=
  existsb (String.eqb tag) names.

(** [$('script, style').remove()] *)
Fixpoint removeScriptStyle (n : Node) : list Node :=
  match n with
  | Element tag children =>
      if isOneOf ["script"; "style"] tag then []
      else [ Element tag (flat_map removeScriptStyle children) ]
  | other => [ other ]
  end.

(** A [script] or [style] element occurs in a node. *)
Fixpoint hasScriptStyle (n : Node) : bool :=
  match n with
  | Element tag children =>
      isOneOf ["script"; "style"] tag || existsb hasScriptStyle children
  | _ => false
  end.

(** [.text()]: the text nodes below a node, concatenated in document
    order. *)
Fixpoint textContent (n : Node) : string :=
  match n with
  | Text data => data
  | Comment _ => EmptyString
  | Element _ children => String.concat EmptyString (map textContent children)
  end.

Definition selectedTags : list string :=
  [ "h1"; "h2"; "h3"; "h4"; "h5"; "h6"; "p"; "li"; "tr"; "blockquote" ].

Definition nestedBlockTags : list string :=
  [ "h1"; "h2"; "h3"; "h4"; "h5"; "h6"; "ul"; "ol"; "table"; "blockquote" ].

(** [$('h1, h2, h3, h4, h5, h6, p, li, tr, blockquote')]: the matching
    elements below a node, the node included, in document order. *)
Fixpoint select (n : Node) : list Node :=
  match n with
  | Element tag children =>
      ((if isOneOf selectedTags tag then [ n ] else [])
       ++ flat_map select children)%list
  | _ => []
  end.

Definition isNestedBlock (n : Node) : bool :=
  match n with
  | Element tag _ => isOneOf nestedBlockTags tag
  | _ => false
  end.

(** [$node.clone().children('h1,...,blockquote').remove().end().text().trim()] *)
Definition ownText (n : Node) : string :=
  match n with
  | Element _ children =>
      JS.trim (String.concat EmptyString
                 (map textContent (filter (fun c => negb (isNestedBlock c)) children)))
  | other => JS.trim (textContent other)
  end.

Definition tagOf (n : Node) : string :=
  match n with
  | Element tag _ => tag
  | _ => EmptyString
  end.

(** The callback of [.each]: what one selected node adds to [lines].
    Element names are lower case, as the HTML parser produces them. *)
Definition visit (lines : list string) (node : Node) : list string :=
  let tag := tagOf node in
  let text := ownText node in
  if negb (JS.truthy text) then lines
  else if String.eqb tag "h1" then JS.push lines (JS.nl ++ "# " ++ text)
  else if String.eqb tag "h2" then JS.push lines (JS.nl ++ "## " ++ text)
  else if String.eqb tag "h3" then JS.push lines (JS.nl ++ "### " ++ text)
  else if isOneOf ["h4"; "h5"; "h6"] tag then
    JS.push lines (JS.nl ++ "**" ++ text ++ "**")
  else if String.eqb tag "li" then JS.push lines ("- " ++ text)
  else if String.eqb tag "blockquote" then JS.push lines ("> " ++ text)
  else JS.push lines text.

(** A line with a character that is not white space. *)
Definition nonblank (line : string) : bool := negb (JS.allWhiteSpace line).

(** Two neighbours of a list of lines are equal. *)
Fixpoint hasRepeat (lines : list string) : bool :=
  match lines with
  | [] => false
  | x :: rest =>
      match rest with
      | [] => false
      | y :: _ => String.eqb x y || hasRepeat rest
      end
  end.

(** The lines emitted for a document. *)
Definition emittedLines (document : list Node) : list string :=
  let document := flat_map removeScriptStyle document in
  fold_left visit (flat_map select document) [].

(** The loop that drops a line equal to the one kept just before it. *)
Definition dedupeStep (result : list string) (line : string) : list string :=
  if (length result =? 0)%nat
     || negb (String.eqb (last result EmptyString) line)
  then JS.push result line
  else result.

Definition dedupe (lines : list string) : list string :=
  fold_left dedupeStep lines [].

(** [s.replace(/\n{3,}/g, '\n\n')].  [pending] counts the newlines of
    the run being read; when the run ends it is written back, as two
    newlines if it had three or more. *)
Fixpoint newlines (n : nat) : string :=
  match n with
  | O => EmptyString
  | S n' => String JS.newline (newlines n')
  end.

Definition flushRun (pending : nat) : string :=
  if (3 <=? pending)%nat then newlines 2 else newlines pending.

Fixpoint collapseFrom (pending : nat) (s : string) : string :=
  match s with
  | EmptyString => flushRun pending
  | String c s' =>
      if Ascii.eqb c JS.newline then collapseFrom (S pending) s'
      else flushRun pending ++ String c (collapseFrom 0 s')
  end.

Definition collapseNewlines (s : string) : string := collapseFrom 0 s.

Definition startsWithNewline (s : string) : bool := JS.startsWith s JS.nl.

Definition endsWithNewline (s : string) : bool :=
  match JS.lastChar s with
  | Some c => Ascii.eqb c JS.newline
  | None => false
  end.

(** Everything of [htmlToMarkdown] after [cheerio.load(html)]. *)
Definition markdownOfDocument (document : list Node) : string :=
  let lines := emittedLines document in
  let result := dedupe lines in
  JS.trim (collapseNewlines (JS.join JS.nl result)).

(** [url.match(/\/articles\/(\d+)/)]: the first capture group of the
    leftmost match, if the pattern matches anywhere. *)
Fixpoint stripPrefix (p s : string) : option string :=
  match p, s with
  | EmptyString, _ => Some s
  | String a p', String b s' =>
      if Ascii.eqb a b then stripPrefix p' s' else None
  | String _ _, EmptyString => None
  end.

Fixpoint takeDigits (s : string) : string :=
  match s with
  | EmptyString => EmptyString
  | String c s' => if JS.isDigit c then String c (takeDigits s') else EmptyString
  end.

Fixpoint allDigits (s : string) : bool :=
  match s with
  | EmptyString => true
  | String c s' => JS.isDigit c && allDigits s'
  end.

Definition startsWithDigit (s : string) : bool :=
  match s with
  | EmptyString => false
  | String c _ => JS.isDigit c
  end.

Definition matchHere (s : string) : option string :=
  match stripPrefix "/articles/" s with
  | Some rest =>
      match takeDigits rest with
      | EmptyString => None
      | digits => Some digits
      end
  | None => None
  end.

Fixpoint matchArticleId (url : string) : option string :=
  match matchHere url with
  | Some digits => Some digits
  | None =>
      match url with
      | EmptyString => None
      | String _ url' => matchArticleId url'
      end
  end.

Definition couldNotExtract (url : string) : string :=
  "Could not extract article ID from URL: " ++ url.

Definition noSupportArticlesFound : string :=
  "No support articles found for this query.".

Definition separator : string :=
  JS.nl ++ JS.nl ++ "---" ++ JS.nl ++ JS.nl.

(** The message of the [URIError] of [encodeURIComponent]. *)
Definition uriMalformed : string := "URI malformed".

(** A request for the articles of the help center that carries the
    [Accept] header and nothing else: no credentials. *)
Definition withoutCredentials (r : Request) : Prop :=
  JS.startsWith (req_url r) (ZENDESK_API_BASE ++ "/articles/") = true
  /\ req_headers r = [ ("Accept", "application/json") ].

Section Adapter.

(** The two library functions the adapter calls.
    [encodeURIComponent] throws a [URIError] on a string that holds a
    lone surrogate: [None] here. *)
Variable encodeURIComponent : string -> option string.
Variable cheerio_load : string -> list Node.
Variable server : Server.

(** [encodeURIComponent(s)] where the program evaluates it: the
    [URIError] is thrown at that point. *)
Definition encoded (s : string) : Async string :=
  match encodeURIComponent s with
  | Some e => ret e
  | None => throw uriMalformed
  end.

Definition htmlToMarkdown (html : string) : string :=
  markdownOfDocument (cheerio_load html).

Definition acceptJson : list (string * string) :=
  [ ("Accept", "application/json") ].

Definition searchSupportSite (query : string) (limit : option JS.number)
  : Async (list SupportArticle) :=
  let limit := JS.nullish limit 5%Z in
  encodedQuery <- encoded query ;;
  let searchUrl :=
    ZENDESK_API_BASE ++ "/articles/search.json?query="
    ++ encodedQuery ++ "&per_page=" ++ JS.String_of_number limit in
  try_catch
    (response <- fetch (search server)
                   {| req_url := searchUrl; req_params := [];
                      req_headers := acceptJson |} ;;
     if negb (ok response) then
       throw ("Zendesk API returned " ++ JS.String_of_number (status response))
     else
       data <- readJson response ;;
       ret (map (fun a => {| title := z_title a;
                             url := html_url a;
                             snippet := z_snippet a |})
                (JS.or_empty (results data))))
    (fun error =>
       console_error "Error searching support site:" error ;;;
       ret []).

(** The block that both [getSupportArticle] and
    [searchAndFetchSupportArticles] build for one article. *)
Definition formatArticle (a : ZendeskArticle) : string :=
  let parts := [ "# " ++ z_title a; "**Source:** " ++ html_url a ] in
  let parts :=
    match label_names a with
    | Some (l :: ls) => JS.push parts ("**Labels:** " ++ JS.join ", " (l :: ls))
    | _ => parts
    end in
  let parts :=
    if JS.truthy (body a)
    then JS.push (JS.push parts EmptyString) (htmlToMarkdown (body a))
    else parts in
  JS.join JS.nl parts.

Definition getSupportArticle (url : string) : Async string :=
  try_catch
    (match matchArticleId url with
     | None => ret (couldNotExtract url)
     | Some articleId =>
         let apiUrl := ZENDESK_API_BASE ++ "/articles/" ++ articleId ++ ".json" in
         response <- fetch (articleById server)
                       {| req_url := apiUrl; req_params := [];
                          req_headers := acceptJson |} ;;
         if negb (ok response) then
           throw ("Zendesk API returned " ++ JS.String_of_number (status response))
         else
           data <- readJson response ;;
           match article data with
           | None => throw "Cannot read properties of undefined (reading 'title')"
           | Some a => ret (formatArticle a)
           end
     end)
    (fun error =>
       console_error ("Error fetching support article " ++ url ++ ":") error ;;;
       ret ("Error fetching article: " ++ error)).

Definition searchAndFetchSupportArticles (query : string)
  (maxArticles : option JS.number) : Async string :=
  let maxArticles := JS.nullish maxArticles 3%Z in
  encodedQuery <- encoded query ;;
  let searchUrl :=
    ZENDESK_API_BASE ++ "/articles/search.json?query="
    ++ encodedQuery ++ "&per_page="
    ++ JS.String_of_number maxArticles in
  try_catch
    (response <- fetch (search server)
                   {| req_url := searchUrl; req_params := [];
                      req_headers := acceptJson |} ;;
     if negb (ok response) then
       throw ("Zendesk API returned " ++ JS.String_of_number (status response))
     else
       data <- readJson response ;;
       let articles := JS.or_empty (results data) in
       match articles with
       | [] => ret noSupportArticlesFound
       | _ => ret (JS.join separator (map formatArticle articles))
       end)
    (fun error =>
       console_error "Error searching and fetching support articles:" error ;;;
       ret ("Error searching support articles: " ++ error)).

End Adapter.

End SupportSite.

(** ** [src/github-search.ts] *)

Module GithubSearch.
Import Net.
Local Open Scope async_scope.

Definition GITHUB_API_BASE : string := "https://api.github.com".

Record GitHubCodeMatch := {
  repository : string;
  filePath : string;
  url : string;
  textMatches : list string }.

(** The field [url] of the source is [apiUrl] here. *)
Record GitHubRepoMatch := {
  name : string;
  fullName : string;
  description : string;
  language : string;
  apiUrl : string;
  htmlUrl : string }.

(** The items of the two search endpoints, with the fields the adapter
    reads; each may be missing. *)
Record TextMatchItem := { fragment : option string }.

Record RepositoryItem := { full_name : option string }.

Record CodeItem := {
  item_repository : option RepositoryItem;
  item_path : option string;
  item_html_url : option string;
  item_text_matches : option (list TextMatchItem) }.

Record RepoItem := {
  repo_name : option string;
  repo_full_name : option string;
  repo_description : option string;
  repo_language : option string;
  repo_url : option string;
  repo_html_url : option string }.

Record SearchData (A : Type) := { items : option (list A) }.

Arguments items {A} _.

Record Server := {
  searchCode : Endpoint (SearchData CodeItem);
  searchRepositories : Endpoint (SearchData RepoItem) }.

Definition notConfigured : string :=
  "GitHub search is not configured (GITHUB_TOKEN not set). Skipping code search.".

Definition noRepositories : string := "No matching repositories found.".

Definition noCode : string := "No matching code found.".

Section Adapter.

Variable env : Env.
Variable server : Server.

Definition GITHUB_TOKEN : string := JS.opt_or_else (env "GITHUB_TOKEN") "".
Definition GITHUB_ORG : string := JS.opt_or_else (env "GITHUB_ORG") "Realtyka".

Definition isGitHubConfigured : bool :=
  (0 <? String.length GITHUB_TOKEN)%nat.

(** A request for one of the two search endpoints of the code host,
    with the headers of the adapter and the configured token. *)
Definition withToken (r : Request) : Prop :=
  (req_url r = GITHUB_API_BASE ++ "/search/code"
   \/ req_url r = GITHUB_API_BASE ++ "/search/repositories")
  /\ req_headers r
     = [ ("Authorization", "Bearer " ++ GITHUB_TOKEN);
         ("Accept", "application/vnd.github.text-match+json");
         ("X-GitHub-Api-Version", "2022-11-28") ].

(** [GITHUB_API_BASE] is an absolute URL, so [new URL(...)] does not
    throw here. *)
Definition githubFetch {A : Type} (endpoint : Endpoint A) (path : string)
  (params : list (string * string)) : Async A :=
  let request :=
    {| req_url := GITHUB_API_BASE ++ path;
       req_params := params;
       req_headers := [ ("Authorization", "Bearer " ++ GITHUB_TOKEN);
                        ("Accept", "application/vnd.github.text-match+json");
                        ("X-GitHub-Api-Version", "2022-11-28") ] |} in
  response <- fetch endpoint request ;;
  if negb (ok response) then
    throw ("GitHub API error " ++ JS.String_of_number (status response)
           ++ ": " ++ text response)
  else readJson response.

(** [query org:targetOrg], or the query alone without an organization. *)
Definition scopedQuery (query : string) (org : option string) : string :=
  let targetOrg := JS.opt_or_else org GITHUB_ORG in
  if JS.truthy targetOrg then query ++ " org:" ++ targetOrg else query.

Definition codeMatchOf (item : CodeItem) : GitHubCodeMatch :=
  {| repository :=
       JS.opt_or_else
         (match item_repository item with
          | Some r => full_name r
          | None => None
          end) "";
     filePath := JS.opt_or_else (item_path item) "";
     url := JS.opt_or_else (item_html_url item) "";
     textMatches :=
       map (fun tm =>
              let fragment := JS.opt_or_else (fragment tm) "" in
              String.substring 0 300 fragment)
           (JS.or_empty (item_text_matches item)) |}.

Definition searchGitHubCode (query : string) (org : option string)
  (limit : option JS.number) : Async (list GitHubCodeMatch) :=
  let limit := JS.nullish limit 10%Z in
  let fullQuery := scopedQuery query org in
  try_catch
    (data <- githubFetch (searchCode server) "/search/code"
               [ ("q", fullQuery);
                 ("per_page", JS.String_of_number limit) ] ;;
     let items := JS.or_empty (items data) in
     ret (map codeMatchOf items))
    (fun error =>
       console_error "Error searching GitHub code:" error ;;;
       ret []).

Definition repoMatchOf (item : RepoItem) : GitHubRepoMatch :=
  {| name := JS.opt_or_else (repo_name item) "";
     fullName := JS.opt_or_else (repo_full_name item) "";
     description := JS.opt_or_else (repo_description item) "";
     language := JS.opt_or_else (repo_language item) "";
     apiUrl := JS.opt_or_else (repo_url item) "";
     htmlUrl := JS.opt_or_else (repo_html_url item) "" |}.

Definition searchGitHubRepos (query : string) (org : option string)
  (limit : option JS.number) : Async (list GitHubRepoMatch) :=
  let limit := JS.nullish limit 5%Z in
  let fullQuery := scopedQuery query org in
  try_catch
    (data <- githubFetch (searchRepositories server) "/search/repositories"
               [ ("q", fullQuery);
                 ("per_page", JS.String_of_number limit);
                 ("sort", "best-match") ] ;;
     let items := JS.or_empty (items data) in
     ret (map repoMatchOf items))
    (fun error =>
       console_error "Error searching GitHub repos:" error ;;;
       ret []).

(** The body of [for (const repo of repoResults)]. *)
Definition pushRepo (parts : list string) (repo : GitHubRepoMatch) : list string :=
  let desc := if JS.truthy (description repo) then " - " ++ description repo
              else "" in
  let lang := if JS.truthy (language repo) then " [" ++ language repo ++ "]"
              else "" in
  let parts := JS.push parts ("- **" ++ fullName repo ++ "**" ++ lang ++ desc) in
  JS.push parts ("  " ++ htmlUrl repo).

(** The body of [for (const match of codeResults)]. *)
Definition pushMatch (parts : list string) (m : GitHubCodeMatch) : list string :=
  let parts := JS.push parts ("### " ++ repository m ++ " / " ++ filePath m) in
  let parts := JS.push parts (url m) in
  let parts :=
    match textMatches m with
    | [] => parts
    | _ =>
        let parts := JS.push parts "```" in
        let parts := JS.push parts (JS.join (JS.nl ++ "..." ++ JS.nl) (textMatches m)) in
        JS.push parts "```"
    end in
  JS.push parts "".

(** The rendering of [searchAndFetchGitHubResults], from the two result
    arrays. *)
Definition render (codeResults : list GitHubCodeMatch)
  (repoResults : list GitHubRepoMatch) : string :=
  let parts := [] in
  let parts :=
    if (0 <? length repoResults)%nat then
      let parts := JS.push parts "## Relevant Repositories" in
      let parts := JS.push parts "" in
      fold_left pushRepo repoResults parts
    else JS.push parts noRepositories in
  let parts := JS.push parts "" in
  let parts :=
    if (0 <? length codeResults)%nat then
      let parts := JS.push parts "## Code Matches" in
      let parts := JS.push parts "" in
      fold_left pushMatch codeResults parts
    else JS.push parts noCode in
  JS.join JS.nl parts.

(** The two sections as the specification describes them: each is its
    heading, a blank line and its entries, or its own fallback line
    when its search found nothing. *)
Definition repositoriesSection (repoResults : list GitHubRepoMatch)
  : list string :=
  match repoResults with
  | [] => [ "No matching repositories found." ]
  | _ =>
      ("## Relevant Repositories" :: "" :: flat_map (pushRepo []) repoResults)%list
  end.

Definition codeMatchesSection (codeResults : list GitHubCodeMatch)
  : list string :=
  match codeResults with
  | [] => [ "No matching code found." ]
  | _ => ("## Code Matches" :: "" :: flat_map (pushMatch []) codeResults)%list
  end.

Definition searchAndFetchGitHubResults (query : string) (org : option string)
  : Async string :=
  if negb isGitHubConfigured then ret notConfigured
  else
    results <- Promise_all2 (searchGitHubCode query org (Some 10%Z))
                            (searchGitHubRepos query org (Some 5%Z)) ;;
    let (codeResults, repoResults) := results in
    ret (render codeResults repoResults).

End Adapter.

End GithubSearch.

(** ** The tool registry ([tools.ts]) *)

Module Tools.
Import Net.
Local Open Scope async_scope.

Record Upstream := {
  youtrack : YoutrackKb.Server;
  zendesk : SupportSite.Server;
  github : GithubSearch.Server }.

(** [s.replace(/\n/g, ' ')] *)
Fixpoint newlinesToSpaces (s : string) : string :=
  match s with
  | EmptyString => EmptyString
  | String c s' =>
      String (if Ascii.eqb c JS.newline then " "%char else c) (newlinesToSpaces s')
  end.

Definition kbHeading : string := "# YouTrack Knowledge Base Results".
Definition supportHeading : string := "# Support Site Results".
Definition githubHeading : string := "# GitHub Code Search Results".

Section Registry.

Variable env : Env.
Variable URL_canParse : string -> bool.
Variable encodeURIComponent : string -> option string.
Variable cheerio_load : string -> list SupportSite.Node.
Variable upstream : Upstream.

(** Each handler returns the text of the single content item of its
    result. *)
Definition ask_product_question (question : string)
  (max_kb_articles max_support_articles : option JS.number)
  (include_github : option bool) : Async string :=
  let kbLimit := JS.nullish max_kb_articles 5%Z in
  let supportLimit := JS.nullish max_support_articles 3%Z in
  let shouldSearchGitHub :=
    JS.nullish include_github (GithubSearch.isGitHubConfigured env) in
  let promises :=
    [ YoutrackKb.searchAndFetchArticles env URL_canParse (youtrack upstream)
        question (Some kbLimit);
      SupportSite.searchAndFetchSupportArticles encodeURIComponent cheerio_load
        (zendesk upstream) question (Some supportLimit) ] in
  let promises :=
    if shouldSearchGitHub && GithubSearch.isGitHubConfigured env then
      JS.push promises
        (GithubSearch.searchAndFetchGitHubResults env (github upstream)
           question None)
    else promises in
  contents <- Promise_all promises ;;
  let kbContent := nth 0 contents "" in
  let supportContent := nth 1 contents "" in
  let githubContent := nth_error contents 2 in
  let response :=
    JS.join JS.nl
      [ kbHeading;
        "";
        kbContent;
        "";
        "---";
        "";
        supportHeading;
        "";
        supportContent;
        "";
        "---";
        "";
        githubHeading;
        "";
        JS.opt_or_else githubContent GithubSearch.notConfigured ] in
  ret response.

(** The merge as the specification words it: the code-results section
    is there only if inclusion was requested. *)
Definition mergeAsSpecified (kbContent supportContent : string)
  (inclusionRequested : bool) (githubContent : option string) : string :=
  JS.join JS.nl
    ([ kbHeading; ""; kbContent; ""; "---"; "";
       supportHeading; ""; supportContent; ""; "---" ]
     ++ (if inclusionRequested then
           [ ""; githubHeading; "";
             JS.opt_or_else githubContent GithubSearch.notConfigured ]
         else []))%list.

Definition kbSummaryLine (a : YoutrackKb.YouTrackArticle) : string :=
  let parts :=
    [ "**" ++ YoutrackKb.summary a ++ "** (" ++ YoutrackKb.idReadable a ++ ")" ] in
  let parts :=
    match YoutrackKb.project a with
    | Some p => JS.push parts ("  Project: " ++ YoutrackKb.name p)
    | None => parts
    end in
  let parts :=
    match YoutrackKb.parentArticle a with
    | Some p => JS.push parts ("  Parent: " ++ YoutrackKb.ref_summary p)
    | None => parts
    end in
  let parts :=
    match YoutrackKb.content a with
    | Some body =>
        if JS.truthy body then
          let preview := newlinesToSpaces (String.substring 0 200 body) in
          JS.push parts ("  " ++ preview ++ "...")
        else parts
    | None => parts
    end in
  JS.join JS.nl parts.

Definition search_kb_articles (query : string) (limit : option JS.number)
  : Async string :=
  articles <- YoutrackKb.searchKBArticles env URL_canParse (youtrack upstream) query
                (Some (JS.nullish limit 10%Z)) ;;
  match articles with
  | [] => ret "No knowledge base articles found."
  | _ => ret (JS.join (JS.nl ++ JS.nl) (map kbSummaryLine articles))
  end.

Definition supportSummaryLine (a : SupportSite.SupportArticle) : string :=
  let parts :=
    [ "**" ++ SupportSite.title a ++ "**"; "  " ++ SupportSite.url a ] in
  let parts :=
    match SupportSite.snippet a with
    | Some s => if JS.truthy s then JS.push parts ("  " ++ s) else parts
    | None => parts
    end in
  JS.join JS.nl parts.

Definition search_support_site (query : string) (limit : option JS.number)
  : Async string :=
  articles <- SupportSite.searchSupportSite encodeURIComponent (zendesk upstream)
                query (Some (JS.nullish limit 5%Z)) ;;
  match articles with
  | [] => ret "No support articles found."
  | _ => ret (JS.join (JS.nl ++ JS.nl) (map supportSummaryLine articles))
  end.

Definition codeMatchLine (m : GithubSearch.GitHubCodeMatch) : string :=
  let parts :=
    [ "**" ++ GithubSearch.repository m ++ "** / `"
      ++ GithubSearch.filePath m ++ "`" ] in
  let parts := JS.push parts ("  " ++ GithubSearch.url m) in
  let parts :=
    match GithubSearch.textMatches m with
    | [] => parts
    | _ =>
        let parts := JS.push parts "```" in
        let parts :=
          JS.push parts
            (JS.join (JS.nl ++ "..." ++ JS.nl) (GithubSearch.textMatches m)) in
        JS.push parts "```"
    end in
  JS.join JS.nl parts.

Definition search_github_code (query : string) (org : option string)
  (limit : option JS.number) : Async string :=
  if negb (GithubSearch.isGitHubConfigured env) then
    ret "GitHub search is not configured. Set GITHUB_TOKEN environment variable to enable this tool."
  else
    results <- GithubSearch.searchGitHubCode env (github upstream) query org
                 (Some (JS.nullish limit 10%Z)) ;;
    match results with
    | [] => ret "No code matches found."
    | _ => ret (JS.join (JS.nl ++ JS.nl) (map codeMatchLine results))
    end.

Definition githubToolDisabled : string :=
  "GitHub search is not configured. Set GITHUB_TOKEN environment variable to enable this tool.".

Definition get_kb_article (article_id : string) : Async string :=
  article <- YoutrackKb.getKBArticle env URL_canParse (youtrack upstream)
               article_id ;;
  match article with
  | None => ret ("Article " ++ article_id ++ " not found.")
  | Some article =>
      let parts :=
        [ "# " ++ YoutrackKb.summary article;
          "**ID:** " ++ YoutrackKb.idReadable article ] in
      let parts :=
        match YoutrackKb.project article with
        | Some p =>
            JS.push parts ("**Project:** " ++ YoutrackKb.name p ++ " ("
                           ++ YoutrackKb.shortName p ++ ")")
        | None => parts
        end in
      let parts :=
        match YoutrackKb.parentArticle article with
        | Some p =>
            JS.push parts ("**Parent:** " ++ YoutrackKb.ref_summary p ++ " ("
                           ++ YoutrackKb.ref_idReadable p ++ ")")
        | None => parts
        end in
      let parts :=
        match YoutrackKb.childArticles article with
        | Some (c :: cs) =>
            JS.push parts ("**Sub-articles:** "
                           ++ JS.join ", " (map YoutrackKb.formatRef (c :: cs)))
        | _ => parts
        end in
      let parts :=
        match YoutrackKb.content article with
        | Some body =>
            if JS.truthy body then JS.push (JS.push parts "") body else parts
        | None => parts
        end in
      ret (JS.join JS.nl parts)
  end.

Definition get_support_article (url : string) : Async string :=
  content <- SupportSite.getSupportArticle cheerio_load (zendesk upstream) url ;;
  ret content.

Definition repoMatchLine (repo : GithubSearch.GitHubRepoMatch) : string :=
  let parts := [ "**" ++ GithubSearch.fullName repo ++ "**" ] in
  let parts :=
    if JS.truthy (GithubSearch.language repo)
    then JS.push parts ("  Language: " ++ GithubSearch.language repo)
    else parts in
  let parts :=
    if JS.truthy (GithubSearch.description repo)
    then JS.push parts ("  " ++ GithubSearch.description repo)
    else parts in
  let parts := JS.push parts ("  " ++ GithubSearch.htmlUrl repo) in
  JS.join JS.nl parts.

Definition search_github_repos (query : string) (org : option string)
  (limit : option JS.number) : Async string :=
  if negb (GithubSearch.isGitHubConfigured env) then ret githubToolDisabled
  else
    results <- GithubSearch.searchGitHubRepos env (github upstream) query org
                 (Some (JS.nullish limit 5%Z)) ;;
    match results with
    | [] => ret "No matching repositories found."
    | _ => ret (JS.join (JS.nl ++ JS.nl) (map repoMatchLine results))
    end.

(** Modelled from the spec: the file that [getGitHubFile] returns (a
    RepoFile: raw decoded content, byte size, web URL).  The function
    itself belongs to [github-search.ts] and is a parameter here; the
    handler below is the one of the tool registry. *)
Record GitHubFile := {
  file_content : string;
  file_size : JS.number;
  file_htmlUrl : string }.

Variable getGitHubFile :
  string -> string -> option string -> Async (option GitHubFile).

Definition maxChars : JS.number := 50000%Z.

Definition get_github_file (repo path : string) (ref : option string)
  : Async string :=
  if negb (GithubSearch.isGitHubConfigured env) then ret githubToolDisabled
  else
    file <- getGitHubFile repo path ref ;;
    match file with
    | None => ret ("File not found: " ++ repo ++ "/" ++ path)
    | Some file =>
        let header :=
          JS.join JS.nl
            [ "**" ++ repo ++ "** / `" ++ path ++ "`";
              "**Size:** " ++ JS.String_of_number (file_size file) ++ " bytes";
              "**URL:** " ++ file_htmlUrl file;
              "" ] in
        let content := file_content file in
        let truncated := (maxChars <? Z.of_nat (String.length content))%Z in
        let content :=
          if truncated then String.substring 0 (Z.to_nat maxChars) content
          else content in
        let text :=
          header ++ "```" ++ JS.nl ++ content ++ JS.nl ++ "```"
          ++ (if truncated then
                JS.nl ++ JS.nl ++ "*File truncated at "
                ++ JS.String_of_number maxChars
                ++ " characters. Total size: "
                ++ JS.String_of_number (file_size file) ++ " bytes.*"
              else "") in
        ret text
    end.

End Registry.

End Tools.

(** ** The tool registry before the code host was added

    The second copy of the registry in the sources knows two sources
    only. *)

Module ToolsTwoSources.
Import Net.
Local Open Scope async_scope.

Section Registry.

Variable env : Env.
Variable URL_canParse : string -> bool.
Variable encodeURIComponent : string -> option string.
Variable cheerio_load : string -> list SupportSite.Node.
Variable upstream : Tools.Upstream.

Definition ask_product_question (question : string)
  (max_kb_articles max_support_articles : option JS.number) : Async string :=
  let kbLimit := JS.nullish max_kb_articles 5%Z in
  let supportLimit := JS.nullish max_support_articles 3%Z in
  results <- Promise_all2
               (YoutrackKb.searchAndFetchArticles env URL_canParse
                  (Tools.youtrack upstream) question (Some kbLimit))
               (SupportSite.searchAndFetchSupportArticles encodeURIComponent
                  cheerio_load (Tools.zendesk upstream) question
                  (Some supportLimit)) ;;
  let (kbContent, supportContent) := results in
  let response :=
    JS.join JS.nl
      [ "# YouTrack Knowledge Base Results";
        "";
        kbContent;
        "";
        "---";
        "";
        "# Support Site Results";
        "";
        supportContent ] in
  ret response.

End Registry.

End ToolsTwoSources.

(** ** Sample configurations and upstream behaviours

    Concrete inputs on which the operations are run. *)

Module Scenario.
Import Net.

Definition env : Env :=
  fun key =>
    if String.eqb key "YOUTRACK_BASE_URL" then Some "https://kb.example.com/"
    else if String.eqb key "YOUTRACK_TOKEN" then Some "perm-token"
    else if String.eqb key "GITHUB_TOKEN" then Some "ghp-token"
    else None.

(** The same configuration without [GITHUB_TOKEN]. *)
Definition env_without_github : Env :=
  fun key =>
    if String.eqb key "YOUTRACK_BASE_URL" then Some "https://kb.example.com/"
    else if String.eqb key "YOUTRACK_TOKEN" then Some "perm-token"
    else None.

(** A stand-in for [URL.canParse] that accepts the URLs with an
    [http] or [https] scheme. *)
Definition canParse (s : string) : bool :=
  JS.startsWith s "https://" || JS.startsWith s "http://".

(** A 200 response carrying [data]. *)
Definition respond {A : Type} (data : A) : Answer A :=
  Responds {| status := 200%Z; text := "{}"; json := inr data |}.

(** A response with an error status and a body that is not JSON. *)
Definition refuse {A : Type} (code : JS.number) : Answer A :=
  Responds {| status := code; text := "unavailable";
              json := inl "Unexpected token u in JSON" |}.

Definition hit (key title : string) : YoutrackKb.YouTrackArticle :=
  {| YoutrackKb.id := "1-" ++ key;
     YoutrackKb.idReadable := key;
     YoutrackKb.summary := title;
     YoutrackKb.content := None;
     YoutrackKb.created := None;
     YoutrackKb.updated := None;
     YoutrackKb.project := None;
     YoutrackKb.parentArticle := None;
     YoutrackKb.childArticles := None |}.

(** An article whose content runs over two lines. *)
Definition noted : YoutrackKb.YouTrackArticle :=
  {| YoutrackKb.id := "1-7";
     YoutrackKb.idReadable := "RV2-A-7";
     YoutrackKb.summary := "Caps";
     YoutrackKb.content := Some ("First line" ++ JS.nl ++ "second line");
     YoutrackKb.created := None;
     YoutrackKb.updated := None;
     YoutrackKb.project := None;
     YoutrackKb.parentArticle := None;
     YoutrackKb.childArticles := None |}.

(** The search finds nothing. *)
Definition kb_empty : YoutrackKb.Server :=
  {| YoutrackKb.articles := fun _ => respond (Some []);
     YoutrackKb.article := fun _ => refuse 404%Z |}.

(** The search finds two articles, and no article can be fetched. *)
Definition kb_unfetchable : YoutrackKb.Server :=
  {| YoutrackKb.articles :=
       fun _ => respond (Some [ hit "RV2-A-1" "Commissions";
                                hit "RV2-A-2" "Payouts" ]);
     YoutrackKb.article := fun _ => refuse 404%Z |}.

(** The search finds two articles; the first cannot be fetched, the
    second can. *)
Definition kb_partial : YoutrackKb.Server :=
  {| YoutrackKb.articles :=
       fun _ => respond (Some [ hit "RV2-A-1" "Commissions";
                                hit "RV2-A-2" "Payouts" ]);
     YoutrackKb.article :=
       fun r =>
         if JS.endsWith (req_url r) "/RV2-A-2"
         then respond (Some (hit "RV2-A-2" "Payouts"))
         else refuse 404%Z |}.


(** The help center answers every call with status 503. *)
Definition zendesk_down : SupportSite.Server :=
  {| SupportSite.search := fun _ => refuse 503%Z;
     SupportSite.articleById := fun _ => refuse 503%Z |}.

(** The help center finds one article. *)
Definition zendesk_one : SupportSite.Server :=
  {| SupportSite.search :=
       fun _ =>
         respond
           {| SupportSite.results :=
                Some [ {| SupportSite.z_id := 42%Z;
                          SupportSite.z_title := "Caps";
                          SupportSite.html_url :=
                            "https://support.therealbrokerage.com/hc/en-us/articles/42";
                          SupportSite.body := "<h2>Title</h2><p>Body</p><p>Body</p>";
                          SupportSite.z_snippet := None;
                          SupportSite.section_id := 7%Z;
                          SupportSite.label_names := None;
                          SupportSite.created_at := "2024-01-01T00:00:00Z";
                          SupportSite.updated_at := "2024-01-02T00:00:00Z" |} ] |};
     SupportSite.articleById := fun _ => refuse 404%Z |}.


(** The code host finds one file and no repository. *)
Definition github_code_only : GithubSearch.Server :=
  {| GithubSearch.searchCode :=
       fun _ =>
         respond
           {| GithubSearch.items :=
                Some [ {| GithubSearch.item_repository :=
                            Some {| GithubSearch.full_name := Some "Realtyka/caps" |};
                          GithubSearch.item_path := Some "src/Cap.java";
                          GithubSearch.item_html_url :=
                            Some "https://github.com/Realtyka/caps/blob/main/src/Cap.java";
                          GithubSearch.item_text_matches := None |} ] |};
     GithubSearch.searchRepositories :=
       fun _ => respond {| GithubSearch.items := Some [] |} |}.

(** The help center finds nothing. *)
Definition zendesk_empty : SupportSite.Server :=
  {| SupportSite.search :=
       fun _ => respond {| SupportSite.results := Some [] |};
     SupportSite.articleById := fun _ => refuse 404%Z |}.


(** The knowledge base and the help center find nothing; the code host
    finds one file. *)
Definition upstream_quiet : Tools.Upstream :=
  {| Tools.youtrack := kb_empty;
     Tools.zendesk := zendesk_empty;
     Tools.github := github_code_only |}.

(** A stand-in for [getGitHubFile] that knows one small file. *)
Definition readme : Tools.GitHubFile :=
  {| Tools.file_content := "# caps";
     Tools.file_size := 6%Z;
     Tools.file_htmlUrl := "https://github.com/Realtyka/caps/blob/main/README.md" |}.

Definition getFile (repo path : string) (ref : option string)
  : Async (option Tools.GitHubFile) :=
  if String.eqb path "README.md" then ret (Some readme) else ret None.

(** What [cheerio.load] builds for
    [<h2>Title</h2><p>Body</p><p>Body</p>]: the parser supplies the
    [html], [head] and [body] elements. *)
Definition duplicateParagraphHtml : string :=
  "<h2>Title</h2><p>Body</p><p>Body</p>".

Definition duplicateParagraph : list SupportSite.Node :=
  [ SupportSite.Element "html"
      [ SupportSite.Element "head" [];
        SupportSite.Element "body"
          [ SupportSite.Element "h2" [ SupportSite.Text "Title" ];
            SupportSite.Element "p" [ SupportSite.Text "Body" ];
            SupportSite.Element "p" [ SupportSite.Text "Body" ] ] ] ].

(** A stand-in for the parser that knows this one document. *)
Definition load (html : string) : list SupportSite.Node :=
  if String.eqb html duplicateParagraphHtml then duplicateParagraph
  else [ SupportSite.Element "html"
           [ SupportSite.Element "head" [];
             SupportSite.Element "body" [ SupportSite.Text html ] ] ].

(** A stand-in for [encodeURIComponent], exact on unreserved
    characters. *)
Definition encode (s : string) : option string := Some s.



End Scenario.

(** * Properties *)

(** ** Computations *)

Module AsyncFacts.
Import Net.

Lemma resolves_ret {A : Type} (a : A) : resolves (ret a).
Proof. intros t. now exists a, t. Qed.

Lemma resolves_bind {A B : Type} (c : Async A) (k : A -> Async B) :
  resolves c -> (forall a, resolves (k a)) -> resolves (bind c k).
Proof.
  intros Hc Hk t. unfold bind.
  destruct (Hc t) as (a & t' & ->). apply Hk.
Qed.

Lemma resolves_console_error (label detail : string) :
  resolves (console_error label detail).
Proof. intros t. now eexists _, _. Qed.

(** A [try] whose handler never rejects never rejects. *)
Lemma resolves_try_catch {A : Type} (body : Async A) (handler : string -> Async A) :
  (forall e, resolves (handler e)) -> resolves (try_catch body handler).
Proof.
  intros Hh t. unfold try_catch.
  destruct (body t) as [[a|e] t']; [now exists a, t' | apply Hh].
Qed.

(** The handler of every adapter: log, then return a fixed value. *)
Lemma resolves_log_and_return {A : Type} (label detail : string) (a : A) :
  resolves (bind (console_error label detail) (fun _ => ret a)).
Proof. intros t. now eexists _, _. Qed.

Lemma resolves_Promise_all2 {A B : Type} (a : Async A) (b : Async B) :
  resolves a -> resolves b -> resolves (Promise_all2 a b).
Proof.
  intros Ha Hb t. unfold Promise_all2.
  destruct (Ha t) as (x & t1 & ->).
  destruct (Hb t1) as (y & t2 & ->).
  now exists (x, y), t2.
Qed.

Lemma resolves_Promise_all {A : Type} (tasks : list (Async A)) :
  Forall resolves tasks -> resolves (Promise_all tasks).
Proof.
  induction 1 as [|task rest Htask _ IH]; intros t.
  - now exists [], t.
  - cbn [Promise_all].
    destruct (resolves_Promise_all2 _ _ Htask IH t) as ([x xs] & t' & ->).
    now exists (x :: xs), t'.
Qed.

Lemma requests_push_fetch (t : Trace) (r : Request) :
  requests (JS.push t (Fetch r)) = (requests t ++ [r])%list.
Proof.
  unfold JS.push. induction t as [|[r'|l d] t IH]; simpl; [reflexivity| |exact IH].
  now rewrite IH.
Qed.

Lemma requests_push_log (t : Trace) (label detail : string) :
  requests (JS.push t (ConsoleError label detail)) = requests t.
Proof.
  unfold JS.push. induction t as [|[r'|l d] t IH]; simpl; [reflexivity| |exact IH].
  now rewrite IH.
Qed.

(** What a [try] around one request does, case by case on the answer of
    the service: this is the shape of every search operation. *)
Ltac run :=
  unfold try_catch, bind, fetch, readJson, throw, ret, console_error; simpl.

End AsyncFacts.



(** ** Shared facts about strings and computations *)

Module StringFacts.

Lemma append_empty_r (s : string) : s ++ "" = s.
Proof.
  induction s as [|c s IH]; simpl; [reflexivity | now rewrite IH].
Qed.

Lemma append_assoc (a b c : string) : (a ++ b) ++ c = a ++ (b ++ c).
Proof.
  induction a as [|x a IH]; simpl; [reflexivity | now rewrite IH].
Qed.

Lemma endsWith_refl (s : string) : JS.endsWith s s = true.
Proof.
  destruct s; simpl; [reflexivity | now rewrite Ascii.eqb_refl, String.eqb_refl].
Qed.

Lemma endsWith_cons (c : ascii) (s suffix : string) :
  JS.endsWith (String c s) suffix
  = if String.eqb (String c s) suffix then true else JS.endsWith s suffix.
Proof. reflexivity. Qed.

Lemma endsWith_append (pre suffix : string) :
  JS.endsWith (pre ++ suffix) suffix = true.
Proof.
  induction pre as [|c pre IH].
  - apply endsWith_refl.
  - change (String c pre ++ suffix) with (String c (pre ++ suffix)).
    rewrite endsWith_cons, IH. now destruct (String.eqb _ _).
Qed.

(** [endsWith] is the suffix relation. *)
Lemma endsWith_spec (s suffix : string) :
  JS.endsWith s suffix = true <-> exists pre, s = pre ++ suffix.
Proof.
  split.
  - induction s as [|c s IH].
    + destruct suffix; [now exists ""|discriminate].
    + rewrite endsWith_cons.
      destruct (String.eqb (String c s) suffix) eqn:E.
      * intros _. apply String.eqb_eq in E. subst. now exists "".
      * intros H. destruct (IH H) as [pre ->]. now exists (String c pre).
  - intros [pre ->]. apply endsWith_append.
Qed.

End StringFacts.

(** ** [src/youtrack-kb.ts] *)

Module KbProperties.
Import Net YoutrackKb StringFacts.

Lemma strip_decompose (s : string) :
  exists slashes,
    allSlashes slashes = true /\ s = stripTrailingSlashes s ++ slashes.
Proof.
  induction s as [|c s [tl [Htl Hs]]]; simpl.
  - now exists "".
  - destruct (stripTrailingSlashes s) as [|a r] eqn:E.
    + simpl in Hs. subst tl.
      destruct (Ascii.eqb c slash) eqn:Ec.
      * exists (String c s). simpl. now rewrite Ec, Htl.
      * exists s. now split.
    + exists tl. split; [exact Htl|]. simpl. now rewrite Hs at 1.
Qed.

Lemma strip_last (s : string) : JS.lastChar (stripTrailingSlashes s) <> Some slash.
Proof.
  induction s as [|c s IH]; simpl; [discriminate|].
  destruct (stripTrailingSlashes s) as [|a r] eqn:E.
  - destruct (Ascii.eqb c slash) eqn:Ec; simpl; [discriminate|].
    intros [= ->]. now rewrite Ascii.eqb_refl in Ec.
  - exact IH.
Qed.

Lemma strip_fixed (s : string) :
  JS.lastChar s <> Some slash -> stripTrailingSlashes s = s.
Proof.
  induction s as [|c s IH]; simpl; [reflexivity|].
  destruct s as [|a r].
  - simpl. intros H. destruct (Ascii.eqb c slash) eqn:Ec; [|reflexivity].
    apply Ascii.eqb_eq in Ec. now subst.
  - intros H. now rewrite (IH H).
Qed.

Lemma lastChar_append (pre : string) (c : ascii) (s : string) :
  JS.lastChar (pre ++ String c s) = JS.lastChar (String c s).
Proof.
  induction pre as [|x pre IH]; [reflexivity|].
  change (String x pre ++ String c s) with (String x (pre ++ String c s)).
  destruct (pre ++ String c s) eqn:E.
  - destruct pre; discriminate.
  - rewrite <- IH. reflexivity.
Qed.

Lemma getBaseUrl_endsWith_api (env : Env) :
  JS.endsWith (getBaseUrl env) "/api" = true.
Proof.
  unfold getBaseUrl.
  destruct (JS.endsWith (stripTrailingSlashes (YOUTRACK_BASE_URL env)) "/api") eqn:E;
    simpl; [exact E | apply endsWith_append].
Qed.

(** C8. The normalized base URL is the configured URL with its trailing
    slashes stripped, followed by [/api] unless the stripped URL already
    ends with it; it always ends with [/api]; and normalizing a
    normalized URL leaves it unchanged. *)
Theorem getBaseUrl_normalizes (env : Env) :
  let configured := YOUTRACK_BASE_URL env in
  let stripped := stripTrailingSlashes configured in
  (exists slashes, allSlashes slashes = true /\ configured = stripped ++ slashes)
  /\ JS.lastChar stripped <> Some slash
  /\ (JS.endsWith stripped "/api" = true -> getBaseUrl env = stripped)
  /\ (JS.endsWith stripped "/api" = false -> getBaseUrl env = stripped ++ "/api")
  /\ JS.endsWith (getBaseUrl env) "/api" = true
  /\ (forall env',
        YOUTRACK_BASE_URL env' = getBaseUrl env ->
        getBaseUrl env' = getBaseUrl env).
Proof.
  intros configured stripped.
  split; [apply strip_decompose|].
  split; [apply strip_last|].
  split; [intros H; unfold getBaseUrl; fold configured; fold stripped; now rewrite H|].
  split; [intros H; unfold getBaseUrl; fold configured; fold stripped; now rewrite H|].
  split; [apply getBaseUrl_endsWith_api|].
  intros env' Heq.
  pose proof (getBaseUrl_endsWith_api env) as Hapi.
  assert (Hfix : stripTrailingSlashes (getBaseUrl env) = getBaseUrl env).
  { apply strip_fixed.
    apply endsWith_spec in Hapi. destruct Hapi as [pre ->].
    change "/api" with (String "/" (String "a" (String "p" (String "i" "")))).
    rewrite lastChar_append. simpl. discriminate. }
  unfold getBaseUrl at 1. rewrite Heq, Hfix, Hapi. reflexivity.
Qed.

Section Adapter.

Variable env : Env.
Variable URL_canParse : string -> bool.
Variable server : Server.

Ltac settle sent :=
  eexists _, _, sent; split; [reflexivity|];
  rewrite ?AsyncFacts.requests_push_log, ?AsyncFacts.requests_push_fetch,
    ?app_nil_r;
  split; [reflexivity|].

(** What [searchKBArticles] does, whatever the service answers: it
    resolves; when the URL parses it has made exactly one request,
    written for [/articles] and with the page size in [$top], and the
    value is empty if that call failed; when the URL does not parse
    nothing is sent and the value is empty. *)
Lemma searchKBArticles_outcome (query : string) (limit : option JS.number)
  (t : Trace) :
  exists value t' sent,
    searchKBArticles env URL_canParse server query limit t = (Resolved value, t')
    /\ requests t' = (requests t ++ sent)%list
    /\ (if URL_canParse (getBaseUrl env ++ "/articles")
        then exists r,
               sent = [r]
               /\ req_url r = getBaseUrl env ++ "/articles"
               /\ param "$top" (req_params r)
                  = Some (JS.String_of_number (JS.nullish limit 10%Z))
               /\ (fails (articles server r) = true -> value = [])
        else sent = [] /\ value = []).
Proof.
  unfold searchKBArticles, youtrackFetch.
  destruct (URL_canParse (getBaseUrl env ++ "/articles")) eqn:Eparse;
    AsyncFacts.run; [|settle (@nil Request); now split].
  match goal with |- context [articles server ?r] => set (req := r) end.
  destruct (articles server req) as [e|resp] eqn:Ea; simpl.
  - settle [req]. exists req. now repeat split.
  - destruct (ok resp) eqn:Eok; simpl.
    + destruct (json resp) as [e|data]; simpl.
      * settle [req]. exists req. now repeat split.
      * settle [req]. exists req. rewrite Ea. simpl. rewrite Eok.
        repeat split. discriminate.
    + settle [req]. exists req. now repeat split.
Qed.

(** [getKBArticle] likewise: it resolves after at most one request, for
    [/articles/{id}], and to nothing when the call failed or could not
    be made. *)
Lemma getKBArticle_outcome (articleId : string) (t : Trace) :
  exists value t' sent,
    getKBArticle env URL_canParse server articleId t = (Resolved value, t')
    /\ requests t' = (requests t ++ sent)%list
    /\ (if URL_canParse (getBaseUrl env ++ "/articles/" ++ articleId)
        then exists r,
               sent = [r]
               /\ req_url r = getBaseUrl env ++ "/articles/" ++ articleId
               /\ (fails (article server r) = true -> value = None)
        else sent = [] /\ value = None).
Proof.
  unfold getKBArticle, youtrackFetch.
  destruct (URL_canParse (getBaseUrl env ++ "/articles/" ++ articleId))
    eqn:Eparse;
    AsyncFacts.run; [|settle (@nil Request); now split].
  match goal with |- context [article server ?r] => set (req := r) end.
  destruct (article server req) as [e|resp] eqn:Ea; simpl.
  - settle [req]. exists req. now repeat split.
  - destruct (ok resp) eqn:Eok; simpl.
    + destruct (json resp) as [e|data]; simpl.
      * settle [req]. exists req. now repeat split.
      * settle [req]. exists req. rewrite Ea. simpl. rewrite Eok.
        repeat split. discriminate.
    + settle [req]. exists req. now repeat split.
Qed.

Lemma searchKBArticles_resolves (query : string) (limit : option JS.number) :
  resolves (searchKBArticles env URL_canParse server query limit).
Proof.
  intros t.
  destruct (searchKBArticles_outcome query limit t) as (v & t' & sent & H & _).
  now exists v, t'.
Qed.

Lemma getKBArticle_resolves (articleId : string) :
  resolves (getKBArticle env URL_canParse server articleId).
Proof.
  intros t.
  destruct (getKBArticle_outcome articleId t) as (v & t' & sent & H & _).
  now exists v, t'.
Qed.

(** With the knowledge base down the search finds nothing. *)
Lemma searchKBArticles_down (query : string) (limit : option JS.number)
  (t : Trace) :
  (forall r, fails (articles server r) = true) ->
  fst (searchKBArticles env URL_canParse server query limit t) = Resolved [].
Proof.
  intros Hdown.
  destruct (searchKBArticles_outcome query limit t)
    as (v & t' & sent & -> & _ & Hcase).
  destruct (URL_canParse (getBaseUrl env ++ "/articles")).
  - destruct Hcase as (r & _ & _ & _ & Hfail). simpl. now rewrite (Hfail (Hdown r)).
  - destruct Hcase as [_ ->]. reflexivity.
Qed.

(** When the URL parses, the search request is made and carries the
    page size. *)
Lemma searchKBArticles_request (query : string) (limit : option JS.number)
  (t : Trace) :
  URL_canParse (getBaseUrl env ++ "/articles") = true ->
  exists r value t',
    searchKBArticles env URL_canParse server query limit t = (Resolved value, t')
    /\ requests t' = (requests t ++ [r])%list
    /\ req_url r = getBaseUrl env ++ "/articles"
    /\ param "$top" (req_params r)
       = Some (JS.String_of_number (JS.nullish limit 10%Z)).
Proof.
  intros Hparse.
  destruct (searchKBArticles_outcome query limit t)
    as (v & t' & sent & H & Hreq & Hcase).
  rewrite Hparse in Hcase. destruct Hcase as (r & -> & Hurl & Htop & _).
  now exists r, v, t'.
Qed.

(** The loop resolves, after at most one request per article. *)
Lemma fetchEach_outcome (hits : list YouTrackArticle) :
  forall (results : list string) (t : Trace),
  exists value t' sent,
    fetchEach env URL_canParse server hits results t = (Resolved value, t')
    /\ requests t' = (requests t ++ sent)%list
    /\ length sent <= length hits
    /\ ((forall path, URL_canParse (getBaseUrl env ++ path) = true) ->
        length sent = length hits).
Proof.
  induction hits as [|a hits IH]; intros results t.
  - exists results, t, []. rewrite app_nil_r. now repeat split.
  - cbn [fetchEach]. unfold bind.
    destruct (getKBArticle_outcome (JS.or_else (idReadable a) (id a)) t)
      as (full & t1 & sent1 & -> & Hreq1 & Hcase).
    assert (Hone : length sent1 <= 1
                   /\ ((forall path, URL_canParse (getBaseUrl env ++ path) = true)
                       -> length sent1 = 1)).
    { destruct (URL_canParse _) eqn:E.
      - destruct Hcase as (r & -> & _). now split.
      - destruct Hcase as [-> _]. split; [simpl; lia|].
        intros Hall. now rewrite Hall in E. }
    destruct Hone as [Hle Heq].
    assert (Hrest : forall results',
               exists value t' sent,
                 fetchEach env URL_canParse server hits results' t1
                 = (Resolved value, t')
                 /\ requests t' = (requests t ++ sent)%list
                 /\ length sent <= S (length hits)
                 /\ ((forall path, URL_canParse (getBaseUrl env ++ path) = true)
                     -> length sent = S (length hits))).
    { intros results'.
      destruct (IH results' t1) as (v & t' & sent & Hrun & Hreq & Hlen & Hall).
      exists v, t', (sent1 ++ sent)%list.
      split; [exact Hrun|].
      split; [now rewrite Hreq, Hreq1, <- app_assoc|].
      rewrite length_app. split; [lia|].
      intros Hparse. rewrite (Heq Hparse), (Hall Hparse). reflexivity. }
    destruct full as [full|]; apply Hrest.
Qed.

(** [searchAndFetchArticles] starts with the search request, which
    carries the page size in [$top]. *)
Lemma searchAndFetchArticles_first_request (query : string)
  (maxArticles : option JS.number) (t : Trace) :
  URL_canParse (getBaseUrl env ++ "/articles") = true ->
  exists r rest value t',
    searchAndFetchArticles env URL_canParse server query maxArticles t
    = (Resolved value, t')
    /\ requests t' = (requests t ++ r :: rest)%list
    /\ req_url r = getBaseUrl env ++ "/articles"
    /\ param "$top" (req_params r)
       = Some (JS.String_of_number (JS.nullish maxArticles 5%Z)).
Proof.
  intros Hparse. unfold searchAndFetchArticles, bind.
  destruct (searchKBArticles_request query (Some (JS.nullish maxArticles 5%Z))
              t Hparse)
    as (r & hits & t1 & -> & Hreq & Hurl & Htop).
  exists r.
  destruct hits as [|a hits].
  - exists [], noArticlesFound, t1. now repeat split.
  - destruct (fetchEach_outcome (a :: hits) [] t1)
      as (v & t2 & rest & -> & Hrest & _).
    exists rest, (JS.join separator v), t2.
    split; [reflexivity|]. split; [|now split].
    rewrite Hrest, Hreq, <- app_assoc. reflexivity.
Qed.

(** When every full fetch comes back absent, the loop leaves [results]
    as it was. *)
Lemma fetchEach_all_absent (hits : list YouTrackArticle) :
  (forall a t', In a hits ->
     fst (getKBArticle env URL_canParse server
            (JS.or_else (idReadable a) (id a)) t')
     = Resolved None) ->
  forall (results : list string) (t : Trace),
    fst (fetchEach env URL_canParse server hits results t) = Resolved results.
Proof.
  induction hits as [|a hits IH]; intros Habsent results t; [reflexivity|].
  cbn [fetchEach]. unfold bind.
  pose proof (Habsent a t (or_introl eq_refl)) as Ha.
  destruct (getKBArticle env URL_canParse server
              (JS.or_else (idReadable a) (id a)) t)
    as [o t1].
  simpl in Ha. subst o.
  apply IH. intros b t' Hb. apply Habsent. now right.
Qed.

Lemma searchAndFetchArticles_resolves (query : string)
  (maxArticles : option JS.number) :
  resolves (searchAndFetchArticles env URL_canParse server query maxArticles).
Proof.
  intros t. unfold searchAndFetchArticles, bind.
  destruct (searchKBArticles_resolves query (Some (JS.nullish maxArticles 5%Z)) t)
    as (hits & t1 & ->).
  destruct hits as [|a hits]; [now eexists _, _|].
  destruct (fetchEach_outcome (a :: hits) [] t1) as (v & t2 & sent & -> & _).
  now eexists _, _.
Qed.

(** C4. When the search step of [searchAndFetchArticles] returns no
    article, the result is exactly the sentence
    [No YouTrack knowledge base articles found for this query.], and the
    trace is the one the search step left: at most one request was made,
    the search request for [/articles], and no article was fetched. *)
Theorem searchAndFetchArticles_no_hits (query : string)
  (maxArticles : option JS.number) (t : Trace) :
  fst (searchKBArticles env URL_canParse server query
         (Some (JS.nullish maxArticles 5%Z)) t)
  = Resolved [] ->
  fst (searchAndFetchArticles env URL_canParse server query maxArticles t)
  = Resolved "No YouTrack knowledge base articles found for this query."
  /\ snd (searchAndFetchArticles env URL_canParse server query maxArticles t)
     = snd (searchKBArticles env URL_canParse server query
              (Some (JS.nullish maxArticles 5%Z)) t)
  /\ exists sent,
       requests (snd (searchAndFetchArticles env URL_canParse server query
                        maxArticles t))
       = (requests t ++ sent)%list
       /\ length sent <= 1
       /\ forall r, In r sent -> req_url r = getBaseUrl env ++ "/articles".
Proof.
  intros Hnone.
  destruct (searchKBArticles_outcome query (Some (JS.nullish maxArticles 5%Z)) t)
    as (v & t1 & sent & Hrun & Hreq & Hcase).
  unfold searchAndFetchArticles, bind.
  rewrite Hrun in *. simpl in Hnone. injection Hnone as ->.
  simpl. repeat split. exists sent. split; [exact Hreq|].
  destruct (URL_canParse (getBaseUrl env ++ "/articles")).
  - destruct Hcase as (r & -> & Hurl & _). split; [simpl; lia|].
    intros r' [<-|[]]. exact Hurl.
  - destruct Hcase as [-> _]. split; [simpl; lia|]. intros r' [].
Qed.

(** C10. When the search step returns one or more articles and every
    full fetch of them comes back absent, [searchAndFetchArticles]
    returns the empty string, not the sentence for an empty search; the
    fetches were made (one per hit when the URLs parse) and left
    nothing in the output. *)
Theorem searchAndFetchArticles_all_absent (query : string)
  (maxArticles : option JS.number) (t : Trace) (hits : list YouTrackArticle) :
  fst (searchKBArticles env URL_canParse server query
         (Some (JS.nullish maxArticles 5%Z)) t)
  = Resolved hits ->
  hits <> [] ->
  (forall a t', In a hits ->
     fst (getKBArticle env URL_canParse server
            (JS.or_else (idReadable a) (id a)) t')
     = Resolved None) ->
  fst (searchAndFetchArticles env URL_canParse server query maxArticles t)
  = Resolved ""
  /\ "" <> "No YouTrack knowledge base articles found for this query."
  /\ ((forall path, URL_canParse (getBaseUrl env ++ path) = true) ->
      length (requests (snd (searchAndFetchArticles env URL_canParse server
                               query maxArticles t)))
      = length (requests t) + 1 + length hits).
Proof.
  intros Hsearch Hne Habsent.
  destruct (searchKBArticles_outcome query (Some (JS.nullish maxArticles 5%Z)) t)
    as (v & t1 & sent & Hrun & Hreq & Hcase).
  unfold searchAndFetchArticles, bind.
  rewrite Hrun in *. simpl in Hsearch. injection Hsearch as ->.
  destruct hits as [|a hits]; [contradiction|].
  pose proof (fetchEach_all_absent (a :: hits) Habsent [] t1) as Hval.
  destruct (fetchEach_outcome (a :: hits) [] t1)
    as (v & t2 & sent2 & Hloop & Hreq2 & _ & Hall).
  rewrite Hloop in *. simpl in Hval. injection Hval as ->.
  simpl. split; [reflexivity|]. split; [discriminate|].
  intros Hparse. rewrite (Hparse "/articles") in Hcase.
  destruct Hcase as (r & -> & _).
  rewrite Hreq2, Hreq, !length_app, (Hall Hparse). simpl. lia.
Qed.

End Adapter.

(** On [Scenario.kb_empty] the search finds nothing and the sentence is
    returned after the one search request. *)
Lemma searchAndFetchArticles_no_hits_witness :
  fst (searchAndFetchArticles Scenario.env Scenario.canParse Scenario.kb_empty
         "commission" None [])
  = Resolved "No YouTrack knowledge base articles found for this query."
  /\ snd (searchAndFetchArticles Scenario.env Scenario.canParse Scenario.kb_empty
            "commission" None [])
     = snd (searchKBArticles Scenario.env Scenario.canParse Scenario.kb_empty
              "commission" (Some (JS.nullish None 5%Z)) [])
  /\ exists sent,
       requests (snd (searchAndFetchArticles Scenario.env Scenario.canParse
                        Scenario.kb_empty "commission" None []))
       = ([] ++ sent)%list
       /\ length sent <= 1
       /\ forall r, In r sent
                    -> req_url r = getBaseUrl Scenario.env ++ "/articles".
Proof.
  apply (searchAndFetchArticles_no_hits Scenario.env Scenario.canParse
           Scenario.kb_empty "commission" None []).
  reflexivity.
Defined.

(** On [Scenario.kb_unfetchable] the search finds two articles and both
    fetches fail. *)
Lemma searchAndFetchArticles_all_absent_witness :
  fst (searchAndFetchArticles Scenario.env Scenario.canParse
         Scenario.kb_unfetchable "commission" None [])
  = Resolved ""
  /\ "" <> "No YouTrack knowledge base articles found for this query."
  /\ ((forall path,
         Scenario.canParse (getBaseUrl Scenario.env ++ path) = true) ->
      length (requests (snd (searchAndFetchArticles Scenario.env
                               Scenario.canParse Scenario.kb_unfetchable
                               "commission" None [])))
      = length (requests []) + 1
        + length [ Scenario.hit "RV2-A-1" "Commissions";
                   Scenario.hit "RV2-A-2" "Payouts" ]).
Proof.
  apply (searchAndFetchArticles_all_absent Scenario.env Scenario.canParse
           Scenario.kb_unfetchable "commission" None []
           [ Scenario.hit "RV2-A-1" "Commissions";
             Scenario.hit "RV2-A-2" "Payouts" ]).
  - reflexivity.
  - discriminate.
  - intros a t' [<-|[<-|[]]]; reflexivity.
Defined.

Example all_absent_makes_three_requests :
  map req_url
    (requests (snd (searchAndFetchArticles Scenario.env Scenario.canParse
                      Scenario.kb_unfetchable "commission" None [])))
  = [ "https://kb.example.com/api/articles";
      "https://kb.example.com/api/articles/RV2-A-1";
      "https://kb.example.com/api/articles/RV2-A-2" ].
Proof. reflexivity. Qed.

End KbProperties.

(** ** [src/support-site.ts] *)

Module SupportProperties.
Import Net SupportSite StringFacts.

Example duplicate_paragraph_runs :
  markdownOfDocument Scenario.duplicateParagraph = "## Title" ++ JS.nl ++ "Body".
Proof. reflexivity. Qed.

(** *** The loop that drops repeated lines *)

Lemma hasRepeat_cons2 (x y : string) (rest : list string) :
  hasRepeat (x :: y :: rest) = String.eqb x y || hasRepeat (y :: rest).
Proof. reflexivity. Qed.

Lemma hasRepeat_push (result : list string) (line : string) :
  hasRepeat result = false ->
  (length result =? 0)%nat || negb (String.eqb (last result "") line) = true ->
  hasRepeat (JS.push result line) = false.
Proof.
  unfold JS.push.
  induction result as [|x [|y r] IH]; intros Hno Hdiff.
  - reflexivity.
  - simpl in *. destruct (String.eqb x line); [discriminate | reflexivity].
  - change ((x :: y :: r) ++ [line])%list with (x :: y :: (r ++ [line]))%list.
    rewrite hasRepeat_cons2 in *.
    apply orb_false_iff in Hno. destruct Hno as [Hxy Hrest].
    rewrite Hxy. simpl orb.
    apply IH; [exact Hrest | exact Hdiff].
Qed.

Lemma dedupeStep_keeps_distinct (result : list string) (line : string) :
  hasRepeat result = false -> hasRepeat (dedupeStep result line) = false.
Proof.
  intros Hno. unfold dedupeStep.
  destruct ((length result =? 0)%nat || negb (String.eqb (last result "") line))
    eqn:E; [now apply hasRepeat_push | exact Hno].
Qed.

Lemma fold_dedupe_distinct (lines result : list string) :
  hasRepeat result = false ->
  hasRepeat (fold_left dedupeStep lines result) = false.
Proof.
  revert result. induction lines as [|line lines IH]; intros result Hno.
  - exact Hno.
  - simpl. apply IH. now apply dedupeStep_keeps_distinct.
Qed.

(** A line equal to the one just kept is dropped. *)
Lemma dedupeStep_twice (result : list string) (line : string) :
  dedupeStep (dedupeStep result line) line = dedupeStep result line.
Proof.
  assert (Hkept : (length (dedupeStep result line) =? 0)%nat
                  || negb (String.eqb (last (dedupeStep result line) "") line)
                  = false).
  { unfold dedupeStep.
    destruct ((length result =? 0)%nat || negb (String.eqb (last result "") line))
      eqn:E; [|exact E].
    unfold JS.push. rewrite last_last, String.eqb_refl, length_app. simpl.
    rewrite orb_false_r. apply Nat.eqb_neq. lia. }
  unfold dedupeStep at 1. now rewrite Hkept.
Qed.

Lemma repeat_free_boundary (result : list string) (line : string)
  (rest : list string) :
  hasRepeat (result ++ line :: rest)%list = false ->
  (length result =? 0)%nat || negb (String.eqb (last result "") line) = true.
Proof.
  induction result as [|x [|y r] IH]; intros Hno.
  - reflexivity.
  - simpl in *. apply orb_false_iff in Hno. now rewrite (proj1 Hno).
  - change ((x :: y :: r) ++ line :: rest)%list
      with (x :: y :: (r ++ line :: rest))%list in Hno.
    rewrite hasRepeat_cons2 in Hno. apply orb_false_iff in Hno.
    apply (IH (proj2 Hno)).
Qed.

(** Lines without repeated neighbours are all kept. *)
Lemma fold_dedupe_fixed (lines result : list string) :
  hasRepeat (result ++ lines)%list = false ->
  fold_left dedupeStep lines result = (result ++ lines)%list.
Proof.
  revert result. induction lines as [|line lines IH]; intros result Hno.
  - now rewrite app_nil_r.
  - simpl. unfold dedupeStep at 2.
    rewrite (repeat_free_boundary _ _ _ Hno). unfold JS.push.
    rewrite IH; rewrite <- app_assoc; [reflexivity | exact Hno].
Qed.

(** *** Runs of newlines *)

Lemma includes_cons (c : ascii) (s needle : string) :
  JS.includes (String c s) needle
  = JS.startsWith (String c s) needle || JS.includes s needle.
Proof. reflexivity. Qed.

Lemma startsWith_cons (a b : ascii) (s p : string) :
  JS.startsWith (String b s) (String a p) = Ascii.eqb a b && JS.startsWith s p.
Proof. reflexivity. Qed.

Lemma startsWithNewline_cons (c : ascii) (s : string) :
  startsWithNewline (String c s) = Ascii.eqb c JS.newline.
Proof.
  unfold startsWithNewline, JS.nl. rewrite startsWith_cons.
  rewrite andb_true_r. apply Ascii.eqb_sym.
Qed.

Lemma newlines_succ (k : nat) :
  newlines (S k) = String JS.newline (newlines k).
Proof. reflexivity. Qed.

Lemma includes_other_head (c : ascii) (s : string) (k : nat) :
  Ascii.eqb c JS.newline = false ->
  JS.includes (String c s) (newlines (S k)) = JS.includes s (newlines (S k)).
Proof.
  intros Hc. rewrite includes_cons, newlines_succ, startsWith_cons.
  now rewrite (Ascii.eqb_sym JS.newline c), Hc.
Qed.

(** At most two newlines in front of a text that starts with something
    else and has no run of three: still no run of three. *)
Lemma short_run_then_tail (k : nat) (tail : string) :
  k <= 2 ->
  startsWithNewline tail = false ->
  JS.includes tail (newlines 3) = false ->
  JS.includes (newlines k ++ tail) (newlines 3) = false.
Proof.
  intros Hk Hhead Htail.
  assert (Hstart : forall p, JS.startsWith tail (String JS.newline p) = false).
  { intros p. destruct tail as [|c tail]; [reflexivity|].
    rewrite startsWith_cons. rewrite startsWithNewline_cons in Hhead.
    now rewrite Ascii.eqb_sym, Hhead. }
  destruct k as [|[|[|k]]]; [exact Htail | | | lia];
    cbn [newlines append] in *;
    rewrite !includes_cons, Htail, !startsWith_cons, !Hstart;
    now rewrite !andb_false_r.
Qed.

Lemma flushRun_short (pending : nat) :
  exists k, flushRun pending = newlines k /\ k <= 2.
Proof.
  unfold flushRun. destruct (3 <=? pending)%nat eqn:E.
  - now exists 2.
  - exists pending. split; [reflexivity|]. apply Nat.leb_gt in E. lia.
Qed.

Lemma collapseFrom_cons (pending : nat) (c : ascii) (s : string) :
  collapseFrom pending (String c s)
  = if Ascii.eqb c JS.newline then collapseFrom (S pending) s
    else flushRun pending ++ String c (collapseFrom 0 s).
Proof. reflexivity. Qed.

(** The output of the replacement is a run of at most two newlines
    followed by a text that starts with something else and has no run
    of three. *)
Lemma collapseFrom_shape (s : string) :
  forall pending, exists k tail,
    collapseFrom pending s = newlines k ++ tail
    /\ k <= 2
    /\ startsWithNewline tail = false
    /\ JS.includes tail (newlines 3) = false.
Proof.
  induction s as [|c s IH]; intros pending.
  - destruct (flushRun_short pending) as (k & Hk & Hle).
    exists k, "". cbn [collapseFrom]. rewrite Hk, append_empty_r. now repeat split.
  - rewrite collapseFrom_cons. destruct (Ascii.eqb c JS.newline) eqn:Ec.
    + apply IH.
    + destruct (flushRun_short pending) as (k & Hk & Hle).
      exists k, (String c (collapseFrom 0 s)). rewrite Hk.
      split; [reflexivity|]. split; [exact Hle|].
      split; [now rewrite startsWithNewline_cons|].
      rewrite includes_other_head by exact Ec.
      destruct (IH 0) as (k0 & tail & -> & Hk0 & Hhead & Htail).
      now apply short_run_then_tail.
Qed.

Lemma collapseNewlines_no_run (s : string) :
  JS.includes (collapseNewlines s) (newlines 3) = false.
Proof.
  unfold collapseNewlines.
  destruct (collapseFrom_shape s 0) as (k & tail & -> & Hk & Hhead & Htail).
  now apply short_run_then_tail.
Qed.

Lemma collapseFrom_run (k pending : nat) (s : string) :
  collapseFrom pending (newlines k ++ s) = collapseFrom (pending + k) s.
Proof.
  revert pending. induction k as [|k IH]; intros pending.
  - now rewrite Nat.add_0_r.
  - cbn [newlines append]. rewrite collapseFrom_cons, Ascii.eqb_refl, IH.
    f_equal. lia.
Qed.

Lemma collapseFrom_after_run (pending : nat) (s : string) :
  startsWithNewline s = false ->
  collapseFrom pending s = flushRun pending ++ collapseFrom 0 s.
Proof.
  intros Hhead. destruct s as [|c s].
  - cbn [collapseFrom]. unfold flushRun at 2. simpl. now rewrite append_empty_r.
  - rewrite startsWithNewline_cons in Hhead.
    rewrite !collapseFrom_cons, Hhead. reflexivity.
Qed.

Lemma collapseFrom_append (a rest : string) :
  a <> "" -> endsWithNewline a = false ->
  forall pending,
    collapseFrom pending (a ++ rest)
    = collapseFrom pending a ++ collapseFrom 0 rest.
Proof.
  induction a as [|c a IH]; intros Hne Hlast pending; [contradiction|].
  cbn [append]. rewrite !collapseFrom_cons.
  destruct a as [|c' a].
  - unfold endsWithNewline in Hlast. simpl in Hlast. rewrite Hlast.
    cbn [append collapseFrom]. unfold flushRun at 2. simpl.
    now rewrite append_assoc.
  - assert (Hlast' : endsWithNewline (String c' a) = false) by exact Hlast.
    destruct (Ascii.eqb c JS.newline).
    + apply IH; [discriminate | exact Hlast'].
    + rewrite IH by (discriminate || exact Hlast').
      now rewrite append_assoc.
Qed.

(** A run of three or more newlines between two texts is replaced by
    exactly two, that is, by one blank line. *)
Lemma collapseNewlines_run (a b : string) (k : nat) :
  endsWithNewline a = false ->
  startsWithNewline b = false ->
  3 <= k ->
  collapseNewlines (a ++ newlines k ++ b)
  = collapseNewlines a ++ newlines 2 ++ collapseNewlines b.
Proof.
  intros Ha Hb Hk. unfold collapseNewlines.
  assert (Hrun : collapseFrom 0 (newlines k ++ b)
                 = newlines 2 ++ collapseFrom 0 b).
  { rewrite collapseFrom_run, collapseFrom_after_run by exact Hb.
    unfold flushRun. replace (3 <=? 0 + k)%nat with true; [reflexivity|].
    symmetry. apply Nat.leb_le. lia. }
  destruct a as [|c a].
  - exact Hrun.
  - rewrite collapseFrom_append by (discriminate || exact Ha).
    now rewrite Hrun.
Qed.

(** *** Substrings and trimming *)

Lemma startsWith_empty (s : string) : JS.startsWith s "" = true.
Proof. now destruct s. Qed.

Lemma startsWith_append (needle a b : string) :
  JS.startsWith a needle = true -> JS.startsWith (a ++ b) needle = true.
Proof.
  revert a. induction needle as [|x needle IH]; intros a H.
  - apply startsWith_empty.
  - destruct a as [|c a]; [discriminate|].
    cbn [append]. rewrite startsWith_cons in *.
    apply andb_true_iff in H. destruct H as [-> H]. now rewrite (IH a H).
Qed.

Lemma includes_append_l (a b needle : string) :
  JS.includes a needle = true -> JS.includes (a ++ b) needle = true.
Proof.
  induction a as [|c a IH]; intros H.
  - destruct needle; [|discriminate].
    destruct b; reflexivity.
  - cbn [append]. rewrite includes_cons in *.
    apply orb_true_iff in H. destruct H as [H|H].
    + pose proof (startsWith_append needle (String c a) b H) as H'.
      cbn [append] in H'. now rewrite H'.
    + rewrite (IH H). apply orb_true_r.
Qed.

Lemma includes_append_r (a b needle : string) :
  JS.includes b needle = true -> JS.includes (a ++ b) needle = true.
Proof.
  intros H. induction a as [|c a IH]; [exact H|].
  cbn [append]. rewrite includes_cons, IH. apply orb_true_r.
Qed.

Lemma includes_inside (lead s trail needle : string) :
  JS.includes (lead ++ s ++ trail) needle = false ->
  JS.includes s needle = false.
Proof.
  intros H. destruct (JS.includes s needle) eqn:E; [|reflexivity].
  rewrite <- H. symmetry.
  apply includes_append_r, includes_append_l, E.
Qed.

Lemma trimStart_cons (c : ascii) (s : string) :
  JS.trimStart (String c s)
  = if JS.isWhiteSpace c then JS.trimStart s else String c s.
Proof. reflexivity. Qed.

Lemma trimEnd_cons (c : ascii) (s : string) :
  JS.trimEnd (String c s)
  = match JS.trimEnd s with
    | EmptyString => if JS.isWhiteSpace c then EmptyString else String c EmptyString
    | r => String c r
    end.
Proof. reflexivity. Qed.

Lemma trimStart_spec (s : string) :
  (exists lead, JS.allWhiteSpace lead = true /\ s = lead ++ JS.trimStart s)
  /\ JS.startsWithWhiteSpace (JS.trimStart s) = false.
Proof.
  induction s as [|c s [[lead [Hl Hs]] Hhead]].
  - split; [now exists ""|reflexivity].
  - rewrite trimStart_cons. destruct (JS.isWhiteSpace c) eqn:Ec.
    + split; [|exact Hhead].
      exists (String c lead). cbn [JS.allWhiteSpace append].
      now rewrite Ec, Hl, <- Hs.
    + split; [now exists ""|]. exact Ec.
Qed.

Lemma trimEnd_spec (s : string) :
  (exists trail, JS.allWhiteSpace trail = true /\ s = JS.trimEnd s ++ trail)
  /\ JS.endsWithWhiteSpace (JS.trimEnd s) = false
  /\ (JS.startsWithWhiteSpace s = false ->
      JS.startsWithWhiteSpace (JS.trimEnd s) = false).
Proof.
  induction s as [|c s [[trail [Ht Hs]] [Hlast Hhead]]].
  - split; [now exists ""|]. now split.
  - rewrite trimEnd_cons. destruct (JS.trimEnd s) as [|a r] eqn:E.
    + cbn [append] in Hs. subst trail.
      destruct (JS.isWhiteSpace c) eqn:Ec.
      * split; [|now split].
        exists (String c s). cbn [JS.allWhiteSpace append]. now rewrite Ec, Ht.
      * split; [now exists s|].
        unfold JS.endsWithWhiteSpace, JS.startsWithWhiteSpace. simpl. now split.
    + split; [exists trail; split; [exact Ht|]; cbn [append]; f_equal; exact Hs|].
      split; [exact Hlast|]. intros H. exact H.
Qed.

(** [trim] removes white space at both ends and nothing else. *)
Lemma trim_spec (s : string) :
  (exists lead trail,
      JS.allWhiteSpace lead = true /\ JS.allWhiteSpace trail = true
      /\ s = lead ++ JS.trim s ++ trail)
  /\ JS.startsWithWhiteSpace (JS.trim s) = false
  /\ JS.endsWithWhiteSpace (JS.trim s) = false.
Proof.
  unfold JS.trim.
  destruct (trimStart_spec s) as [[lead [Hl Hs]] Hhead].
  destruct (trimEnd_spec (JS.trimStart s)) as [[trail [Ht He]] [Hlast Hkeep]].
  split; [|split; [exact (Hkeep Hhead) | exact Hlast]].
  exists lead, trail. repeat split; try assumption.
  now rewrite <- He.
Qed.

Lemma dedupe_repeated (before after : list string) (line : string) :
  dedupe (before ++ line :: line :: after)%list
  = dedupe (before ++ line :: after)%list.
Proof.
  unfold dedupe. rewrite !fold_left_app. cbn [fold_left].
  now rewrite dedupeStep_twice.
Qed.

(** C5. For every document the parser returns, the normalizer keeps no
    two equal neighbours among the emitted lines (a line repeated
    immediately is kept once, and lines without repeats are all kept);
    its output has no run of three newlines, a run of three or more
    newlines (two or more blank lines) having been replaced by exactly
    two (one blank line); the output is the text with the white space at
    both ends removed; and on
    [<h2>Title</h2><p>Body</p><p>Body</p>] it is the line [## Title]
    followed by one line [Body]. *)
Theorem htmlToMarkdown_normalizes (cheerio_load : string -> list Node)
  (html : string) :
  let lines := emittedLines (cheerio_load html) in
  let collapsed := collapseNewlines (JS.join JS.nl (dedupe lines)) in
  let out := htmlToMarkdown cheerio_load html in
  hasRepeat (dedupe lines) = false
  /\ (forall before line after,
        dedupe (before ++ line :: line :: after)%list
        = dedupe (before ++ line :: after)%list)
  /\ (forall ls, hasRepeat ls = false -> dedupe ls = ls)
  /\ JS.includes out (newlines 3) = false
  /\ (forall a b k,
        endsWithNewline a = false -> startsWithNewline b = false -> 3 <= k ->
        collapseNewlines (a ++ newlines k ++ b)
        = collapseNewlines a ++ newlines 2 ++ collapseNewlines b)
  /\ (exists lead trail,
        JS.allWhiteSpace lead = true /\ JS.allWhiteSpace trail = true
        /\ collapsed = lead ++ out ++ trail)
  /\ JS.startsWithWhiteSpace out = false
  /\ JS.endsWithWhiteSpace out = false
  /\ (cheerio_load "<h2>Title</h2><p>Body</p><p>Body</p>"
      = Scenario.duplicateParagraph ->
      htmlToMarkdown cheerio_load "<h2>Title</h2><p>Body</p><p>Body</p>"
      = "## Title" ++ JS.nl ++ "Body").
Proof.
  intros lines collapsed out.
  assert (Hout : out = JS.trim collapsed) by reflexivity.
  destruct (trim_spec collapsed) as [(lead & trail & Hl & Ht & Hc) [Hhead Hlast]].
  split; [apply fold_dedupe_distinct; reflexivity|].
  split; [intros before line after; apply dedupe_repeated|].
  split; [intros ls Hls; apply (fold_dedupe_fixed ls []); exact Hls|].
  split.
  { rewrite Hout. apply (includes_inside lead _ trail). rewrite <- Hc.
    apply collapseNewlines_no_run. }
  split; [apply collapseNewlines_run|].
  split; [exists lead, trail; rewrite Hout; now repeat split|].
  split; [now rewrite Hout|].
  split; [now rewrite Hout|].
  intros Hload. unfold htmlToMarkdown. rewrite Hload. reflexivity.
Qed.

(** With [Scenario.load] as the parser, the example runs. *)
Lemma htmlToMarkdown_normalizes_witness :
  htmlToMarkdown Scenario.load "<h2>Title</h2><p>Body</p><p>Body</p>"
  = "## Title" ++ JS.nl ++ "Body".
Proof.
  apply (htmlToMarkdown_normalizes Scenario.load
           "<h2>Title</h2><p>Body</p><p>Body</p>").
  reflexivity.
Defined.

(** *** The article identifier of a URL *)

Lemma stripPrefix_sound (p s rest : string) :
  stripPrefix p s = Some rest -> s = p ++ rest.
Proof.
  revert s. induction p as [|a p IH]; intros s H.
  - now injection H as ->.
  - destruct s as [|b s]; [discriminate|].
    cbn [stripPrefix] in H. destruct (Ascii.eqb a b) eqn:E; [|discriminate].
    apply Ascii.eqb_eq in E. subst b. cbn [append]. now rewrite (IH s H).
Qed.

Lemma stripPrefix_complete (p rest : string) :
  stripPrefix p (p ++ rest) = Some rest.
Proof.
  induction p as [|a p IH]; [reflexivity|].
  cbn [append stripPrefix]. now rewrite Ascii.eqb_refl.
Qed.

Lemma matchHere_sound (s digits : string) :
  matchHere s = Some digits ->
  exists d post, JS.isDigit d = true /\ s = "/articles/" ++ String d post.
Proof.
  unfold matchHere. intros H.
  destruct (stripPrefix "/articles/" s) as [rest|] eqn:E; [|discriminate].
  apply stripPrefix_sound in E.
  destruct rest as [|d post]; [discriminate|].
  cbn [takeDigits] in H. destruct (JS.isDigit d) eqn:Ed; [|discriminate].
  now exists d, post.
Qed.

Lemma matchHere_complete (d : ascii) (post : string) :
  JS.isDigit d = true ->
  matchHere ("/articles/" ++ String d post) = Some (String d (takeDigits post)).
Proof.
  intros Hd. unfold matchHere. rewrite stripPrefix_complete.
  cbn [takeDigits]. now rewrite Hd.
Qed.

Lemma matchArticleId_equation (url : string) :
  matchArticleId url
  = match matchHere url with
    | Some digits => Some digits
    | None =>
        match url with
        | EmptyString => None
        | String _ url' => matchArticleId url'
        end
    end.
Proof. now destruct url. Qed.

(** The pattern matches exactly the URLs that contain [/articles/]
    followed by a digit. *)
Lemma matchArticleId_none_iff (url : string) :
  matchArticleId url = None
  <-> (forall pre d post,
         JS.isDigit d = true -> url <> pre ++ "/articles/" ++ String d post).
Proof.
  split.
  - intros Hnone pre. revert url Hnone.
    induction pre as [|c pre IH]; intros url Hnone d post Hd ->.
    + change ("" ++ "/articles/" ++ String d post)
        with ("/articles/" ++ String d post) in Hnone.
      rewrite matchArticleId_equation in Hnone.
      now rewrite (matchHere_complete d post Hd) in Hnone.
    + rewrite matchArticleId_equation in Hnone.
      destruct (matchHere (String c pre ++ "/articles/" ++ String d post));
        [discriminate|].
      exact (IH _ Hnone d post Hd eq_refl).
  - induction url as [|c url IH]; intros Habsent.
    + reflexivity.
    + rewrite matchArticleId_equation.
      destruct (matchHere (String c url)) as [digits|] eqn:E.
      * destruct (matchHere_sound _ _ E) as (d & post & Hd & Hs).
        exfalso. exact (Habsent "" d post Hd Hs).
      * apply IH. intros pre d post Hd ->.
        exact (Habsent (String c pre) d post Hd eq_refl).
Qed.

(** C6. For a URL with no [/articles/] followed by a digit,
    [getSupportArticle] resolves to a message that ends with the URL
    itself and leaves the trace as it was: nothing is fetched and
    nothing is thrown. *)
Theorem getSupportArticle_without_id (cheerio_load : string -> list Node)
  (server : Server) (url : string) (t : Trace) :
  (forall pre d post,
     JS.isDigit d = true -> url <> pre ++ "/articles/" ++ String d post) ->
  getSupportArticle cheerio_load server url t
  = (Resolved ("Could not extract article ID from URL: " ++ url), t).
Proof.
  intros Habsent. apply matchArticleId_none_iff in Habsent.
  unfold getSupportArticle, try_catch. now rewrite Habsent.
Qed.

(** A URL whose [/articles/] is not followed by a digit. *)
Lemma getSupportArticle_without_id_witness :
  getSupportArticle Scenario.load Scenario.zendesk_down
    "https://support.therealbrokerage.com/hc/en-us/articles/latest" []
  = (Resolved ("Could not extract article ID from URL: "
               ++ "https://support.therealbrokerage.com/hc/en-us/articles/latest"),
     []).
Proof.
  apply (getSupportArticle_without_id Scenario.load Scenario.zendesk_down
           "https://support.therealbrokerage.com/hc/en-us/articles/latest" []).
  apply matchArticleId_none_iff. reflexivity.
Defined.

(** *** The two search operations *)

(** The search URL is built before the [try]: when
    [encodeURIComponent] throws on the query, both search operations
    reject with its error and make no request. *)
Lemma searchSupportSite_malformed (encodeURIComponent : string -> option string)
  (server : Server) (query : string) (limit : option JS.number) (t : Trace) :
  encodeURIComponent query = None ->
  searchSupportSite encodeURIComponent server query limit t
  = (Rejected uriMalformed, t).
Proof.
  intros Hquery. unfold searchSupportSite, encoded, bind, throw.
  now rewrite Hquery.
Qed.

Lemma searchAndFetchSupportArticles_malformed
  (encodeURIComponent : string -> option string)
  (cheerio_load : string -> list Node) (server : Server) (query : string)
  (maxArticles : option JS.number) (t : Trace) :
  encodeURIComponent query = None ->
  searchAndFetchSupportArticles encodeURIComponent cheerio_load server
    query maxArticles t
  = (Rejected uriMalformed, t).
Proof.
  intros Hquery. unfold searchAndFetchSupportArticles, encoded, bind, throw.
  now rewrite Hquery.
Qed.

(** On a query that [encodeURIComponent] accepts, [searchSupportSite]
    resolves after one request, whose URL ends with the page size; the
    value is empty when the call failed. *)
Lemma searchSupportSite_outcome (encodeURIComponent : string -> option string)
  (server : Server) (query encodedQuery : string) (limit : option JS.number)
  (t : Trace) :
  encodeURIComponent query = Some encodedQuery ->
  exists r value t',
    searchSupportSite encodeURIComponent server query limit t
    = (Resolved value, t')
    /\ requests t' = (requests t ++ [r])%list
    /\ req_url r
       = ZENDESK_API_BASE ++ "/articles/search.json?query="
         ++ encodedQuery ++ "&per_page="
         ++ JS.String_of_number (JS.nullish limit 5%Z)
    /\ (fails (search server r) = true -> value = []).
Proof.
  intros Hquery.
  unfold searchSupportSite, encoded. rewrite Hquery. AsyncFacts.run.
  match goal with |- context [search server ?r] => exists r; set (req := r) end.
  destruct (search server req) as [e|resp] eqn:Ea; simpl.
  - eexists _, _. split; [reflexivity|].
    rewrite AsyncFacts.requests_push_log, AsyncFacts.requests_push_fetch.
    repeat split; reflexivity.
  - destruct (ok resp) eqn:Eok; simpl.
    + destruct (json resp) as [e|data]; simpl.
      * eexists _, _. split; [reflexivity|].
        rewrite AsyncFacts.requests_push_log, AsyncFacts.requests_push_fetch.
        repeat split; reflexivity.
      * eexists _, _. split; [reflexivity|].
        rewrite AsyncFacts.requests_push_fetch.
        repeat split; try reflexivity. discriminate.
    + eexists _, _. split; [reflexivity|].
      rewrite AsyncFacts.requests_push_log, AsyncFacts.requests_push_fetch.
      repeat split; reflexivity.
Qed.

(** On a query that [encodeURIComponent] accepts,
    [searchAndFetchSupportArticles] resolves after one request, whose
    URL ends with the page size; the value is a text that reports the
    error when the call failed. *)
Lemma searchAndFetchSupportArticles_outcome
  (encodeURIComponent : string -> option string)
  (cheerio_load : string -> list Node)
  (server : Server) (query encodedQuery : string)
  (maxArticles : option JS.number) (t : Trace) :
  encodeURIComponent query = Some encodedQuery ->
  exists r value t',
    searchAndFetchSupportArticles encodeURIComponent cheerio_load server
      query maxArticles t
    = (Resolved value, t')
    /\ requests t' = (requests t ++ [r])%list
    /\ req_url r
       = ZENDESK_API_BASE ++ "/articles/search.json?query="
         ++ encodedQuery ++ "&per_page="
         ++ JS.String_of_number (JS.nullish maxArticles 3%Z)
    /\ (fails (search server r) = true ->
        exists message, value = "Error searching support articles: " ++ message).
Proof.
  intros Hquery.
  unfold searchAndFetchSupportArticles, encoded. rewrite Hquery. AsyncFacts.run.
  match goal with |- context [search server ?r] => exists r; set (req := r) end.
  destruct (search server req) as [e|resp] eqn:Ea; simpl.
  - eexists _, _. split; [reflexivity|].
    rewrite AsyncFacts.requests_push_log, AsyncFacts.requests_push_fetch.
    repeat split; try reflexivity. intros _. now eexists.
  - destruct (ok resp) eqn:Eok; simpl.
    + destruct (json resp) as [e|data]; simpl.
      * eexists _, _. split; [reflexivity|].
        rewrite AsyncFacts.requests_push_log, AsyncFacts.requests_push_fetch.
        repeat split; try reflexivity. discriminate.
      * destruct (JS.or_empty (results data)) as [|a l];
          (eexists _, _; split; [reflexivity|]);
          rewrite AsyncFacts.requests_push_fetch;
          repeat split; try reflexivity; discriminate.
    + eexists _, _. split; [reflexivity|].
      rewrite AsyncFacts.requests_push_log, AsyncFacts.requests_push_fetch.
      repeat split; try reflexivity. intros _. now eexists.
Qed.

Lemma getSupportArticle_resolves (cheerio_load : string -> list Node)
  (server : Server) (url : string) :
  resolves (getSupportArticle cheerio_load server url).
Proof.
  apply AsyncFacts.resolves_try_catch. intros e.
  apply AsyncFacts.resolves_log_and_return.
Qed.

End SupportProperties.

(** ** [src/github-search.ts] *)

Module GithubProperties.
Import Net GithubSearch.

Ltac settle_with_log :=
  eexists _, _; split; [reflexivity|];
  rewrite AsyncFacts.requests_push_log, AsyncFacts.requests_push_fetch;
  repeat split; reflexivity.

(** [searchGitHubCode] resolves after one request, for [/search/code]
    and with the page size in [per_page]; the value is empty when the
    call failed. *)
Lemma searchGitHubCode_outcome (env : Env) (server : Server) (query : string)
  (org : option string) (limit : option JS.number) (t : Trace) :
  exists r value t',
    searchGitHubCode env server query org limit t = (Resolved value, t')
    /\ requests t' = (requests t ++ [r])%list
    /\ req_url r = GITHUB_API_BASE ++ "/search/code"
    /\ param "per_page" (req_params r)
       = Some (JS.String_of_number (JS.nullish limit 10%Z))
    /\ (fails (searchCode server r) = true -> value = []).
Proof.
  unfold searchGitHubCode, githubFetch. AsyncFacts.run.
  match goal with |- context [searchCode server ?r] => exists r; set (req := r) end.
  destruct (searchCode server req) as [e|resp] eqn:Ea; simpl;
    [settle_with_log|].
  destruct (ok resp) eqn:Eok; simpl; [|settle_with_log].
  destruct (json resp) as [e|data]; simpl; [settle_with_log|].
  eexists _, _. split; [reflexivity|].
  rewrite AsyncFacts.requests_push_fetch.
  repeat split; try reflexivity. discriminate.
Qed.

(** [searchGitHubRepos] likewise, for [/search/repositories]. *)
Lemma searchGitHubRepos_outcome (env : Env) (server : Server) (query : string)
  (org : option string) (limit : option JS.number) (t : Trace) :
  exists r value t',
    searchGitHubRepos env server query org limit t = (Resolved value, t')
    /\ requests t' = (requests t ++ [r])%list
    /\ req_url r = GITHUB_API_BASE ++ "/search/repositories"
    /\ param "per_page" (req_params r)
       = Some (JS.String_of_number (JS.nullish limit 5%Z))
    /\ (fails (searchRepositories server r) = true -> value = []).
Proof.
  unfold searchGitHubRepos, githubFetch. AsyncFacts.run.
  match goal with
  | |- context [searchRepositories server ?r] => exists r; set (req := r)
  end.
  destruct (searchRepositories server req) as [e|resp] eqn:Ea; simpl;
    [settle_with_log|].
  destruct (ok resp) eqn:Eok; simpl; [|settle_with_log].
  destruct (json resp) as [e|data]; simpl; [settle_with_log|].
  eexists _, _. split; [reflexivity|].
  rewrite AsyncFacts.requests_push_fetch.
  repeat split; try reflexivity. discriminate.
Qed.

(** The two loops only add to [parts]. *)
Lemma pushRepo_appends (parts : list string) (repo : GitHubRepoMatch) :
  pushRepo parts repo = (parts ++ pushRepo [] repo)%list.
Proof. unfold pushRepo, JS.push. now rewrite <- app_assoc. Qed.

Lemma pushMatch_appends (parts : list string) (m : GitHubCodeMatch) :
  pushMatch parts m = (parts ++ pushMatch [] m)%list.
Proof.
  unfold pushMatch, JS.push. destruct (textMatches m); simpl;
    now rewrite <- ?app_assoc.
Qed.

Lemma fold_pushRepo (repos : list GitHubRepoMatch) (parts : list string) :
  fold_left pushRepo repos parts = (parts ++ flat_map (pushRepo []) repos)%list.
Proof.
  revert parts. induction repos as [|repo repos IH]; intros parts; simpl.
  - now rewrite app_nil_r.
  - now rewrite IH, pushRepo_appends, <- app_assoc.
Qed.

Lemma fold_pushMatch (matches : list GitHubCodeMatch) (parts : list string) :
  fold_left pushMatch matches parts
  = (parts ++ flat_map (pushMatch []) matches)%list.
Proof.
  revert parts. induction matches as [|m matches IH]; intros parts; simpl.
  - now rewrite app_nil_r.
  - now rewrite IH, pushMatch_appends, <- app_assoc.
Qed.

(** The text is the repositories section, a blank line, and the
    code-matches section, in this order. *)
Lemma render_sections (codeResults : list GitHubCodeMatch)
  (repoResults : list GitHubRepoMatch) :
  render codeResults repoResults
  = JS.join JS.nl
      (repositoriesSection repoResults ++ [ "" ]
       ++ codeMatchesSection codeResults)%list.
Proof.
  unfold render, JS.push. f_equal.
  destruct repoResults as [|repo repos], codeResults as [|m ms];
    cbn [length Nat.ltb Nat.leb repositoriesSection codeMatchesSection app];
    rewrite ?fold_pushRepo, ?fold_pushMatch; cbn [app];
    rewrite <- ?app_assoc; reflexivity.
Qed.

Lemma render_not_empty (codeResults : list GitHubCodeMatch)
  (repoResults : list GitHubRepoMatch) :
  JS.truthy (render codeResults repoResults) = true.
Proof.
  rewrite render_sections.
  destruct repoResults as [|repo repos]; reflexivity.
Qed.


(** With a token the text is never empty. *)
Lemma searchAndFetchGitHubResults_configured (env : Env) (server : Server)
  (query : string) (org : option string) (t : Trace) :
  isGitHubConfigured env = true ->
  exists text t',
    searchAndFetchGitHubResults env server query org t = (Resolved text, t')
    /\ JS.truthy text = true.
Proof.
  intros Hon. unfold searchAndFetchGitHubResults. rewrite Hon.
  cbn [negb]. unfold bind, Promise_all2, ret.
  destruct (searchGitHubCode_outcome env server query org (Some 10%Z) t)
    as (rc & codeResults & t1 & -> & _).
  destruct (searchGitHubRepos_outcome env server query org (Some 5%Z) t1)
    as (rr & repoResults & t2 & -> & _).
  eexists _, _. split; [reflexivity | apply render_not_empty].
Qed.



Example code_only_text :
  fst (searchAndFetchGitHubResults Scenario.env Scenario.github_code_only
         "caps" None [])
  = Resolved
      ("No matching repositories found." ++ JS.nl
       ++ JS.nl
       ++ "## Code Matches" ++ JS.nl
       ++ JS.nl
       ++ "### Realtyka/caps / src/Cap.java" ++ JS.nl
       ++ "https://github.com/Realtyka/caps/blob/main/src/Cap.java" ++ JS.nl).
Proof. reflexivity. Qed.

End GithubProperties.

(** ** The adapters together, and the tool registry *)

Module ToolsProperties.
Import Net Tools.

Example String_of_number_samples :
  JS.String_of_number 10%Z = "10"
  /\ JS.String_of_number 0%Z = "0"
  /\ JS.String_of_number (-3)%Z = "-3".
Proof. repeat split. Qed.

Section Adapters.

Variable env : Env.
Variable URL_canParse : string -> bool.
Variable encodeURIComponent : string -> option string.
Variable cheerio_load : string -> list SupportSite.Node.
Variable upstream : Upstream.


(** The page size of a request: a supplied limit is printed as it is,
    and a limit of zero or below never prints as one of the defaults. *)
Lemma nonpositive_is_no_default (n : JS.number) :
  (n <= 0)%Z ->
  JS.String_of_number n <> "10"
  /\ JS.String_of_number n <> "5"
  /\ JS.String_of_number n <> "3".
Proof.
  intros Hn. destruct n as [|p|p]; [| lia |]; repeat split; discriminate.
Qed.

(** C2, as the code has it.  Each operation sends the page size it was
    given: its documented default (10, 5, 5, 3, 10) when the limit is
    absent, and the supplied limit itself otherwise, zero and negative
    limits included, which are sent as they are and not replaced by the
    default.  The limit is an integer that [String] prints in plain
    decimal, and the URL of the knowledge base parses.  The support
    operations send their request when [encodeURIComponent] accepts the
    query; when it throws they send none. *)
Theorem limit_reaches_upstream (query : string) (limit : option JS.number)
  (t : Trace) :
  (forall n, limit = Some n -> JS.isSafeInteger n) ->
  URL_canParse (YoutrackKb.getBaseUrl env ++ "/articles") = true ->
  (exists r value t',
      search_kb_articles env URL_canParse upstream query limit t = (Resolved value, t')
      /\ requests t' = (requests t ++ [r])%list
      /\ param "$top" (req_params r)
         = Some (JS.String_of_number
                   (match limit with Some n => n | None => 10%Z end)))
  /\ (exists r rest value t',
        YoutrackKb.searchAndFetchArticles env URL_canParse (youtrack upstream) query limit t
        = (Resolved value, t')
        /\ requests t' = (requests t ++ r :: rest)%list
        /\ param "$top" (req_params r)
           = Some (JS.String_of_number
                     (match limit with Some n => n | None => 5%Z end)))
  /\ (forall encodedQuery,
        encodeURIComponent query = Some encodedQuery ->
        exists r value t',
          search_support_site encodeURIComponent upstream query limit t
          = (Resolved value, t')
          /\ requests t' = (requests t ++ [r])%list
          /\ req_url r
             = SupportSite.ZENDESK_API_BASE ++ "/articles/search.json?query="
               ++ encodedQuery ++ "&per_page="
               ++ JS.String_of_number
                    (match limit with Some n => n | None => 5%Z end))
  /\ (forall encodedQuery,
        encodeURIComponent query = Some encodedQuery ->
        exists r value t',
          SupportSite.searchAndFetchSupportArticles encodeURIComponent
            cheerio_load (zendesk upstream) query limit t
          = (Resolved value, t')
          /\ requests t' = (requests t ++ [r])%list
          /\ req_url r
             = SupportSite.ZENDESK_API_BASE ++ "/articles/search.json?query="
               ++ encodedQuery ++ "&per_page="
               ++ JS.String_of_number
                    (match limit with Some n => n | None => 3%Z end))
  /\ (encodeURIComponent query = None ->
      requests (snd (search_support_site encodeURIComponent upstream query
                       limit t))
      = requests t
      /\ requests (snd (SupportSite.searchAndFetchSupportArticles
                          encodeURIComponent cheerio_load (zendesk upstream)
                          query limit t))
         = requests t)
  /\ (forall org, exists r value t',
        GithubSearch.searchGitHubCode env (github upstream) query org limit t
        = (Resolved value, t')
        /\ requests t' = (requests t ++ [r])%list
        /\ param "per_page" (req_params r)
           = Some (JS.String_of_number
                     (match limit with Some n => n | None => 10%Z end)))
  /\ (forall n, limit = Some n -> (n <= 0)%Z ->
        JS.String_of_number n <> "10"
        /\ JS.String_of_number n <> "5"
        /\ JS.String_of_number n <> "3").
Proof.
  intros _ Hparse.
  split.
  { unfold search_kb_articles, bind.
    destruct (KbProperties.searchKBArticles_request env URL_canParse
                (youtrack upstream) query (Some (JS.nullish limit 10%Z)) t Hparse)
      as (r & hits & t1 & -> & Hreq & _ & Htop).
    exists r. destruct hits; eexists _, _; (split; [reflexivity|]);
      split; assumption. }
  split.
  { destruct (KbProperties.searchAndFetchArticles_first_request env URL_canParse
                (youtrack upstream) query limit t Hparse)
      as (r & rest & v & t' & H & Hreq & _ & Htop).
    exists r, rest, v, t'. now repeat split. }
  split.
  { intros encodedQuery Hquery. unfold search_support_site, bind.
    destruct (SupportProperties.searchSupportSite_outcome encodeURIComponent
                (zendesk upstream) query encodedQuery
                (Some (JS.nullish limit 5%Z)) t Hquery)
      as (r & hits & t1 & -> & Hreq & Hurl & _).
    exists r. destruct hits; eexists _, _; (split; [reflexivity|]);
      split; assumption. }
  split.
  { intros encodedQuery Hquery.
    destruct (SupportProperties.searchAndFetchSupportArticles_outcome
                encodeURIComponent cheerio_load (zendesk upstream) query
                encodedQuery limit t Hquery)
      as (r & v & t' & H & Hreq & Hurl & _).
    exists r, v, t'. now repeat split. }
  split.
  { intros Hquery. split.
    - unfold search_support_site, bind.
      now rewrite (SupportProperties.searchSupportSite_malformed
                     encodeURIComponent (zendesk upstream) query
                     (Some (JS.nullish limit 5%Z)) t Hquery).
    - now rewrite (SupportProperties.searchAndFetchSupportArticles_malformed
                     encodeURIComponent cheerio_load (zendesk upstream) query
                     limit t Hquery). }
  split.
  { intros org.
    destruct (GithubProperties.searchGitHubCode_outcome env (github upstream)
                query org limit t) as (r & v & t' & H & Hreq & _ & Hpage & _).
    exists r, v, t'. now repeat split. }
  intros n _ Hn. now apply nonpositive_is_no_default.
Qed.

(** C1, as the code has it.  The text of [ask_product_question] is
    always the knowledge-base section, a separator line, the
    support-site section, a separator line and the code-results section,
    in this order: the third section is there whether or not inclusion
    was requested.  Its body is the text of the code-host adapter when
    inclusion resolves true and the adapter is configured, and the fixed
    sentence otherwise.  This is so for every question that
    [encodeURIComponent] accepts; on a question on which it throws the
    support task rejects, and the handler with it: no text is
    returned. *)
Theorem ask_product_question_merges (question : string)
  (max_kb_articles max_support_articles : option JS.number)
  (include_github : option bool) (t : Trace) :
  (forall encodedQuestion,
      encodeURIComponent question = Some encodedQuestion ->
      exists kbContent supportContent githubSection t1 t2 t3,
        YoutrackKb.searchAndFetchArticles env URL_canParse (youtrack upstream) question
          (Some (match max_kb_articles with Some n => n | None => 5%Z end)) t
        = (Resolved kbContent, t1)
        /\ SupportSite.searchAndFetchSupportArticles encodeURIComponent cheerio_load
             (zendesk upstream) question
             (Some (match max_support_articles with Some n => n | None => 3%Z end))
             t1
           = (Resolved supportContent, t2)
        /\ (if (match include_github with
                | Some flag => flag
                | None => GithubSearch.isGitHubConfigured env
                end)
               && GithubSearch.isGitHubConfigured env
            then
              GithubSearch.searchAndFetchGitHubResults env (github upstream)
                question None t2
              = (Resolved githubSection, t3)
            else
              githubSection
              = "GitHub search is not configured (GITHUB_TOKEN not set). Skipping code search."
              /\ t3 = t2)
        /\ ask_product_question env URL_canParse encodeURIComponent cheerio_load upstream
             question max_kb_articles max_support_articles include_github t
           = (Resolved
                (JS.join JS.nl
                   [ "# YouTrack Knowledge Base Results"; "";
                     kbContent; "";
                     "---"; "";
                     "# Support Site Results"; "";
                     supportContent; "";
                     "---"; "";
                     "# GitHub Code Search Results"; "";
                     githubSection ]),
              t3))
  /\ (encodeURIComponent question = None ->
      fst (ask_product_question env URL_canParse encodeURIComponent cheerio_load
             upstream question max_kb_articles max_support_articles
             include_github t)
      = Rejected "URI malformed").
Proof.
  split; [intros encodedQuestion Hquestion | intros Hquestion];
    unfold ask_product_question.
  2: {
    unfold bind.
    destruct (KbProperties.searchAndFetchArticles_resolves env URL_canParse
                (youtrack upstream) question
                (Some (JS.nullish max_kb_articles 5%Z)) t)
      as (kbContent & t1 & Hkb).
    destruct (JS.nullish include_github (GithubSearch.isGitHubConfigured env)
              && GithubSearch.isGitHubConfigured env).
    - unfold JS.push. cbn [app Promise_all]. unfold Promise_all2, ret.
      rewrite Hkb.
      rewrite (SupportProperties.searchAndFetchSupportArticles_malformed
                 encodeURIComponent cheerio_load (zendesk upstream) question
                 (Some (JS.nullish max_support_articles 3%Z)) t1 Hquestion).
      destruct (GithubSearch.searchAndFetchGitHubResults env (github upstream)
                  question None t1) as [[text|e] t3]; reflexivity.
    - cbn [Promise_all]. unfold Promise_all2, ret.
      rewrite Hkb.
      rewrite (SupportProperties.searchAndFetchSupportArticles_malformed
                 encodeURIComponent cheerio_load (zendesk upstream) question
                 (Some (JS.nullish max_support_articles 3%Z)) t1 Hquestion).
      reflexivity. }
  change (JS.nullish max_kb_articles 5%Z)
    with (match max_kb_articles with Some n => n | None => 5%Z end).
  change (JS.nullish max_support_articles 3%Z)
    with (match max_support_articles with Some n => n | None => 3%Z end).
  change (JS.nullish include_github (GithubSearch.isGitHubConfigured env))
    with (match include_github with
          | Some flag => flag
          | None => GithubSearch.isGitHubConfigured env
          end).
  set (kbLimit := match max_kb_articles with Some n => n | None => 5%Z end).
  set (supportLimit := match max_support_articles with Some n => n | None => 3%Z end).
  set (shouldSearchGitHub :=
         match include_github with
         | Some flag => flag
         | None => GithubSearch.isGitHubConfigured env
         end).
  destruct (KbProperties.searchAndFetchArticles_resolves env URL_canParse (youtrack upstream)
              question (Some kbLimit) t) as (kbContent & t1 & Hkb).
  destruct (SupportProperties.searchAndFetchSupportArticles_outcome
              encodeURIComponent cheerio_load (zendesk upstream) question
              encodedQuestion (Some supportLimit) t1 Hquestion)
    as (r & supportContent & t2 & Hsupport & _).
  exists kbContent, supportContent.
  destruct (shouldSearchGitHub && GithubSearch.isGitHubConfigured env) eqn:Hgo.
  - apply andb_true_iff in Hgo. destruct Hgo as [_ Hon].
    destruct (GithubProperties.searchAndFetchGitHubResults_configured env
                (github upstream) question None t2 Hon)
      as (text & t3 & Hgithub & Htruthy).
    exists text, t1, t2, t3.
    split; [exact Hkb|]. split; [exact Hsupport|]. split; [exact Hgithub|].
    unfold bind, JS.push. cbn [app Promise_all]. unfold Promise_all2, ret.
    rewrite Hkb, Hsupport, Hgithub. cbn [nth nth_error].
    unfold JS.opt_or_else, JS.or_else.
    now rewrite Htruthy.
  - exists GithubSearch.notConfigured, t1, t2, t2.
    split; [exact Hkb|]. split; [exact Hsupport|]. split; [now split|].
    unfold bind. cbn [Promise_all]. unfold Promise_all2, ret.
    rewrite Hkb, Hsupport. reflexivity.
Qed.

End Adapters.

(** The limit zero goes upstream as [$top=0]. *)
Lemma limit_reaches_upstream_witness :
  exists r value t',
    search_kb_articles Scenario.env Scenario.canParse Scenario.upstream_quiet "caps" (Some 0%Z) []
    = (Resolved value, t')
    /\ requests t' = (requests [] ++ [r])%list
    /\ param "$top" (req_params r) = Some (JS.String_of_number 0%Z).
Proof.
  apply (limit_reaches_upstream Scenario.env Scenario.canParse Scenario.encode
           Scenario.load Scenario.upstream_quiet "caps" (Some 0%Z) []).
  - intros n [= <-]. unfold JS.isSafeInteger. lia.
  - reflexivity.
Defined.

(** C2 fails as stated: with the limit zero, [search_kb_articles] asks
    the knowledge base for [$top=0], not for the default 10. *)
Lemma zero_limit_is_sent_as_zero :
  map (fun r => param "$top" (req_params r))
    (requests (snd (search_kb_articles Scenario.env Scenario.canParse Scenario.upstream_quiet
                      "caps" (Some 0%Z) [])))
  = [ Some "0" ]
  /\ [ Some "0" ] <> [ Some "10" ].
Proof. split; [reflexivity | discriminate]. Qed.


(** C1 fails as stated: with [include_github] false the code-results
    section is still there, holding the fixed sentence, whereas the
    merge as specified ends after the second separator line. *)
Lemma code_section_present_when_not_included :
  fst (ask_product_question Scenario.env Scenario.canParse Scenario.encode Scenario.load
         Scenario.upstream_quiet "caps" None None (Some false) [])
  = Resolved
      (JS.join JS.nl
         [ "# YouTrack Knowledge Base Results"; "";
           "No YouTrack knowledge base articles found for this query."; "";
           "---"; "";
           "# Support Site Results"; "";
           "No support articles found for this query."; "";
           "---"; "";
           "# GitHub Code Search Results"; "";
           "GitHub search is not configured (GITHUB_TOKEN not set). Skipping code search." ])
  /\ fst (ask_product_question Scenario.env Scenario.canParse Scenario.encode Scenario.load
            Scenario.upstream_quiet "caps" None None (Some false) [])
     <> Resolved
          (mergeAsSpecified
             "No YouTrack knowledge base articles found for this query."
             "No support articles found for this query."
             false None).
Proof. split; [reflexivity | discriminate]. Qed.

(** With the token set and the flag omitted, the third section is the
    text of the code-host adapter. *)
Example ask_product_question_runs :
  fst (ask_product_question Scenario.env Scenario.canParse Scenario.encode Scenario.load
         Scenario.upstream_quiet "caps" None None None [])
  = Resolved
      (JS.join JS.nl
         [ "# YouTrack Knowledge Base Results"; "";
           "No YouTrack knowledge base articles found for this query."; "";
           "---"; "";
           "# Support Site Results"; "";
           "No support articles found for this query."; "";
           "---"; "";
           "# GitHub Code Search Results"; "";
           "No matching repositories found."; "";
           "## Code Matches"; "";
           "### Realtyka/caps / src/Cap.java";
           "https://github.com/Realtyka/caps/blob/main/src/Cap.java"; "" ]).
Proof. reflexivity. Qed.

(** Without the token and with the flag omitted, the third section is
    the fixed sentence. *)
Example ask_product_question_unconfigured :
  fst (ask_product_question Scenario.env_without_github Scenario.canParse Scenario.encode
         Scenario.load Scenario.upstream_quiet "caps" None None None [])
  = Resolved
      (JS.join JS.nl
         [ "# YouTrack Knowledge Base Results"; "";
           "No YouTrack knowledge base articles found for this query."; "";
           "---"; "";
           "# Support Site Results"; "";
           "No support articles found for this query."; "";
           "---"; "";
           "# GitHub Code Search Results"; "";
           "GitHub search is not configured (GITHUB_TOKEN not set). Skipping code search." ]).
Proof. reflexivity. Qed.

End ToolsProperties.

(** * Further properties *)

(** ** [src/youtrack-kb.ts] *)

Module KbExtras.
Import Net YoutrackKb StringFacts.

Lemma startsWith_own_prefix (p rest : string) :
  JS.startsWith (p ++ rest) p = true.
Proof.
  induction p as [|c p IH]; [now destruct rest|].
  cbn [append JS.startsWith]. now rewrite Ascii.eqb_refl, IH.
Qed.

Lemma requests_app (t u : Trace) :
  requests (t ++ u)%list = (requests t ++ requests u)%list.
Proof.
  induction t as [|[r|l d] t IH]; simpl; [reflexivity| |exact IH].
  now rewrite IH.
Qed.

Lemma consoleErrors_push_fetch (t : Trace) (r : Request) :
  consoleErrors (JS.push t (Fetch r)) = consoleErrors t.
Proof.
  unfold JS.push. induction t as [|[r'|l d] t IH]; simpl; [reflexivity|exact IH|].
  now rewrite IH.
Qed.

Lemma consoleErrors_push_log (t : Trace) (label detail : string) :
  consoleErrors (JS.push t (ConsoleError label detail))
  = (consoleErrors t ++ [ (label, detail) ])%list.
Proof.
  unfold JS.push. induction t as [|[r'|l d] t IH]; simpl; [reflexivity|exact IH|].
  now rewrite IH.
Qed.

Section Adapter.

Variable env : Env.
Variable URL_canParse : string -> bool.
Variable server : Server.

Ltac settle sent :=
  eexists _, _, sent; split; [reflexivity|];
  rewrite ?AsyncFacts.requests_push_log, ?AsyncFacts.requests_push_fetch,
    ?app_nil_r;
  split; [reflexivity|].

(** The value of a full fetch depends on the article alone, not on what
    was done before. *)
Lemma getKBArticle_value (articleId : string) (t : Trace) :
  fst (getKBArticle env URL_canParse server articleId t)
  = fst (getKBArticle env URL_canParse server articleId []).
Proof.
  unfold getKBArticle, youtrackFetch.
  destruct (URL_canParse (getBaseUrl env ++ "/articles/" ++ articleId));
    AsyncFacts.run; [|reflexivity].
  match goal with |- context [article server ?r] => set (req := r) end.
  destruct (article server req) as [e|resp]; simpl; [reflexivity|].
  destruct (ok resp); simpl; [|reflexivity].
  destruct (json resp) as [e|data]; reflexivity.
Qed.

Lemma fetchEach_blocks (hits : list YouTrackArticle) :
  forall (results : list string) (t : Trace),
    fst (fetchEach env URL_canParse server hits results t)
    = Resolved
        (results ++ flat_map (fetchedBlocks env URL_canParse server) hits)%list.
Proof.
  induction hits as [|a hits IH]; intros results t.
  - simpl. now rewrite app_nil_r.
  - cbn [fetchEach flat_map]. unfold bind.
    pose proof (getKBArticle_value (JS.or_else (idReadable a) (id a)) t) as Hv.
    destruct (KbProperties.getKBArticle_resolves env URL_canParse server
                (JS.or_else (idReadable a) (id a)) t) as (full & t1 & Hrun).
    rewrite Hrun in *. simpl in Hv.
    unfold fetchedBlocks at 1. rewrite <- Hv.
    destruct full as [full|].
    + rewrite IH. unfold JS.push. now rewrite <- app_assoc.
    + now rewrite IH.
Qed.

(** X1. When the search step returns hits, the text of
    [searchAndFetchArticles] is made of the blocks of the articles whose
    full fetch succeeded, in the order of the search result and joined
    by the separator; an article whose fetch comes back absent leaves
    no trace in the text. *)
Theorem searchAndFetchArticles_blocks (query : string)
  (maxArticles : option JS.number) (t : Trace) (hits : list YouTrackArticle) :
  fst (searchKBArticles env URL_canParse server query
         (Some (JS.nullish maxArticles 5%Z)) t)
  = Resolved hits ->
  hits <> [] ->
  fst (searchAndFetchArticles env URL_canParse server query maxArticles t)
  = Resolved
      (JS.join (JS.nl ++ JS.nl ++ "---" ++ JS.nl ++ JS.nl)
         (flat_map (fetchedBlocks env URL_canParse server) hits)).
Proof.
  intros Hsearch Hne.
  unfold searchAndFetchArticles, bind.
  destruct (searchKBArticles env URL_canParse server query
              (Some (JS.nullish maxArticles 5%Z)) t) as [o t1].
  simpl in Hsearch. subst o.
  destruct hits as [|a hits]; [contradiction|].
  pose proof (fetchEach_blocks (a :: hits) [] t1) as Hblocks.
  destruct (fetchEach env URL_canParse server (a :: hits) [] t1) as [o t2].
  simpl in Hblocks. subst o. reflexivity.
Qed.

(** X2. [getArticleTree] resolves for every answer of the knowledge
    base.  When the URL parses it sends one request, for [/articles]
    with [$top=100], whose query is scoped to the given project, else to
    the default project, else empty; it gives the empty list when that
    call fails.  The [depth] argument has no effect. *)
Theorem getArticleTree_request (projectShortName : option string)
  (depth : option JS.number) (t : Trace) :
  exists value t' sent,
    getArticleTree env URL_canParse server projectShortName depth t
    = (Resolved value, t')
    /\ requests t' = (requests t ++ sent)%list
    /\ (if URL_canParse (getBaseUrl env ++ "/articles")
        then exists r query,
               sent = [r]
               /\ req_url r = getBaseUrl env ++ "/articles"
               /\ param "$top" (req_params r) = Some "100"
               /\ param "query" (req_params r) = Some query
               /\ (forall p, projectShortName = Some p -> p <> "" ->
                   query = "project: " ++ p)
               /\ (projectShortName = None \/ projectShortName = Some "" ->
                   query = if JS.truthy (YOUTRACK_DEFAULT_PROJECT env)
                           then "project: " ++ YOUTRACK_DEFAULT_PROJECT env
                           else "")
               /\ (fails (articles server r) = true -> value = [])
        else sent = [] /\ value = [])
    /\ (forall depth',
          getArticleTree env URL_canParse server projectShortName depth' t
          = getArticleTree env URL_canParse server projectShortName depth t).
Proof.
  unfold getArticleTree, youtrackFetch.
  set (project := JS.opt_or_else projectShortName (YOUTRACK_DEFAULT_PROJECT env)).
  assert (Hgiven : forall p, projectShortName = Some p -> p <> "" ->
                             (if JS.truthy project then "project: " ++ project
                              else "") = "project: " ++ p).
  { intros p -> Hp. unfold project. simpl. unfold JS.or_else.
    destruct p; [contradiction | reflexivity]. }
  assert (Hdefault : projectShortName = None \/ projectShortName = Some "" ->
                     (if JS.truthy project then "project: " ++ project else "")
                     = if JS.truthy (YOUTRACK_DEFAULT_PROJECT env)
                       then "project: " ++ YOUTRACK_DEFAULT_PROJECT env
                       else "").
  { intros [->| ->]; reflexivity. }
  clearbody project.
  destruct (URL_canParse (getBaseUrl env ++ "/articles")) eqn:Eparse;
    AsyncFacts.run.
  2:{ settle (@nil Request). now repeat split. }
  match goal with |- context [articles server ?r] => set (req := r) end.
  assert (Hreq : forall value : list YouTrackArticle,
             (fails (articles server req) = true -> value = []) ->
             exists r query,
               [req] = [r]
               /\ req_url r = getBaseUrl env ++ "/articles"
               /\ param "$top" (req_params r) = Some "100"
               /\ param "query" (req_params r) = Some query
               /\ (forall p, projectShortName = Some p -> p <> "" ->
                   query = "project: " ++ p)
               /\ (projectShortName = None \/ projectShortName = Some "" ->
                   query = if JS.truthy (YOUTRACK_DEFAULT_PROJECT env)
                           then "project: " ++ YOUTRACK_DEFAULT_PROJECT env
                           else "")
               /\ (fails (articles server r) = true -> value = [])).
  { intros value Hfail.
    exists req, (if JS.truthy project then "project: " ++ project else "").
    now repeat split. }
  destruct (articles server req) as [e|resp] eqn:Ea; simpl.
  - settle [req]. split; [|reflexivity]. now apply Hreq.
  - destruct (ok resp) eqn:Eok; simpl.
    + destruct (json resp) as [e|data]; simpl.
      * settle [req]. split; [|reflexivity]. now apply Hreq.
      * settle [req]. split; [|reflexivity]. apply Hreq.
        simpl. rewrite Eok. discriminate.
    + settle [req]. split; [|reflexivity]. now apply Hreq.
Qed.

(** X3. [searchKBArticles] writes to the console only when it gives up:
    it logs at most one line, none when it returns articles; a non-2xx
    answer is logged with its status and body, and an unparsable URL as
    [Invalid URL]. *)
Theorem searchKBArticles_logging (query : string) (limit : option JS.number)
  (t : Trace) :
  exists value t' logged,
    searchKBArticles env URL_canParse server query limit t = (Resolved value, t')
    /\ consoleErrors t' = (consoleErrors t ++ logged)%list
    /\ length logged <= 1
    /\ (value <> [] -> logged = [])
    /\ (URL_canParse (getBaseUrl env ++ "/articles") = false ->
        logged = [ ("Error searching KB articles:", "Invalid URL") ])
    /\ (forall resp,
          URL_canParse (getBaseUrl env ++ "/articles") = true ->
          (forall r, articles server r = Responds resp) ->
          ok resp = false ->
          logged = [ ("Error searching KB articles:",
                      "YouTrack API error " ++ JS.String_of_number (status resp)
                      ++ ": " ++ text resp) ]).
Proof.
  unfold searchKBArticles, youtrackFetch.
  destruct (URL_canParse (getBaseUrl env ++ "/articles")) eqn:Eparse;
    AsyncFacts.run.
  2:{ eexists _, _, _. split; [reflexivity|].
      rewrite consoleErrors_push_log. split; [reflexivity|].
      repeat split; try (simpl; lia); try congruence; discriminate. }
  match goal with |- context [articles server ?r] => set (req := r) end.
  destruct (articles server req) as [e|resp] eqn:Ea; simpl.
  - eexists _, _, _. split; [reflexivity|].
    rewrite consoleErrors_push_log, consoleErrors_push_fetch.
    split; [reflexivity|]. split; [simpl; lia|]. split; [congruence|].
    split; [discriminate|]. intros resp _ Hall. now rewrite Hall in Ea.
  - destruct (ok resp) eqn:Eok; simpl.
    + destruct (json resp) as [e|data]; simpl.
      * eexists _, _, _. split; [reflexivity|].
        rewrite consoleErrors_push_log, consoleErrors_push_fetch.
        split; [reflexivity|]. split; [simpl; lia|]. split; [congruence|].
        split; [discriminate|]. intros resp' _ Hall Hbad.
        rewrite Hall in Ea. injection Ea as ->. congruence.
      * eexists _, _, []. split; [reflexivity|].
        rewrite consoleErrors_push_fetch, app_nil_r.
        split; [reflexivity|]. split; [simpl; lia|]. split; [reflexivity|].
        split; [discriminate|]. intros resp' _ Hall Hbad.
        rewrite Hall in Ea. injection Ea as ->. congruence.
    + eexists _, _, _. split; [reflexivity|].
      rewrite consoleErrors_push_log, consoleErrors_push_fetch.
      split; [reflexivity|]. split; [simpl; lia|]. split; [congruence|].
      split; [discriminate|]. intros resp' _ Hall _.
      rewrite Hall in Ea. now injection Ea as ->.
Qed.

End Adapter.

(** On [Scenario.kb_partial] the first of two hits cannot be fetched:
    the text is the block of the second alone. *)
Lemma searchAndFetchArticles_blocks_witness :
  fst (searchAndFetchArticles Scenario.env Scenario.canParse Scenario.kb_partial
         "commission" None [])
  = Resolved
      (JS.join (JS.nl ++ JS.nl ++ "---" ++ JS.nl ++ JS.nl)
         (flat_map (fetchedBlocks Scenario.env Scenario.canParse
                      Scenario.kb_partial)
            [ Scenario.hit "RV2-A-1" "Commissions";
              Scenario.hit "RV2-A-2" "Payouts" ])).
Proof.
  apply (searchAndFetchArticles_blocks Scenario.env Scenario.canParse
           Scenario.kb_partial "commission" None []).
  - reflexivity.
  - discriminate.
Defined.

Example partial_fetch_text :
  fst (searchAndFetchArticles Scenario.env Scenario.canParse Scenario.kb_partial
         "commission" None [])
  = Resolved ("## Payouts" ++ JS.nl ++ "**ID:** RV2-A-2").
Proof. reflexivity. Qed.

End KbExtras.

(** ** [src/support-site.ts] *)

Module SupportExtras.
Import Net SupportSite StringFacts.

(** Induction on a document tree, with the hypothesis for every child of
    an element. *)
Fixpoint Node_induction (P : Node -> Prop)
  (HText : forall data, P (Text data))
  (HComment : forall data, P (Comment data))
  (HElement : forall tag children, Forall P children -> P (Element tag children))
  (n : Node) {struct n} : P n :=
  match n with
  | Text data => HText data
  | Comment data => HComment data
  | Element tag children =>
      HElement tag children
        ((fix each (l : list Node) : Forall P l :=
            match l with
            | [] => Forall_nil P
            | x :: rest =>
                Forall_cons x (Node_induction P HText HComment HElement x)
                  (each rest)
            end) children)
  end.

(** *** Emitted lines *)

Lemma allWhiteSpace_append (a b : string) :
  JS.allWhiteSpace (a ++ b) = JS.allWhiteSpace a && JS.allWhiteSpace b.
Proof.
  induction a as [|c a IH]; [reflexivity|].
  cbn [append JS.allWhiteSpace]. now rewrite IH, andb_assoc.
Qed.

Lemma allWhiteSpace_newlines (k : nat) : JS.allWhiteSpace (newlines k) = true.
Proof. induction k as [|k IH]; [reflexivity | exact IH]. Qed.

Lemma allWhiteSpace_flushRun (pending : nat) :
  JS.allWhiteSpace (flushRun pending) = true.
Proof.
  unfold flushRun. destruct (3 <=? pending)%nat; apply allWhiteSpace_newlines.
Qed.

Lemma allWhiteSpace_cons (c : ascii) (s : string) :
  JS.allWhiteSpace (String c s) = JS.isWhiteSpace c && JS.allWhiteSpace s.
Proof. reflexivity. Qed.

(** The replacement of newline runs keeps every other character. *)
Lemma allWhiteSpace_collapseFrom (s : string) :
  forall pending,
    JS.allWhiteSpace (collapseFrom pending s) = JS.allWhiteSpace s.
Proof.
  induction s as [|c s IH]; intros pending.
  - apply allWhiteSpace_flushRun.
  - rewrite SupportProperties.collapseFrom_cons, allWhiteSpace_cons.
    destruct (Ascii.eqb c JS.newline) eqn:Ec.
    + apply Ascii.eqb_eq in Ec. subst c. now rewrite IH.
    + now rewrite allWhiteSpace_append, allWhiteSpace_flushRun,
        allWhiteSpace_cons, IH.
Qed.

Lemma trim_of_text (s : string) :
  JS.allWhiteSpace s = false -> JS.trim s <> "".
Proof.
  intros Hs Hempty.
  destruct (SupportProperties.trim_spec s) as [(lead & trail & Hl & Ht & Heq) _].
  rewrite Hempty in Heq. cbn [append] in Heq.
  rewrite Heq, allWhiteSpace_append, Hl, Ht in Hs. discriminate.
Qed.

Lemma trimmed_text_nonblank (s : string) :
  JS.truthy (JS.trim s) = true -> JS.allWhiteSpace (JS.trim s) = false.
Proof.
  destruct (SupportProperties.trim_spec s) as [_ [Hhead _]].
  destruct (JS.trim s) as [|c r]; [discriminate|].
  intros _. cbn [JS.startsWithWhiteSpace] in Hhead.
  now rewrite allWhiteSpace_cons, Hhead.
Qed.

Lemma ownText_is_trimmed (n : Node) : exists raw, ownText n = JS.trim raw.
Proof. destruct n; now eexists. Qed.

Lemma visit_nonblank (lines : list string) (node : Node) :
  forallb nonblank lines = true -> forallb nonblank (visit lines node) = true.
Proof.
  intros Hlines. unfold visit.
  destruct (ownText_is_trimmed node) as [raw ->].
  destruct (JS.truthy (JS.trim raw)) eqn:Etext; [|exact Hlines].
  pose proof (trimmed_text_nonblank raw Etext) as Htext.
  cbn [negb]. unfold JS.push.
  repeat match goal with
         | |- context [if ?b then _ else _] => destruct b
         end;
    rewrite forallb_app, Hlines; cbn [forallb andb]; unfold nonblank;
    try (now rewrite Htext); reflexivity.
Qed.

Lemma fold_visit_nonblank (nodes : list Node) (lines : list string) :
  forallb nonblank lines = true ->
  forallb nonblank (fold_left visit nodes lines) = true.
Proof.
  revert lines. induction nodes as [|n nodes IH]; intros lines H; [exact H|].
  simpl. apply IH. now apply visit_nonblank.
Qed.

Lemma fold_dedupe_extends (lines result : list string) :
  exists rest, fold_left dedupeStep lines result = (result ++ rest)%list.
Proof.
  revert result. induction lines as [|line lines IH]; intros result.
  - exists []. now rewrite app_nil_r.
  - simpl. destruct (IH (dedupeStep result line)) as [rest ->].
    unfold dedupeStep, JS.push.
    destruct (_ || _); [|now exists rest].
    exists (line :: rest). now rewrite <- app_assoc.
Qed.

Lemma join_head_nonblank (x : string) (rest : list string) :
  JS.allWhiteSpace x = false ->
  JS.allWhiteSpace (JS.join JS.nl (x :: rest)) = false.
Proof.
  intros Hx. unfold JS.join. cbn [String.concat].
  destruct rest; [exact Hx|]. now rewrite allWhiteSpace_append, Hx.
Qed.

(** X5. Every line the normalizer emits holds a character that is not
    white space, so a node with blank text adds nothing; and the result
    is the empty string exactly when no line was emitted, whatever text
    the document holds outside headings, paragraphs, list items, table
    rows and blockquotes. *)
Theorem emitted_lines_nonblank (document : list Node) :
  forallb nonblank (emittedLines document) = true
  /\ (markdownOfDocument document = "" <-> emittedLines document = []).
Proof.
  assert (Hlines : forallb nonblank (emittedLines document) = true)
    by (apply fold_visit_nonblank; reflexivity).
  split; [exact Hlines|].
  unfold markdownOfDocument.
  destruct (emittedLines document) as [|x lines]; [now split|].
  split; [|discriminate].
  intros Hempty. exfalso.
  cbn [forallb] in Hlines. apply andb_true_iff in Hlines.
  destruct Hlines as [Hx _]. unfold nonblank in Hx.
  apply negb_true_iff in Hx.
  unfold dedupe in Hempty. cbn [fold_left] in Hempty.
  destruct (fold_dedupe_extends lines (dedupeStep [] x)) as [rest Hrest].
  rewrite Hrest in Hempty. change (dedupeStep [] x) with [x] in Hempty.
  cbn [app] in Hempty.
  revert Hempty. apply trim_of_text.
  unfold collapseNewlines. rewrite allWhiteSpace_collapseFrom.
  now apply join_head_nonblank.
Qed.

(** *** Scripts and styles *)

Lemma existsb_flat_map_false {A B : Type} (f : A -> list B) (p : B -> bool)
  (l : list A) :
  Forall (fun x => existsb p (f x) = false) l ->
  existsb p (flat_map f l) = false.
Proof.
  induction 1 as [|x l Hx _ IH]; [reflexivity|].
  cbn [flat_map]. now rewrite existsb_app, Hx, IH.
Qed.

Lemma removeScriptStyle_clean (n : Node) :
  existsb hasScriptStyle (removeScriptStyle n) = false.
Proof.
  induction n as [data|data|tag children IH] using Node_induction;
    [reflexivity | reflexivity |].
  cbn [removeScriptStyle].
  destruct (isOneOf ["script"; "style"] tag) eqn:Etag; [reflexivity|].
  cbn [existsb hasScriptStyle]. rewrite Etag.
  now rewrite (existsb_flat_map_false _ _ _ IH).
Qed.

Lemma flat_map_singleton {A : Type} (f : A -> list A) (l : list A) :
  Forall (fun x => f x = [x]) l -> flat_map f l = l.
Proof.
  induction 1 as [|x l Hx _ IH]; [reflexivity|].
  cbn [flat_map]. now rewrite Hx, IH.
Qed.

Lemma removeScriptStyle_keeps (n : Node) :
  hasScriptStyle n = false -> removeScriptStyle n = [n].
Proof.
  induction n as [data|data|tag children IH] using Node_induction;
    [reflexivity | reflexivity |].
  cbn [hasScriptStyle removeScriptStyle]. intros H.
  apply orb_false_iff in H. destruct H as [Htag Hchildren].
  rewrite Htag. f_equal. f_equal.
  apply flat_map_singleton.
  rewrite Forall_forall in *. intros c Hc. apply IH; [exact Hc|].
  destruct (hasScriptStyle c) eqn:E; [|reflexivity].
  rewrite <- Hchildren. symmetry. apply existsb_exists. now exists c.
Qed.

Lemma removal_keeps_clean (document : list Node) :
  existsb hasScriptStyle document = false ->
  flat_map removeScriptStyle document = document.
Proof.
  intros H. apply flat_map_singleton. rewrite Forall_forall. intros n Hn.
  apply removeScriptStyle_keeps.
  destruct (hasScriptStyle n) eqn:E; [|reflexivity].
  rewrite <- H. symmetry. apply existsb_exists. now exists n.
Qed.

(** X6. The removal of [script] and [style] elements reaches every depth
    of the document: none is left in what the normalizer reads, a
    document without any is left as it is, and removing them beforehand
    does not change the emitted lines. *)
Theorem scripts_and_styles_removed (document : list Node) :
  existsb hasScriptStyle (flat_map removeScriptStyle document) = false
  /\ (existsb hasScriptStyle document = false ->
      flat_map removeScriptStyle document = document)
  /\ emittedLines (flat_map removeScriptStyle document)
     = emittedLines document.
Proof.
  assert (Hclean : existsb hasScriptStyle (flat_map removeScriptStyle document)
                   = false).
  { apply existsb_flat_map_false. rewrite Forall_forall. intros n _.
    apply removeScriptStyle_clean. }
  split; [exact Hclean|]. split; [apply removal_keeps_clean|].
  unfold emittedLines. now rewrite (removal_keeps_clean _ Hclean).
Qed.

(** *** The operations *)

(** X7. [searchAndFetchSupportArticles] never sends more than one
    request.  On a query that [encodeURIComponent] accepts it sends
    exactly one, the search itself, however many articles come back: it
    never fetches an article a second time; when the search answers,
    the text is the blocks of the hits in the order of the answer,
    joined by the separator, or the fixed sentence when there is none.
    On a query on which [encodeURIComponent] throws it sends none and
    rejects. *)
Theorem searchAndFetchSupportArticles_single_request
  (encodeURIComponent : string -> option string)
  (cheerio_load : string -> list Node)
  (server : Server) (query : string) (maxArticles : option JS.number)
  (t : Trace) :
  (forall encodedQuery,
      encodeURIComponent query = Some encodedQuery ->
      exists r text t',
        searchAndFetchSupportArticles encodeURIComponent cheerio_load server
          query maxArticles t
        = (Resolved text, t')
        /\ requests t' = (requests t ++ [r])%list
        /\ JS.startsWith (req_url r)
             (ZENDESK_API_BASE ++ "/articles/search.json?query=") = true
        /\ (forall resp data,
              search server r = Responds resp ->
              ok resp = true ->
              json resp = inr data ->
              text
              = match results data with
                | None | Some [] => "No support articles found for this query."
                | Some hits =>
                    JS.join (JS.nl ++ JS.nl ++ "---" ++ JS.nl ++ JS.nl)
                      (map (formatArticle cheerio_load) hits)
                end))
  /\ (encodeURIComponent query = None ->
      searchAndFetchSupportArticles encodeURIComponent cheerio_load server
        query maxArticles t
      = (Rejected "URI malformed", t)).
Proof.
  split.
  2:{ intros Hquery.
      unfold searchAndFetchSupportArticles, encoded, bind, throw.
      now rewrite Hquery. }
  intros encodedQuery Hquery.
  unfold searchAndFetchSupportArticles, encoded. rewrite Hquery.
  AsyncFacts.run.
  match goal with |- context [search server ?r] => exists r; set (req := r) end.
  assert (Hurl : JS.startsWith (req_url req)
                   (ZENDESK_API_BASE ++ "/articles/search.json?query=") = true).
  { exact (KbExtras.startsWith_own_prefix
             (ZENDESK_API_BASE ++ "/articles/search.json?query=")
             (encodedQuery ++ "&per_page="
              ++ JS.String_of_number (JS.nullish maxArticles 3%Z))). }
  destruct (search server req) as [e|resp] eqn:Ea; simpl.
  - eexists _, _. split; [reflexivity|].
    rewrite AsyncFacts.requests_push_log, AsyncFacts.requests_push_fetch.
    split; [reflexivity|]. split; [exact Hurl | discriminate].
  - destruct (ok resp) eqn:Eok; simpl.
    + destruct (json resp) as [e|data] eqn:Ej; simpl.
      * eexists _, _. split; [reflexivity|].
        rewrite AsyncFacts.requests_push_log, AsyncFacts.requests_push_fetch.
        split; [reflexivity|]. split; [exact Hurl|].
        intros resp' data' [= <-]. congruence.
      * destruct (results data) as [[|a hits]|] eqn:Er; simpl;
          (eexists _, _; split; [reflexivity|]);
          rewrite AsyncFacts.requests_push_fetch;
          (split; [reflexivity|]); (split; [exact Hurl|]);
          intros resp' data' [= <-] _ Hj; rewrite Ej in Hj;
          injection Hj as <-; now rewrite Er.
    + eexists _, _. split; [reflexivity|].
      rewrite AsyncFacts.requests_push_log, AsyncFacts.requests_push_fetch.
      split; [reflexivity|]. split; [exact Hurl|].
      intros resp' data' [= <-]. congruence.
Qed.

(** X8. For a URL in which the pattern finds an identifier,
    [getSupportArticle] sends exactly one request, for
    [.../articles/{id}.json]; it never rejects: a transport error and a
    non-2xx status come back as a text that starts with
    [Error fetching article: ], and an article as its block. *)
Theorem getSupportArticle_with_id (cheerio_load : string -> list Node)
  (server : Server) (url articleId : string) (t : Trace) :
  matchArticleId url = Some articleId ->
  exists r text t',
    getSupportArticle cheerio_load server url t = (Resolved text, t')
    /\ requests t' = (requests t ++ [r])%list
    /\ req_url r = ZENDESK_API_BASE ++ "/articles/" ++ articleId ++ ".json"
    /\ (forall message,
          articleById server r = Unreachable message ->
          text = "Error fetching article: " ++ message)
    /\ (forall resp,
          articleById server r = Responds resp ->
          ok resp = false ->
          text = "Error fetching article: Zendesk API returned "
                 ++ JS.String_of_number (status resp))
    /\ (forall resp a,
          articleById server r = Responds resp ->
          ok resp = true ->
          json resp = inr {| article := Some a |} ->
          text = formatArticle cheerio_load a).
Proof.
  intros Hid. unfold getSupportArticle. rewrite Hid. AsyncFacts.run.
  match goal with
  | |- context [articleById server ?r] => exists r; set (req := r)
  end.
  destruct (articleById server req) as [e|resp] eqn:Ea; simpl.
  - eexists _, _. split; [reflexivity|].
    rewrite AsyncFacts.requests_push_log, AsyncFacts.requests_push_fetch.
    repeat split; try discriminate. now intros message [= <-].
  - destruct (ok resp) eqn:Eok; simpl.
    + destruct (json resp) as [e|data] eqn:Ej; simpl.
      * eexists _, _. split; [reflexivity|].
        rewrite AsyncFacts.requests_push_log, AsyncFacts.requests_push_fetch.
        repeat split; try discriminate.
        -- intros resp' [= <-]. congruence.
        -- intros resp' a [= <-] _ Hj. congruence.
      * destruct (article data) as [a|] eqn:Eart; simpl.
        -- eexists _, _. split; [reflexivity|].
           rewrite AsyncFacts.requests_push_fetch.
           repeat split; try discriminate.
           ++ intros resp' [= <-]. congruence.
           ++ intros resp' a' [= <-] _ Hj. rewrite Ej in Hj.
              injection Hj as ->. simpl in Eart. now injection Eart as ->.
        -- eexists _, _. split; [reflexivity|].
           rewrite AsyncFacts.requests_push_log, AsyncFacts.requests_push_fetch.
           repeat split; try discriminate.
           ++ intros resp' [= <-]. congruence.
           ++ intros resp' a' [= <-] _ Hj. rewrite Ej in Hj.
              injection Hj as ->. discriminate.
    + eexists _, _. split; [reflexivity|].
      rewrite AsyncFacts.requests_push_log, AsyncFacts.requests_push_fetch.
      repeat split; try discriminate.
      * now intros resp' [= <-] _.
      * intros resp' a [= <-]. congruence.
Qed.

(** With the help center down, the article of a well-formed URL comes
    back as the error text. *)
Lemma getSupportArticle_with_id_witness :
  exists r text t',
    getSupportArticle Scenario.load Scenario.zendesk_down
      "https://support.therealbrokerage.com/hc/en-us/articles/42-caps" []
    = (Resolved text, t')
    /\ requests t' = (requests [] ++ [r])%list
    /\ req_url r = ZENDESK_API_BASE ++ "/articles/" ++ "42" ++ ".json"
    /\ (forall message,
          articleById Scenario.zendesk_down r = Unreachable message ->
          text = "Error fetching article: " ++ message)
    /\ (forall resp,
          articleById Scenario.zendesk_down r = Responds resp ->
          ok resp = false ->
          text = "Error fetching article: Zendesk API returned "
                 ++ JS.String_of_number (status resp))
    /\ (forall resp a,
          articleById Scenario.zendesk_down r = Responds resp ->
          ok resp = true ->
          json resp = inr {| article := Some a |} ->
          text = formatArticle Scenario.load a).
Proof.
  apply (getSupportArticle_with_id Scenario.load Scenario.zendesk_down
           "https://support.therealbrokerage.com/hc/en-us/articles/42-caps"
           "42" []).
  reflexivity.
Defined.

Example article_of_down_site :
  fst (getSupportArticle Scenario.load Scenario.zendesk_down
         "https://support.therealbrokerage.com/hc/en-us/articles/42-caps" [])
  = Resolved "Error fetching article: Zendesk API returned 503".
Proof. reflexivity. Qed.

(** *** From an article URL back to its identifier *)

Lemma takeDigits_of_id (digits slug : string) :
  allDigits digits = true -> startsWithDigit slug = false ->
  takeDigits (digits ++ slug) = digits.
Proof.
  intros Hd Hs. induction digits as [|d digits IH].
  - destruct slug as [|c slug]; [reflexivity|].
    cbn [append takeDigits]. cbn [startsWithDigit] in Hs. now rewrite Hs.
  - cbn [allDigits] in Hd. apply andb_true_iff in Hd. destruct Hd as [Hd Hds].
    cbn [append takeDigits]. now rewrite Hd, (IH Hds).
Qed.

Lemma matchHere_of_id (digits slug : string) :
  digits <> "" -> allDigits digits = true -> startsWithDigit slug = false ->
  matchHere ("/articles/" ++ digits ++ slug) = Some digits.
Proof.
  intros Hne Hd Hs. unfold matchHere.
  rewrite SupportProperties.stripPrefix_complete, (takeDigits_of_id _ _ Hd Hs).
  destruct digits; [contradiction | reflexivity].
Qed.

(** A match cannot begin before the identifier part and end inside it:
    what follows [/articles] there is a slash and a letter. *)
Lemma no_match_across (before digits slug : string) :
  matchHere before = None ->
  matchHere (before ++ "/articles/" ++ digits ++ slug) <> None ->
  before = "".
Proof.
  intros Hbefore Hmatch.
  destruct (matchHere (before ++ "/articles/" ++ digits ++ slug)) as [found|] eqn:E;
    [clear Hmatch | contradiction].
  destruct (SupportProperties.matchHere_sound _ _ E) as (d & post & Hd & Heq).
  clear E.
  cbn [append] in Heq.
  repeat (destruct before as [|? before];
          [ try reflexivity;
            cbn [append] in Heq;
            try discriminate;
            try (injection Heq as ? ?; subst; discriminate)
          | cbn [append] in Heq; injection Heq as ? Heq; subst ]).
  exfalso. unfold matchHere in Hbefore. simpl in Hbefore.
  rewrite Hd in Hbefore. discriminate.
Qed.

(** X9. The identifier put into an article URL is the one read back
    from it: for a prefix in which the pattern finds nothing, a
    non-empty run of digits and a rest that does not start with a
    digit, [matchArticleId] of [prefix/articles/digits rest] is exactly
    the run of digits. *)
Theorem matchArticleId_roundtrip (base digits slug : string) :
  matchArticleId base = None ->
  digits <> "" ->
  allDigits digits = true ->
  startsWithDigit slug = false ->
  matchArticleId (base ++ "/articles/" ++ digits ++ slug) = Some digits.
Proof.
  intros Hbase Hne Hd Hs.
  induction base as [|c base IH].
  - change ("" ++ "/articles/" ++ digits ++ slug)
      with ("/articles/" ++ digits ++ slug).
    rewrite SupportProperties.matchArticleId_equation.
    now rewrite (matchHere_of_id digits slug Hne Hd Hs).
  - rewrite SupportProperties.matchArticleId_equation in Hbase.
    destruct (matchHere (String c base)) eqn:Ehere; [discriminate|].
    rewrite SupportProperties.matchArticleId_equation.
    destruct (matchHere (String c base ++ "/articles/" ++ digits ++ slug))
      eqn:Eacross.
    + assert (Hfalse : String c base = "").
      { apply (no_match_across _ digits slug Ehere). now rewrite Eacross. }
      discriminate.
    + exact (IH Hbase).
Qed.

(** The URL of a help-center article. *)
Lemma matchArticleId_roundtrip_witness :
  matchArticleId
    ("https://support.therealbrokerage.com/hc/en-us" ++ "/articles/"
     ++ "13856836152087" ++ "-Understanding-caps")
  = Some "13856836152087".
Proof.
  apply (matchArticleId_roundtrip
           "https://support.therealbrokerage.com/hc/en-us"
           "13856836152087" "-Understanding-caps").
  - reflexivity.
  - discriminate.
  - reflexivity.
  - reflexivity.
Defined.

End SupportExtras.

(** ** [src/github-search.ts] *)

Module GithubExtras.
Import Net GithubSearch StringFacts.

Lemma substring_length (n : nat) :
  forall s, String.length (String.substring 0 n s) = Nat.min n (String.length s).
Proof.
  induction n as [|n IH]; intros s.
  - now destruct s.
  - destruct s as [|c s]; [reflexivity|].
    cbn [String.substring String.length]. now rewrite IH.
Qed.

Lemma substring_prefix (n : nat) :
  forall s, exists rest, s = String.substring 0 n s ++ rest.
Proof.
  induction n as [|n IH]; intros s.
  - exists s. now destruct s.
  - destruct s as [|c s]; [now exists ""|].
    destruct (IH s) as [rest Hrest]. exists rest.
    cbn [String.substring append]. now rewrite <- Hrest.
Qed.

(** What [codeMatchOf] keeps of the fragments of an item: one entry per
    fragment, in order, each the first 300 characters of its fragment. *)
Lemma codeMatchOf_fragments (item : CodeItem) :
  Forall2
    (fun tm kept =>
       (exists rest, JS.opt_or_else (fragment tm) "" = kept ++ rest)
       /\ String.length kept
          = Nat.min 300 (String.length (JS.opt_or_else (fragment tm) "")))
    (JS.or_empty (item_text_matches item))
    (textMatches (codeMatchOf item)).
Proof.
  unfold codeMatchOf. cbn [textMatches].
  induction (JS.or_empty (item_text_matches item)) as [|tm l IH];
    [constructor|].
  cbn [map]. constructor; [|exact IH].
  split; [apply substring_prefix | apply substring_length].
Qed.

Lemma codeMatchOf_bounded (item : CodeItem) :
  Forall (fun kept => String.length kept <= 300) (textMatches (codeMatchOf item)).
Proof.
  unfold codeMatchOf. cbn [textMatches].
  apply Forall_map, Forall_forall. intros tm _.
  rewrite substring_length. apply Nat.le_min_l.
Qed.

(** X10. [searchGitHubCode] resolves for every answer of the code host,
    and no matched fragment it returns is longer than 300 characters:
    each is the first 300 characters of the fragment received, whole
    when that one is shorter, and none is dropped. *)
Theorem searchGitHubCode_fragments (env : Env) (server : Server)
  (query : string) (org : option string) (limit : option JS.number)
  (t : Trace) :
  exists results t',
    searchGitHubCode env server query org limit t = (Resolved results, t')
    /\ Forall (fun m => Forall (fun kept => String.length kept <= 300)
                          (textMatches m))
         results
    /\ (forall resp data,
          (forall r, searchCode server r = Responds resp) ->
          ok resp = true -> json resp = inr data ->
          results = map codeMatchOf (JS.or_empty (items data)))
    /\ (forall item,
          Forall2
            (fun tm kept =>
               (exists rest, JS.opt_or_else (fragment tm) "" = kept ++ rest)
               /\ String.length kept
                  = Nat.min 300
                      (String.length (JS.opt_or_else (fragment tm) "")))
            (JS.or_empty (item_text_matches item))
            (textMatches (codeMatchOf item))).
Proof.
  unfold searchGitHubCode, githubFetch. AsyncFacts.run.
  match goal with |- context [searchCode server ?r] => set (req := r) end.
  destruct (searchCode server req) as [e|resp] eqn:Ea; simpl.
  - eexists _, _. split; [reflexivity|]. split; [constructor|].
    split; [|apply codeMatchOf_fragments].
    intros resp data Hall. now rewrite Hall in Ea.
  - destruct (ok resp) eqn:Eok; simpl.
    + destruct (json resp) as [e|data] eqn:Ej; simpl.
      * eexists _, _. split; [reflexivity|]. split; [constructor|].
        split; [|apply codeMatchOf_fragments].
        intros resp' data Hall _ Hj. rewrite Hall in Ea.
        injection Ea as ->. congruence.
      * eexists _, _. split; [reflexivity|].
        split.
        { apply Forall_map, Forall_forall. intros item _.
          apply codeMatchOf_bounded. }
        split; [|apply codeMatchOf_fragments].
        intros resp' data' Hall _ Hj. rewrite Hall in Ea.
        injection Ea as ->. rewrite Ej in Hj. now injection Hj as ->.
    + eexists _, _. split; [reflexivity|]. split; [constructor|].
      split; [|apply codeMatchOf_fragments].
      intros resp' data Hall Hok. rewrite Hall in Ea.
      injection Ea as ->. congruence.
Qed.

(** X11. Both searches are always scoped to an organization: the
    qualifier [org:] is appended for every input, with the organization
    given, or else the configured one, or else [Realtyka]; the branch
    that sends the bare query is never taken. *)
Theorem searches_are_scoped (env : Env) (server : Server) (query : string)
  (org : option string) (limit : option JS.number) (t : Trace) :
  exists target,
    target <> ""
    /\ scopedQuery env query org = query ++ " org:" ++ target
    /\ (forall o, org = Some o -> o <> "" -> target = o)
    /\ (org = None \/ org = Some "" -> target = GITHUB_ORG env)
    /\ (env "GITHUB_ORG" = None \/ env "GITHUB_ORG" = Some "" ->
        GITHUB_ORG env = "Realtyka")
    /\ (exists r,
          requests (snd (searchGitHubCode env server query org limit t))
          = (requests t ++ [r])%list
          /\ param "q" (req_params r) = Some (query ++ " org:" ++ target))
    /\ (exists r,
          requests (snd (searchGitHubRepos env server query org limit t))
          = (requests t ++ [r])%list
          /\ param "q" (req_params r) = Some (query ++ " org:" ++ target)).
Proof.
  assert (Horg : GITHUB_ORG env <> "").
  { unfold GITHUB_ORG, JS.opt_or_else, JS.or_else.
    destruct (env "GITHUB_ORG") as [[|c s]|]; discriminate. }
  set (target := JS.opt_or_else org (GITHUB_ORG env)).
  assert (Htarget : target <> "").
  { unfold target, JS.opt_or_else, JS.or_else.
    destruct org as [[|c s]|]; try exact Horg. discriminate. }
  assert (Hscoped : scopedQuery env query org = query ++ " org:" ++ target).
  { unfold scopedQuery. fold target. destruct target; [contradiction|reflexivity]. }
  exists target.
  split; [exact Htarget|]. split; [exact Hscoped|].
  split.
  { intros o -> Ho. unfold target. simpl. unfold JS.or_else.
    destruct o; [contradiction | reflexivity]. }
  split; [intros [->| ->]; reflexivity|].
  split.
  { unfold GITHUB_ORG. intros [->| ->]; reflexivity. }
  rewrite <- Hscoped. clear.
  split.
  - unfold searchGitHubCode, githubFetch. AsyncFacts.run.
    match goal with |- context [searchCode server ?r] => exists r; set (req := r) end.
    split; [|reflexivity].
    destruct (searchCode server req) as [e|resp]; simpl;
      [now rewrite AsyncFacts.requests_push_log, AsyncFacts.requests_push_fetch|].
    destruct (ok resp); simpl;
      [|now rewrite AsyncFacts.requests_push_log, AsyncFacts.requests_push_fetch].
    destruct (json resp); simpl;
      now rewrite ?AsyncFacts.requests_push_log, AsyncFacts.requests_push_fetch.
  - unfold searchGitHubRepos, githubFetch. AsyncFacts.run.
    match goal with
    | |- context [searchRepositories server ?r] => exists r; set (req := r)
    end.
    split; [|reflexivity].
    destruct (searchRepositories server req) as [e|resp]; simpl;
      [now rewrite AsyncFacts.requests_push_log, AsyncFacts.requests_push_fetch|].
    destruct (ok resp); simpl;
      [|now rewrite AsyncFacts.requests_push_log, AsyncFacts.requests_push_fetch].
    destruct (json resp); simpl;
      now rewrite ?AsyncFacts.requests_push_log, AsyncFacts.requests_push_fetch.
Qed.

End GithubExtras.

(** ** The tool registry *)

Module ToolsExtras.
Import Net Tools StringFacts.

Lemma join_append (sep : string) (l1 l2 : list string) :
  l1 <> [] -> l2 <> [] ->
  JS.join sep (l1 ++ l2)%list = JS.join sep l1 ++ sep ++ JS.join sep l2.
Proof.
  intros H1 H2. unfold JS.join.
  induction l1 as [|x l1 IH]; [contradiction|].
  destruct l1 as [|y l1].
  - cbn [app String.concat]. destruct l2; [contradiction | reflexivity].
  - change ((x :: y :: l1) ++ l2)%list with (x :: ((y :: l1) ++ l2))%list.
    change (String.concat sep (x :: (y :: l1) ++ l2)%list)
      with (x ++ sep ++ String.concat sep ((y :: l1) ++ l2)%list).
    rewrite IH by discriminate.
    change (String.concat sep (x :: y :: l1))
      with (x ++ sep ++ String.concat sep (y :: l1)).
    now rewrite !append_assoc.
Qed.

Lemma newlinesToSpaces_length (s : string) :
  String.length (newlinesToSpaces s) = String.length s.
Proof. induction s as [|c s IH]; [reflexivity | simpl; now rewrite IH]. Qed.

Lemma newlinesToSpaces_one_line (s : string) :
  JS.includes (newlinesToSpaces s) JS.nl = false.
Proof.
  induction s as [|c s IH]; [reflexivity|].
  cbn [newlinesToSpaces]. rewrite SupportProperties.includes_cons, IH.
  unfold JS.nl. rewrite SupportProperties.startsWith_cons.
  destruct (Ascii.eqb c JS.newline) eqn:Ec; [reflexivity|].
  now rewrite (Ascii.eqb_sym JS.newline c), Ec.
Qed.

(** X17. The preview that [search_kb_articles] shows of an article with
    content is the last line of its entry: the first 200 characters of
    the content (all of it when shorter) with every newline turned into
    a space, followed by three dots; it never holds a line break. *)
Theorem kb_preview_is_one_line (a : YoutrackKb.YouTrackArticle) (body : string) :
  YoutrackKb.content a = Some body ->
  body <> "" ->
  exists head preview,
    kbSummaryLine a = head ++ JS.nl ++ "  " ++ preview ++ "..."
    /\ preview = newlinesToSpaces (String.substring 0 200 body)
    /\ String.length preview = Nat.min 200 (String.length body)
    /\ JS.includes preview JS.nl = false.
Proof.
  intros Hcontent Hbody. unfold kbSummaryLine. rewrite Hcontent.
  destruct body as [|c body]; [contradiction|]. cbn [JS.truthy].
  unfold JS.push at 1.
  eexists _, _. rewrite join_append; [|now destruct (YoutrackKb.project a),
                                          (YoutrackKb.parentArticle a)
                                      |discriminate].
  split; [reflexivity|]. split; [reflexivity|].
  split; [|apply newlinesToSpaces_one_line].
  now rewrite newlinesToSpaces_length, GithubExtras.substring_length.
Qed.

(** The entry of [Scenario.noted]. *)
Lemma kb_preview_is_one_line_witness :
  exists head preview,
    kbSummaryLine Scenario.noted = head ++ JS.nl ++ "  " ++ preview ++ "..."
    /\ preview
       = newlinesToSpaces
           (String.substring 0 200 ("First line" ++ JS.nl ++ "second line"))
    /\ String.length preview
       = Nat.min 200 (String.length ("First line" ++ JS.nl ++ "second line"))
    /\ JS.includes preview JS.nl = false.
Proof.
  apply (kb_preview_is_one_line Scenario.noted
           ("First line" ++ JS.nl ++ "second line")).
  - reflexivity.
  - discriminate.
Defined.

Example noted_entry :
  kbSummaryLine Scenario.noted
  = "**Caps** (RV2-A-7)" ++ JS.nl ++ "  First line second line...".
Proof. reflexivity. Qed.

Section Registry.

Variable env : Env.
Variable URL_canParse : string -> bool.
Variable encodeURIComponent : string -> option string.
Variable cheerio_load : string -> list SupportSite.Node.
Variable upstream : Upstream.
Variable getGitHubFile :
  string -> string -> option string -> Async (option GitHubFile).

(** X12. Without an access token the code host is never contacted:
    the three code-host tools answer with the fixed sentence and leave
    the trace as it was, the file reader is not even called, and the
    aggregator, whatever its inclusion flag, makes the requests of the
    knowledge-base and support adapters and no other.  The token counts
    as absent when [GITHUB_TOKEN] is unset or empty. *)
Theorem code_host_untouched_without_token :
  GithubSearch.isGitHubConfigured env = false ->
  (env "GITHUB_TOKEN" = None \/ env "GITHUB_TOKEN" = Some "")
  /\ (forall query org limit t,
        search_github_code env upstream query org limit t
        = (Resolved
             "GitHub search is not configured. Set GITHUB_TOKEN environment variable to enable this tool.",
           t))
  /\ (forall query org limit t,
        search_github_repos env upstream query org limit t
        = (Resolved
             "GitHub search is not configured. Set GITHUB_TOKEN environment variable to enable this tool.",
           t))
  /\ (forall repo path ref t,
        get_github_file env getGitHubFile repo path ref t
        = (Resolved
             "GitHub search is not configured. Set GITHUB_TOKEN environment variable to enable this tool.",
           t))
  /\ (forall question max_kb_articles max_support_articles include_github t,
        snd (ask_product_question env URL_canParse encodeURIComponent
               cheerio_load upstream question max_kb_articles
               max_support_articles include_github t)
        = snd (SupportSite.searchAndFetchSupportArticles encodeURIComponent
                 cheerio_load (zendesk upstream) question
                 (Some (JS.nullish max_support_articles 3%Z))
                 (snd (YoutrackKb.searchAndFetchArticles env URL_canParse
                         (youtrack upstream) question
                         (Some (JS.nullish max_kb_articles 5%Z)) t)))).
Proof.
  intros Hoff.
  split.
  { revert Hoff. unfold GithubSearch.isGitHubConfigured, GithubSearch.GITHUB_TOKEN.
    destruct (env "GITHUB_TOKEN") as [[|c s]|]; simpl; auto. discriminate. }
  split; [intros; unfold search_github_code; now rewrite Hoff|].
  split; [intros; unfold search_github_repos; now rewrite Hoff|].
  split; [intros; unfold get_github_file; now rewrite Hoff|].
  intros question max_kb max_support include t.
  unfold ask_product_question. rewrite Hoff, andb_false_r.
  unfold bind. cbn [Promise_all]. unfold Promise_all2, ret.
  destruct (YoutrackKb.searchAndFetchArticles env URL_canParse
              (youtrack upstream) question (Some (JS.nullish max_kb 5%Z)) t)
    as [[kb|e1] t1];
    cbn [snd];
    destruct (SupportSite.searchAndFetchSupportArticles encodeURIComponent
                cheerio_load (zendesk upstream) question
                (Some (JS.nullish max_support 3%Z)) t1)
      as [[support|e2] t2];
    reflexivity.
Qed.

(** X13. [get_github_file] shows at most 50000 characters of a file:
    a longer content is cut to its first 50000 characters and a note
    with the cut and the size follows the block; a content of at most
    50000 characters is shown whole, with no note. *)
Theorem get_github_file_truncation (repo path : string) (ref : option string)
  (t : Trace) (file : GitHubFile) (t' : Trace) :
  GithubSearch.isGitHubConfigured env = true ->
  getGitHubFile repo path ref t = (Resolved (Some file), t') ->
  exists shown note,
    get_github_file env getGitHubFile repo path ref t
    = (Resolved
         (JS.join JS.nl
            [ "**" ++ repo ++ "** / `" ++ path ++ "`";
              "**Size:** " ++ JS.String_of_number (file_size file) ++ " bytes";
              "**URL:** " ++ file_htmlUrl file;
              "" ]
          ++ "```" ++ JS.nl ++ shown ++ JS.nl ++ "```" ++ note),
       t')
    /\ (Z.of_nat (String.length shown)
        = Z.min 50000 (Z.of_nat (String.length (file_content file))))%Z
    /\ (exists rest, file_content file = shown ++ rest)
    /\ ((Z.of_nat (String.length (file_content file)) <= 50000)%Z ->
        shown = file_content file /\ note = "")
    /\ ((50000 < Z.of_nat (String.length (file_content file)))%Z ->
        note = JS.nl ++ JS.nl
               ++ "*File truncated at 50000 characters. Total size: "
               ++ JS.String_of_number (file_size file) ++ " bytes.*").
Proof.
  intros Hon Hfile. unfold get_github_file. rewrite Hon. cbn [negb].
  unfold bind. rewrite Hfile. cbv beta iota zeta. unfold ret.
  destruct (maxChars <? Z.of_nat (String.length (file_content file)))%Z eqn:E.
  - apply Z.ltb_lt in E. unfold maxChars in *.
    eexists _, _. split; [reflexivity|].
    split.
    { rewrite GithubExtras.substring_length. lia. }
    split; [apply GithubExtras.substring_prefix|].
    split; [lia|]. intros _. reflexivity.
  - apply Z.ltb_ge in E. unfold maxChars in *.
    exists (file_content file), "". split; [reflexivity|].
    split; [lia|]. split; [exists ""; now rewrite append_empty_r|].
    split; [now split | lia].
Qed.

Lemma get_kb_article_heading (article : YoutrackKb.YouTrackArticle)
  (rest : list string) :
  "#" ++ JS.join JS.nl (("# " ++ YoutrackKb.summary article) :: rest)
  = JS.join JS.nl (("## " ++ YoutrackKb.summary article) :: rest).
Proof. unfold JS.join. cbn [String.concat]. now destruct rest. Qed.

(** X14. [get_kb_article] and the aggregator render an article alike:
    the text of the tool is the block of [formatArticle] with its
    heading one level up ([#] for [##]).  When the fetch fails or the
    article is absent, the text is [Article {id} not found.], so an
    outage reads as a missing article. *)
Theorem get_kb_article_text (article_id : string) (t : Trace) :
  exists text t',
    get_kb_article env URL_canParse upstream article_id t = (Resolved text, t')
    /\ (forall article,
          fst (YoutrackKb.getKBArticle env URL_canParse (youtrack upstream)
                 article_id t)
          = Resolved (Some article) ->
          "#" ++ text = YoutrackKb.formatArticle article)
    /\ (fst (YoutrackKb.getKBArticle env URL_canParse (youtrack upstream)
               article_id t)
        = Resolved None ->
        text = "Article " ++ article_id ++ " not found.")
    /\ ((forall r, fails (YoutrackKb.article (youtrack upstream) r) = true) ->
        text = "Article " ++ article_id ++ " not found.").
Proof.
  unfold get_kb_article, bind.
  destruct (KbProperties.getKBArticle_outcome env URL_canParse
              (youtrack upstream) article_id t)
    as (found & t1 & sent & Hrun & _ & Hcase).
  rewrite Hrun. cbn [fst].
  destruct found as [article|].
  - eexists _, _. split; [reflexivity|].
    split.
    { intros a [= <-]. unfold YoutrackKb.formatArticle, JS.push.
      destruct (YoutrackKb.project article), (YoutrackKb.parentArticle article),
        (YoutrackKb.childArticles article) as [[|c cs]|],
        (YoutrackKb.content article) as [body|];
        try destruct (JS.truthy body);
        cbn [app]; apply get_kb_article_heading. }
    split; [discriminate|].
    intros Hdown. exfalso.
    destruct (URL_canParse _).
    + destruct Hcase as (r & _ & _ & Hfail). now specialize (Hfail (Hdown r)).
    + now destruct Hcase.
  - eexists _, _. split; [reflexivity|].
    split; [discriminate|]. now split.
Qed.

(** X15. An outage reads as an empty result.  Each of the four search
    tools has one sentence for a search that found nothing, and it
    answers with that same sentence when the calls to its service fail:
    the adapter then returns the empty sequence, as for no hit.  For
    the support site this is on a query that [encodeURIComponent]
    accepts, and for the code host with the token set. *)
Theorem outage_reads_as_no_results :
  ((forall query (limit : option JS.number) t,
      fst (YoutrackKb.searchKBArticles env URL_canParse (youtrack upstream)
             query (Some (JS.nullish limit 10%Z)) t)
      = Resolved [] ->
      fst (search_kb_articles env URL_canParse upstream query limit t)
      = Resolved "No knowledge base articles found.")
   /\ ((forall r, fails (YoutrackKb.articles (youtrack upstream) r) = true) ->
       forall query (limit : option JS.number) t,
         fst (YoutrackKb.searchKBArticles env URL_canParse (youtrack upstream)
                query (Some (JS.nullish limit 10%Z)) t)
         = Resolved []
         /\ fst (search_kb_articles env URL_canParse upstream query limit t)
            = Resolved "No knowledge base articles found."))
  /\ ((forall query (limit : option JS.number) t,
         fst (SupportSite.searchSupportSite encodeURIComponent
                (zendesk upstream) query (Some (JS.nullish limit 5%Z)) t)
         = Resolved [] ->
         fst (search_support_site encodeURIComponent upstream query limit t)
         = Resolved "No support articles found.")
      /\ ((forall r, fails (SupportSite.search (zendesk upstream) r) = true) ->
          forall query encodedQuery (limit : option JS.number) t,
            encodeURIComponent query = Some encodedQuery ->
            fst (SupportSite.searchSupportSite encodeURIComponent
                   (zendesk upstream) query (Some (JS.nullish limit 5%Z)) t)
            = Resolved []
            /\ fst (search_support_site encodeURIComponent upstream query
                      limit t)
               = Resolved "No support articles found."))
  /\ (GithubSearch.isGitHubConfigured env = true ->
      (forall query org (limit : option JS.number) t,
         fst (GithubSearch.searchGitHubCode env (github upstream) query org
                (Some (JS.nullish limit 10%Z)) t)
         = Resolved [] ->
         fst (search_github_code env upstream query org limit t)
         = Resolved "No code matches found.")
      /\ ((forall r,
             fails (GithubSearch.searchCode (github upstream) r) = true) ->
          forall query org (limit : option JS.number) t,
            fst (GithubSearch.searchGitHubCode env (github upstream) query org
                   (Some (JS.nullish limit 10%Z)) t)
            = Resolved []
            /\ fst (search_github_code env upstream query org limit t)
               = Resolved "No code matches found."))
  /\ (GithubSearch.isGitHubConfigured env = true ->
      (forall query org (limit : option JS.number) t,
         fst (GithubSearch.searchGitHubRepos env (github upstream) query org
                (Some (JS.nullish limit 5%Z)) t)
         = Resolved [] ->
         fst (search_github_repos env upstream query org limit t)
         = Resolved "No matching repositories found.")
      /\ ((forall r,
             fails (GithubSearch.searchRepositories (github upstream) r)
             = true) ->
          forall query org (limit : option JS.number) t,
            fst (GithubSearch.searchGitHubRepos env (github upstream) query
                   org (Some (JS.nullish limit 5%Z)) t)
            = Resolved []
            /\ fst (search_github_repos env upstream query org limit t)
               = Resolved "No matching repositories found.")).
Proof.
  assert (Hkb : forall query (limit : option JS.number) t,
             fst (YoutrackKb.searchKBArticles env URL_canParse
                    (youtrack upstream) query (Some (JS.nullish limit 10%Z)) t)
             = Resolved [] ->
             fst (search_kb_articles env URL_canParse upstream query limit t)
             = Resolved "No knowledge base articles found.").
  { intros query limit t Hnone. unfold search_kb_articles, bind.
    destruct (YoutrackKb.searchKBArticles env URL_canParse (youtrack upstream)
                query (Some (JS.nullish limit 10%Z)) t) as [o t1].
    simpl in Hnone. now subst o. }
  assert (Hsupport : forall query (limit : option JS.number) t,
             fst (SupportSite.searchSupportSite encodeURIComponent
                    (zendesk upstream) query (Some (JS.nullish limit 5%Z)) t)
             = Resolved [] ->
             fst (search_support_site encodeURIComponent upstream query limit t)
             = Resolved "No support articles found.").
  { intros query limit t Hnone. unfold search_support_site, bind.
    destruct (SupportSite.searchSupportSite encodeURIComponent
                (zendesk upstream) query (Some (JS.nullish limit 5%Z)) t)
      as [o t1].
    simpl in Hnone. now subst o. }
  assert (Hcode : GithubSearch.isGitHubConfigured env = true ->
             forall query org (limit : option JS.number) t,
             fst (GithubSearch.searchGitHubCode env (github upstream) query org
                    (Some (JS.nullish limit 10%Z)) t)
             = Resolved [] ->
             fst (search_github_code env upstream query org limit t)
             = Resolved "No code matches found.").
  { intros Hon query org limit t Hnone. unfold search_github_code.
    rewrite Hon. cbn [negb]. unfold bind.
    destruct (GithubSearch.searchGitHubCode env (github upstream) query org
                (Some (JS.nullish limit 10%Z)) t) as [o t1].
    simpl in Hnone. now subst o. }
  assert (Hrepos : GithubSearch.isGitHubConfigured env = true ->
             forall query org (limit : option JS.number) t,
             fst (GithubSearch.searchGitHubRepos env (github upstream) query
                    org (Some (JS.nullish limit 5%Z)) t)
             = Resolved [] ->
             fst (search_github_repos env upstream query org limit t)
             = Resolved "No matching repositories found.").
  { intros Hon query org limit t Hnone. unfold search_github_repos.
    rewrite Hon. cbn [negb]. unfold bind.
    destruct (GithubSearch.searchGitHubRepos env (github upstream) query org
                (Some (JS.nullish limit 5%Z)) t) as [o t1].
    simpl in Hnone. now subst o. }
  split.
  { split; [exact Hkb|]. intros Hdown query limit t.
    pose proof (KbProperties.searchKBArticles_down env URL_canParse
                  (youtrack upstream) query (Some (JS.nullish limit 10%Z)) t
                  Hdown) as Hnone.
    split; [exact Hnone | now apply Hkb]. }
  split.
  { split; [exact Hsupport|]. intros Hdown query encodedQuery limit t Hquery.
    assert (Hnone : fst (SupportSite.searchSupportSite encodeURIComponent
                           (zendesk upstream) query
                           (Some (JS.nullish limit 5%Z)) t)
                    = Resolved []).
    { destruct (SupportProperties.searchSupportSite_outcome encodeURIComponent
                  (zendesk upstream) query encodedQuery
                  (Some (JS.nullish limit 5%Z)) t Hquery)
        as (r & v & t1 & -> & _ & _ & Hfail).
      simpl. now rewrite (Hfail (Hdown r)). }
    split; [exact Hnone | now apply Hsupport]. }
  split.
  { intros Hon. split; [exact (Hcode Hon)|]. intros Hdown query org limit t.
    assert (Hnone : fst (GithubSearch.searchGitHubCode env (github upstream)
                           query org (Some (JS.nullish limit 10%Z)) t)
                    = Resolved []).
    { destruct (GithubProperties.searchGitHubCode_outcome env (github upstream)
                  query org (Some (JS.nullish limit 10%Z)) t)
        as (r & v & t1 & -> & _ & _ & _ & Hfail).
      simpl. now rewrite (Hfail (Hdown r)). }
    split; [exact Hnone | now apply Hcode]. }
  intros Hon. split; [exact (Hrepos Hon)|]. intros Hdown query org limit t.
  assert (Hnone : fst (GithubSearch.searchGitHubRepos env (github upstream)
                         query org (Some (JS.nullish limit 5%Z)) t)
                  = Resolved []).
  { destruct (GithubProperties.searchGitHubRepos_outcome env (github upstream)
                query org (Some (JS.nullish limit 5%Z)) t)
      as (r & v & t1 & -> & _ & _ & _ & Hfail).
    simpl. now rewrite (Hfail (Hdown r)). }
  split; [exact Hnone | now apply Hrepos].
Qed.

(** X16. The registry with the code host extends the one without.  For
    the same question and limits, on a question that
    [encodeURIComponent] accepts, its text is the text of the
    two-source aggregator followed by a separator and the code-results
    section, and every request the two-source aggregator makes it makes
    too.  On a question on which [encodeURIComponent] throws both
    reject. *)
Theorem three_sources_extend_two (question : string)
  (max_kb_articles max_support_articles : option JS.number)
  (include_github : option bool) (t : Trace) :
  (forall encodedQuestion,
      encodeURIComponent question = Some encodedQuestion ->
      exists base section t1 t2,
        ToolsTwoSources.ask_product_question env URL_canParse encodeURIComponent
          cheerio_load upstream question max_kb_articles max_support_articles t
        = (Resolved base, t1)
        /\ ask_product_question env URL_canParse encodeURIComponent cheerio_load
             upstream question max_kb_articles max_support_articles
             include_github t
           = (Resolved
                (base ++ JS.nl
                 ++ JS.join JS.nl
                      [ ""; "---"; ""; "# GitHub Code Search Results"; "";
                        section ]),
              t2)
        /\ (forall r, In r (requests t1) -> In r (requests t2)))
  /\ (encodeURIComponent question = None ->
      fst (ToolsTwoSources.ask_product_question env URL_canParse
             encodeURIComponent cheerio_load upstream question max_kb_articles
             max_support_articles t)
      = Rejected "URI malformed"
      /\ fst (ask_product_question env URL_canParse encodeURIComponent
                cheerio_load upstream question max_kb_articles
                max_support_articles include_github t)
         = Rejected "URI malformed").
Proof.
  split; [intros encodedQuestion Hquestion | intros Hquestion];
    unfold ToolsTwoSources.ask_product_question, ask_product_question;
    unfold bind; unfold Promise_all2 at 1;
    destruct (KbProperties.searchAndFetchArticles_resolves env URL_canParse
                (youtrack upstream) question
                (Some (JS.nullish max_kb_articles 5%Z)) t) as (kb & t1 & Hkb).
  2:{ rewrite Hkb.
      rewrite (SupportProperties.searchAndFetchSupportArticles_malformed
                 encodeURIComponent cheerio_load (zendesk upstream) question
                 (Some (JS.nullish max_support_articles 3%Z)) t1 Hquestion).
      split; [reflexivity|].
      destruct (JS.nullish include_github (GithubSearch.isGitHubConfigured env)
                && GithubSearch.isGitHubConfigured env).
      - unfold JS.push. cbn [app Promise_all]. unfold Promise_all2, ret.
        rewrite Hkb.
        rewrite (SupportProperties.searchAndFetchSupportArticles_malformed
                   encodeURIComponent cheerio_load (zendesk upstream) question
                   (Some (JS.nullish max_support_articles 3%Z)) t1 Hquestion).
        destruct (GithubSearch.searchAndFetchGitHubResults env
                    (github upstream) question None t1) as [[text|e] t3];
          reflexivity.
      - cbn [Promise_all]. unfold Promise_all2, ret.
        rewrite Hkb.
        rewrite (SupportProperties.searchAndFetchSupportArticles_malformed
                   encodeURIComponent cheerio_load (zendesk upstream) question
                   (Some (JS.nullish max_support_articles 3%Z)) t1 Hquestion).
        reflexivity. }
  destruct (SupportProperties.searchAndFetchSupportArticles_outcome
              encodeURIComponent cheerio_load (zendesk upstream) question
              encodedQuestion (Some (JS.nullish max_support_articles 3%Z)) t1
              Hquestion)
    as (r & support & t2 & Hsupport & _).
  rewrite Hkb, Hsupport. cbv beta iota. unfold ret.
  assert (Hjoin : forall section,
             JS.join JS.nl
               [ kbHeading; ""; kb; ""; "---"; ""; supportHeading; ""; support;
                 ""; "---"; ""; githubHeading; ""; section ]
             = JS.join JS.nl
                 [ "# YouTrack Knowledge Base Results"; ""; kb; ""; "---"; "";
                   "# Support Site Results"; ""; support ]
               ++ JS.nl
               ++ JS.join JS.nl
                    [ ""; "---"; ""; "# GitHub Code Search Results"; "";
                      section ]).
  { intros section.
    now rewrite <- join_append by discriminate. }
  destruct (JS.nullish include_github (GithubSearch.isGitHubConfigured env)
            && GithubSearch.isGitHubConfigured env) eqn:Hgo.
  - apply andb_true_iff in Hgo. destruct Hgo as [_ Hon].
    destruct (GithubProperties.searchAndFetchGitHubResults_configured env
                (github upstream) question None t2 Hon)
      as (text & t3 & Hgithub & Htruthy).
    assert (Hmore : exists more, requests t3 = (requests t2 ++ more)%list).
    { pose proof Hgithub as Hrun.
      unfold GithubSearch.searchAndFetchGitHubResults in Hrun.
      rewrite Hon in Hrun. cbn [negb] in Hrun.
      unfold bind, Promise_all2 in Hrun.
      destruct (GithubProperties.searchGitHubCode_outcome env (github upstream)
                  question None (Some 10%Z) t2)
        as (rc & vc & tc & Hc & Hreqc & _).
      destruct (GithubProperties.searchGitHubRepos_outcome env (github upstream)
                  question None (Some 5%Z) tc)
        as (rr & vr & tr & Hr & Hreqr & _).
      rewrite Hc, Hr in Hrun. cbv beta iota in Hrun. unfold ret in Hrun.
      injection Hrun as _ <-.
      exists [rc; rr]. rewrite Hreqr, Hreqc, <- app_assoc. reflexivity. }
    destruct Hmore as [more Hmore].
    exists (JS.join JS.nl
              [ "# YouTrack Knowledge Base Results"; ""; kb; ""; "---"; "";
                "# Support Site Results"; ""; support ]),
      text, t2, t3.
    split; [reflexivity|].
    split; [|intros r0 Hin; rewrite Hmore; apply in_or_app; now left].
    unfold JS.push. cbn [app Promise_all]. unfold Promise_all2, ret.
    rewrite Hkb, Hsupport, Hgithub. cbn [nth nth_error].
    unfold JS.opt_or_else, JS.or_else. rewrite Htruthy.
    now rewrite Hjoin.
  - exists (JS.join JS.nl
              [ "# YouTrack Knowledge Base Results"; ""; kb; ""; "---"; "";
                "# Support Site Results"; ""; support ]),
      GithubSearch.notConfigured, t2, t2.
    split; [reflexivity|]. split; [|now intros r0 Hin].
    cbn [Promise_all]. unfold Promise_all2, ret.
    rewrite Hkb, Hsupport. cbn [nth nth_error JS.opt_or_else].
    now rewrite Hjoin.
Qed.

End Registry.

(** With [Scenario.getFile] the small file is shown whole. *)
Lemma get_github_file_truncation_witness :
  exists shown note,
    get_github_file Scenario.env Scenario.getFile "Realtyka/caps" "README.md"
      None []
    = (Resolved
         (JS.join JS.nl
            [ "**" ++ "Realtyka/caps" ++ "** / `" ++ "README.md" ++ "`";
              "**Size:** "
              ++ JS.String_of_number (file_size Scenario.readme) ++ " bytes";
              "**URL:** " ++ file_htmlUrl Scenario.readme;
              "" ]
          ++ "```" ++ JS.nl ++ shown ++ JS.nl ++ "```" ++ note),
       [])
    /\ (Z.of_nat (String.length shown)
        = Z.min 50000 (Z.of_nat (String.length (file_content Scenario.readme))))%Z
    /\ (exists rest, file_content Scenario.readme = shown ++ rest)
    /\ ((Z.of_nat (String.length (file_content Scenario.readme)) <= 50000)%Z ->
        shown = file_content Scenario.readme /\ note = "")
    /\ ((50000 < Z.of_nat (String.length (file_content Scenario.readme)))%Z ->
        note = JS.nl ++ JS.nl
               ++ "*File truncated at 50000 characters. Total size: "
               ++ JS.String_of_number (file_size Scenario.readme)
               ++ " bytes.*").
Proof.
  apply (get_github_file_truncation Scenario.env Scenario.getFile
           "Realtyka/caps" "README.md" None [] Scenario.readme []).
  - reflexivity.
  - reflexivity.
Defined.

(** With [Scenario.env_without_github], a forced inclusion still sends
    nothing to the code host. *)
Lemma code_host_untouched_without_token_witness :
  snd (ask_product_question Scenario.env_without_github Scenario.canParse
         Scenario.encode Scenario.load Scenario.upstream_quiet "caps"
         None None (Some true) [])
  = snd (SupportSite.searchAndFetchSupportArticles Scenario.encode
           Scenario.load (zendesk Scenario.upstream_quiet) "caps"
           (Some (JS.nullish None 3%Z))
           (snd (YoutrackKb.searchAndFetchArticles Scenario.env_without_github
                   Scenario.canParse (youtrack Scenario.upstream_quiet) "caps"
                   (Some (JS.nullish None 5%Z)) []))).
Proof.
  apply (code_host_untouched_without_token Scenario.env_without_github
           Scenario.canParse Scenario.encode Scenario.load
           Scenario.upstream_quiet Scenario.getFile).
  reflexivity.
Defined.

End ToolsExtras.

(** ** Which credentials the adapters send *)

Module CredentialExtras.
Import Net.

Lemma quiet_ret {A : Type} (a : A) : quiet (ret a).
Proof. intros t. reflexivity. Qed.

Lemma quiet_throw {A : Type} (message : string) : quiet (@throw A message).
Proof. intros t. reflexivity. Qed.

Lemma quiet_bind {A B : Type} (c : Async A) (k : A -> Async B) :
  quiet c -> (forall a, quiet (k a)) -> quiet (bind c k).
Proof.
  intros Hc Hk t. unfold bind. specialize (Hc t).
  destruct (c t) as [[a|e] t']; cbn [snd] in *; [|exact Hc].
  now rewrite Hk.
Qed.

Lemma quiet_readJson {A : Type} (r : Response A) : quiet (readJson r).
Proof. unfold readJson. destruct (json r); [apply quiet_throw | apply quiet_ret]. Qed.

Lemma quiet_log_and_return {A : Type} (label detail : string) (a : A) :
  quiet (bind (console_error label detail) (fun _ => ret a)).
Proof. intros t. apply AsyncFacts.requests_push_log. Qed.

(** A [try] whose handler makes no request makes the requests of its
    body. *)
Lemma requests_try_catch {A : Type} (body : Async A)
  (handler : string -> Async A) (t : Trace) :
  (forall e, quiet (handler e)) ->
  requests (snd (try_catch body handler t)) = requests (snd (body t)).
Proof.
  intros Hh. unfold try_catch.
  destruct (body t) as [[a|e] t']; [reflexivity|]. apply Hh.
Qed.

Lemma requests_bind {A B : Type} (c : Async A) (k : A -> Async B) (t : Trace) :
  (forall a, quiet (k a)) ->
  requests (snd (bind c k t)) = requests (snd (c t)).
Proof.
  intros Hk. unfold bind.
  destruct (c t) as [[a|e] t']; [|reflexivity]. apply Hk.
Qed.

Lemma requests_fetch {A : Type} (endpoint : Endpoint A) (r : Request)
  (t : Trace) :
  requests (snd (fetch endpoint r t)) = (requests t ++ [r])%list.
Proof.
  unfold fetch. destruct (endpoint r); apply AsyncFacts.requests_push_fetch.
Qed.

Section Adapters.

Variable env : Env.
Variable encodeURIComponent : string -> option string.
Variable cheerio_load : string -> list SupportSite.Node.
Variable zendesk : SupportSite.Server.
Variable github : GithubSearch.Server.

Lemma nothing_sent (t : Trace) (P : Request -> Prop) :
  exists sent,
    requests t = (requests t ++ sent)%list
    /\ (length sent <= 1)%nat
    /\ Forall P sent.
Proof.
  exists []. rewrite app_nil_r. split; [reflexivity|].
  split; [simpl; lia | constructor].
Qed.

Lemma searchSupportSite_sent (query : string) (limit : option JS.number)
  (t : Trace) :
  exists sent,
    requests (snd (SupportSite.searchSupportSite encodeURIComponent zendesk
                     query limit t))
    = (requests t ++ sent)%list
    /\ (length sent <= 1)%nat
    /\ Forall SupportSite.withoutCredentials sent.
Proof.
  unfold SupportSite.searchSupportSite, SupportSite.encoded.
  destruct (encodeURIComponent query) as [encodedQuery|];
    [|apply nothing_sent].
  unfold bind at 1, ret.
  rewrite requests_try_catch by (intros e; apply quiet_log_and_return).
  rewrite requests_bind.
  2:{ intros resp. destruct (negb (ok resp)); [apply quiet_throw|].
      apply quiet_bind; [apply quiet_readJson | intros data; apply quiet_ret]. }
  rewrite requests_fetch.
  eexists [_]. split; [reflexivity|]. split; [simpl; lia|].
  constructor; [|constructor]. split; [|reflexivity].
  cbn [req_url].
  exact (KbExtras.startsWith_own_prefix
           (SupportSite.ZENDESK_API_BASE ++ "/articles/")
           ("search.json?query=" ++ encodedQuery ++ "&per_page="
            ++ JS.String_of_number (JS.nullish limit 5%Z))).
Qed.

Lemma searchAndFetchSupportArticles_sent (query : string)
  (maxArticles : option JS.number) (t : Trace) :
  exists sent,
    requests (snd (SupportSite.searchAndFetchSupportArticles encodeURIComponent
                     cheerio_load zendesk query maxArticles t))
    = (requests t ++ sent)%list
    /\ (length sent <= 1)%nat
    /\ Forall SupportSite.withoutCredentials sent.
Proof.
  unfold SupportSite.searchAndFetchSupportArticles, SupportSite.encoded.
  destruct (encodeURIComponent query) as [encodedQuery|];
    [|apply nothing_sent].
  unfold bind at 1, ret.
  rewrite requests_try_catch by (intros e; apply quiet_log_and_return).
  rewrite requests_bind.
  2:{ intros resp. destruct (negb (ok resp)); [apply quiet_throw|].
      apply quiet_bind; [apply quiet_readJson|].
      intros data. destruct (JS.or_empty (SupportSite.results data));
        apply quiet_ret. }
  rewrite requests_fetch.
  eexists [_]. split; [reflexivity|]. split; [simpl; lia|].
  constructor; [|constructor]. split; [|reflexivity].
  cbn [req_url].
  exact (KbExtras.startsWith_own_prefix
           (SupportSite.ZENDESK_API_BASE ++ "/articles/")
           ("search.json?query=" ++ encodedQuery ++ "&per_page="
            ++ JS.String_of_number (JS.nullish maxArticles 3%Z))).
Qed.

Lemma getSupportArticle_sent (url : string) (t : Trace) :
  exists sent,
    requests (snd (SupportSite.getSupportArticle cheerio_load zendesk url t))
    = (requests t ++ sent)%list
    /\ (length sent <= 1)%nat
    /\ Forall SupportSite.withoutCredentials sent.
Proof.
  unfold SupportSite.getSupportArticle.
  rewrite requests_try_catch by (intros e; apply quiet_log_and_return).
  destruct (SupportSite.matchArticleId url) as [articleId|];
    [|apply nothing_sent].
  rewrite requests_bind.
  2:{ intros resp. destruct (negb (ok resp)); [apply quiet_throw|].
      apply quiet_bind; [apply quiet_readJson|].
      intros data. destruct (SupportSite.article data);
        [apply quiet_ret | apply quiet_throw]. }
  rewrite requests_fetch.
  eexists [_]. split; [reflexivity|]. split; [simpl; lia|].
  constructor; [|constructor]. split; [|reflexivity].
  cbn [req_url].
  exact (KbExtras.startsWith_own_prefix
           (SupportSite.ZENDESK_API_BASE ++ "/articles/")
           (articleId ++ ".json")).
Qed.

Lemma requests_githubFetch {A : Type} (endpoint : Endpoint A) (path : string)
  (params : list (string * string)) (t : Trace) :
  exists r,
    requests (snd (GithubSearch.githubFetch env endpoint path params t))
    = (requests t ++ [r])%list
    /\ req_url r = GithubSearch.GITHUB_API_BASE ++ path
    /\ req_headers r
       = [ ("Authorization", "Bearer " ++ GithubSearch.GITHUB_TOKEN env);
           ("Accept", "application/vnd.github.text-match+json");
           ("X-GitHub-Api-Version", "2022-11-28") ].
Proof.
  unfold GithubSearch.githubFetch.
  rewrite requests_bind.
  2:{ intros resp. destruct (negb (ok resp));
        [apply quiet_throw | apply quiet_readJson]. }
  rewrite requests_fetch. eexists. split; [reflexivity|]. now split.
Qed.

Lemma searchGitHubCode_sent (query : string) (org : option string)
  (limit : option JS.number) (t : Trace) :
  exists r,
    requests (snd (GithubSearch.searchGitHubCode env github query org limit t))
    = (requests t ++ [r])%list
    /\ GithubSearch.withToken env r.
Proof.
  unfold GithubSearch.searchGitHubCode.
  rewrite requests_try_catch by (intros e; apply quiet_log_and_return).
  rewrite requests_bind by (intros data; apply quiet_ret).
  destruct (requests_githubFetch (GithubSearch.searchCode github)
              "/search/code"
              [ ("q", GithubSearch.scopedQuery env query org);
                ("per_page", JS.String_of_number (JS.nullish limit 10%Z)) ] t)
    as (r & Hreq & Hurl & Hheaders).
  exists r. split; [exact Hreq|]. split; [now left | exact Hheaders].
Qed.

Lemma searchGitHubRepos_sent (query : string) (org : option string)
  (limit : option JS.number) (t : Trace) :
  exists r,
    requests (snd (GithubSearch.searchGitHubRepos env github query org limit t))
    = (requests t ++ [r])%list
    /\ GithubSearch.withToken env r.
Proof.
  unfold GithubSearch.searchGitHubRepos.
  rewrite requests_try_catch by (intros e; apply quiet_log_and_return).
  rewrite requests_bind by (intros data; apply quiet_ret).
  destruct (requests_githubFetch (GithubSearch.searchRepositories github)
              "/search/repositories"
              [ ("q", GithubSearch.scopedQuery env query org);
                ("per_page", JS.String_of_number (JS.nullish limit 5%Z));
                ("sort", "best-match") ] t)
    as (r & Hreq & Hurl & Hheaders).
  exists r. split; [exact Hreq|]. split; [now right | exact Hheaders].
Qed.

(** X18. Credentials stay with their service, for the two adapters
    whose addresses are fixed.  Every request of the support adapter
    ([searchSupportSite], [getSupportArticle],
    [searchAndFetchSupportArticles]) is for the articles of the help
    center and carries the [Accept] header alone, so neither token is
    ever sent to the help center by it; there is at most one such
    request per call.  Every request of the search operations of the
    code-host adapter is for [/search/code] or [/search/repositories]
    of the code host and carries the code-host token. *)
Theorem credentials_stay_with_their_service (t : Trace) :
  (forall query limit,
      exists sent,
        requests (snd (SupportSite.searchSupportSite encodeURIComponent zendesk
                         query limit t))
        = (requests t ++ sent)%list
        /\ (length sent <= 1)%nat
        /\ Forall SupportSite.withoutCredentials sent)
  /\ (forall url,
        exists sent,
          requests (snd (SupportSite.getSupportArticle cheerio_load zendesk
                           url t))
          = (requests t ++ sent)%list
          /\ (length sent <= 1)%nat
          /\ Forall SupportSite.withoutCredentials sent)
  /\ (forall query maxArticles,
        exists sent,
          requests (snd (SupportSite.searchAndFetchSupportArticles
                           encodeURIComponent cheerio_load zendesk query
                           maxArticles t))
          = (requests t ++ sent)%list
          /\ (length sent <= 1)%nat
          /\ Forall SupportSite.withoutCredentials sent)
  /\ (forall query org limit,
        exists r,
          requests (snd (GithubSearch.searchGitHubCode env github query org
                           limit t))
          = (requests t ++ [r])%list
          /\ GithubSearch.withToken env r)
  /\ (forall query org limit,
        exists r,
          requests (snd (GithubSearch.searchGitHubRepos env github query org
                           limit t))
          = (requests t ++ [r])%list
          /\ GithubSearch.withToken env r)
  /\ (forall query org,
        exists sent,
          requests (snd (GithubSearch.searchAndFetchGitHubResults env github
                           query org t))
          = (requests t ++ sent)%list
          /\ (length sent <= 2)%nat
          /\ Forall (GithubSearch.withToken env) sent).
Proof.
  split; [intros; apply searchSupportSite_sent|].
  split; [intros; apply getSupportArticle_sent|].
  split; [intros; apply searchAndFetchSupportArticles_sent|].
  split; [intros; apply searchGitHubCode_sent|].
  split; [intros; apply searchGitHubRepos_sent|].
  intros query org. unfold GithubSearch.searchAndFetchGitHubResults.
  destruct (GithubSearch.isGitHubConfigured env); cbn [negb].
  2:{ exists []. simpl. rewrite app_nil_r. split; [reflexivity|].
      split; [lia | constructor]. }
  unfold bind, Promise_all2.
  destruct (searchGitHubCode_sent query org (Some 10%Z) t)
    as (rc & Hreqc & Hgoodc).
  destruct (GithubSearch.searchGitHubCode env github query org (Some 10%Z) t)
    as [oc tc].
  cbn [snd] in Hreqc.
  destruct (searchGitHubRepos_sent query org (Some 5%Z) tc)
    as (rr & Hreqr & Hgoodr).
  destruct (GithubSearch.searchGitHubRepos env github query org (Some 5%Z) tc)
    as [or tr].
  cbn [snd] in Hreqr.
  exists [rc; rr].
  split; [|split; [simpl; lia | constructor; [exact Hgoodc|]; constructor;
                                [exact Hgoodr | constructor]]].
  destruct oc as [vc|ec], or as [vr|er]; cbv beta iota; unfold ret; cbn [snd];
    rewrite Hreqr, Hreqc, <- app_assoc; reflexivity.
Qed.

End Adapters.

End CredentialExtras.
